(** * Haven: the VectorDB coordinator and the embedding model loader

    A shallow embedding of [src/core/VectorDB.ts] (the [VectorDB] facade:
    insert, insertBatch, search, delete, update, clear, export,
    exportStream, import and their private helpers) and of
    [src/embedding/TransformersEmbedding.ts] ([initialize] and its retry
    loop), with the properties the specification states about them.

    Asynchronous methods are modelled under the single-writer discipline of
    the specification: one operation runs to completion (or to its throw)
    before the next starts, so a method is a function from the database
    before the call to an outcome and the database after it.  A thrown
    exception keeps every mutation made before the throw. *)

From stdpp Require Import gmap strings list fin_maps pretty.
From Stdlib Require Import ZArith Lia Ascii.

Open Scope Z_scope.

Set Warnings "-register-all".

(* ===================================================================== *)
(** * Data model *)
(* ===================================================================== *)

(** Values that metadata holds (JSON scalars and containers, and
    [undefined], which [content: data.text] stores when no text is given). *)
Inductive JsValue : Type :=
| JUndefined
| JNull
| JBool (b : bool)
| JNum (n : Z)
| JStr (s : string)
| JArr (items : list JsValue)
| JObj (fields : list (string * JsValue)).

(** A metadata object: own properties by name. *)
Abbreviation Metadata := (gmap string JsValue).

(** One element of a [Float32Array], by its 32-bit pattern.  No arithmetic
    is done on elements here; [Array.from] widens each element to the
    number of the same value and [new Float32Array] narrows it back, which
    is the identity on values that came from a [Float32Array], so both are
    the identity on this carrier. *)
Definition Float32 : Type := Z.
Definition Vector : Type := list Float32.

(** [vector.byteLength] *)
Definition byteLength (v : Vector) : nat := (4 * length v)%nat.

(** [VectorRecord] of [storage/types]. *)
Record VectorRecord : Type := mkRecord {
  rec_id : string;
  rec_vector : Vector;
  rec_metadata : Metadata;
  rec_timestamp : Z
}.

(** [InsertData]: every field is optional. *)
Record InsertData : Type := mkInsert {
  d_vector : option Vector;
  d_text : option string;
  d_metadata : option Metadata
}.

(** The [code] of a [VectorDBError]. *)
Inductive ErrorCode : Type :=
| NOT_INITIALIZED | INIT_ERROR | INVALID_CONFIG
| DIMENSION_MISMATCH | INDEX_CORRUPTED
| INVALID_QUERY | INVALID_INSERT_DATA | INVALID_METADATA
| INVALID_EXPORT_DATA | INVALID_VECTOR_RECORD
| INVALID_VERSION | VERSION_INCOMPATIBLE
| INSERT_ERROR | INSERT_BATCH_ERROR | SEARCH_ERROR | DELETE_ERROR
| UPDATE_ERROR | CLEAR_ERROR | SIZE_ERROR | EXPORT_ERROR
| EXPORT_STREAM_ERROR | IMPORT_ERROR.

(** What a method can throw: a [VectorDBError] (of which
    [DimensionMismatchError] and [IndexCorruptedError] are subclasses,
    told apart by their code), or any other JavaScript error. *)
Inductive Exn : Type :=
| VectorDBError (code : ErrorCode)
| JsError (message : string).

Definition DimensionMismatchError : Exn := VectorDBError DIMENSION_MISMATCH.
Definition IndexCorruptedError : Exn := VectorDBError INDEX_CORRUPTED.

(** [error instanceof VectorDBError] *)
Definition instanceofVectorDBError (e : Exn) : bool :=
  match e with VectorDBError _ => true | JsError _ => false end.

Inductive Result (A : Type) : Type :=
| Ok (a : A)
| Throw (e : Exn).
Arguments Ok {A} a.
Arguments Throw {A} e.

(** JavaScript truthiness of an optional string: [undefined] and the empty
    string are falsy. *)
Definition truthy (s : option string) : bool :=
  match s with
  | Some s => negb (String.eqb s "")
  | None => false
  end.

(* ===================================================================== *)
(** * Collaborators that are not part of the coordinator *)
(* ===================================================================== *)

(** ** Storage *)

(** Modelled from the spec: [IndexedDBStorage] (section 4.1) is missing
    from the sources.  A keyed store: [put] is an upsert, [delete] reports
    whether the key existed, [getAll] and [scan] deliver every record. *)
Abbreviation Storage := (gmap string VectorRecord).

Definition storage_put (r : VectorRecord) (s : Storage) : Storage :=
  <[rec_id r := r]> s.

Definition storage_putBatch (rs : list VectorRecord) (s : Storage) : Storage :=
  foldl (fun acc r => storage_put r acc) s rs.

Definition storage_get (id : string) (s : Storage) : option VectorRecord :=
  s !! id.

Definition storage_delete (id : string) (s : Storage) : bool * Storage :=
  match s !! id with
  | Some _ => (true, delete id s)
  | None => (false, s)
  end.

Definition storage_getAll (s : Storage) : list VectorRecord :=
  (map_to_list s).*2.

Definition storage_count (s : Storage) : nat := size s.

(** ** Batch coalescer *)

(** Modelled from the spec: [BatchCoalescer] (section 4.5) is missing from
    the sources.  [put] resolves when the record is durable and [delete]
    resolves, once flushed, with whether the id existed; the coordinator
    awaits both, so when it continues the operation has reached Storage and
    nothing of this caller is left in the queue.  [flush] then has nothing
    to drain. *)
Definition coalescer_put (r : VectorRecord) (s : Storage) : Storage :=
  storage_put r s.

Definition coalescer_delete (id : string) (s : Storage) : bool * Storage :=
  storage_delete id s.

Definition coalescer_flush (s : Storage) : Storage := s.

(** ** Progressive loader *)

(** Cut a list into chunks of [c] elements (the last one may be shorter);
    [fuel] bounds the number of chunks. *)
Fixpoint chunks_fuel {A : Type} (fuel c : nat) (l : list A) : list (list A) :=
  match fuel with
  | O => []
  | S fuel' =>
      match l with
      | [] => []
      | _ => take c l :: chunks_fuel fuel' c (drop c l)
      end
  end.

Definition chunks {A : Type} (c : nat) (l : list A) : list (list A) :=
  chunks_fuel (length l) c l.

(** [chunkSize || 100] *)
Definition orDefault100 (c : option nat) : nat :=
  match c with
  | Some O | None => 100%nat
  | Some c => c
  end.

(** Modelled from the spec: [ProgressiveLoader] (section 4.6) is missing
    from the sources.  [streamProcess] drives the scan and hands the
    visitor one record at a time; [importInBatches] chunks by [chunkSize]
    (default 100) and performs one [putBatch] per chunk.  The progress
    callbacks only observe and are left out. *)
Definition streamProcess {S : Type} (s : Storage)
    (visit : VectorRecord -> S -> S) (acc : S) : S :=
  foldl (fun a r => visit r a) acc (storage_getAll s).

Definition importInBatches (chunkSize : option nat)
    (records : list VectorRecord) (s : Storage) : Storage :=
  foldl (fun acc chunk => storage_putBatch chunk acc) s
        (chunks (orDefault100 chunkSize) records).

(** ** Vector cache *)

(** Modelled from the spec: [VectorCache] (section 4.3) is missing from the
    sources.  Entries are kept most-recently-used first, each with the
    size it was accounted with. *)
Record VectorCache : Type := mkCache {
  vc_entries : list (string * (VectorRecord * nat));
  vc_bytes : nat
}.

Definition vc_empty : VectorCache := mkCache [] 0.

Definition vc_remove (id : string) (c : VectorCache) : VectorCache :=
  match list_find (fun e => e.1 = id) (vc_entries c) with
  | Some (_, (_, (_, sz))) =>
      mkCache (filter (fun e => e.1 <> id) (vc_entries c)) (vc_bytes c - sz)
  | None => c
  end.

(** Drop least-recently-used entries (the tail) until [need] more bytes
    fit under [maxBytes]. *)
Fixpoint vc_evict (fuel : nat) (maxBytes need : nat) (c : VectorCache) : VectorCache :=
  match fuel with
  | O => c
  | S fuel' =>
      if (vc_bytes c + need <=? maxBytes)%nat then c
      else match last (vc_entries c) with
           | Some (_, (_, sz)) =>
               vc_evict fuel' maxBytes need
                 (mkCache (removelast (vc_entries c)) (vc_bytes c - sz))
           | None => c
           end
  end.

Definition vc_set (maxBytes : nat) (id : string) (r : VectorRecord) (sz : nat)
    (c : VectorCache) : VectorCache :=
  if (maxBytes <? sz)%nat then c
  else
    let c1 := vc_remove id c in
    let c2 := vc_evict (length (vc_entries c1)) maxBytes sz c1 in
    mkCache ((id, (r, sz)) :: vc_entries c2) (vc_bytes c2 + sz).

Definition vc_get (id : string) (c : VectorCache) : option VectorRecord * VectorCache :=
  match list_find (fun e => e.1 = id) (vc_entries c) with
  | Some (_, (_, (r, sz))) =>
      (Some r, mkCache ((id, (r, sz)) :: filter (fun e => e.1 <> id) (vc_entries c))
                       (vc_bytes c))
  | None => (None, c)
  end.

Definition vc_delete (id : string) (c : VectorCache) : VectorCache :=
  vc_remove id c.

Definition vc_has (id : string) (c : VectorCache) : bool :=
  bool_decide (id ∈ (vc_entries c).*1).

(** ** Embedding cache *)

(** Modelled from the spec: the embedding cache (section 4.4) is missing
    from the sources.  Text to vector, at most [n] entries, least recently
    used dropped first. *)
Abbreviation EmbeddingCache := (list (string * Vector)).

Definition ec_get (text : string) (c : EmbeddingCache) : option Vector * EmbeddingCache :=
  match list_find (fun e => e.1 = text) c with
  | Some (_, (_, v)) => (Some v, (text, v) :: filter (fun e => e.1 <> text) c)
  | None => (None, c)
  end.

Definition ec_set (n : nat) (text : string) (v : Vector) (c : EmbeddingCache) : EmbeddingCache :=
  take n ((text, v) :: filter (fun e => e.1 <> text) c).

(** ** Approximate-nearest-neighbour index *)

Inductive Metric : Type := cosine | l2 | dot.

(** Modelled from the spec: [IndexManager] (section 4.2) is missing from
    the sources.  The index is its membership, by id; [add] refuses a
    vector of the wrong dimension and leaves the index unchanged;
    [remove] of an absent id does nothing. *)
Abbreviation AnnIndex := (gmap string VectorRecord).

Definition hasDimension (D : nat) (v : Vector) : bool := (length v =? D)%nat.

Definition index_add (D : nat) (r : VectorRecord) (ix : AnnIndex) : Result AnnIndex :=
  if hasDimension D (rec_vector r) then Ok (<[rec_id r := r]> ix)
  else Throw DimensionMismatchError.

Definition index_addBatch (D : nat) (rs : list VectorRecord) (ix : AnnIndex) : Result AnnIndex :=
  if forallb (fun r => hasDimension D (rec_vector r)) rs
  then Ok (foldl (fun acc r => <[rec_id r := r]> acc) ix rs)
  else Throw DimensionMismatchError.

Definition index_remove (id : string) (ix : AnnIndex) : AnnIndex := delete id ix.

Definition index_clear : AnnIndex := ∅.

(** [SearchResult] of [index/types]. *)
Record SearchResult : Type := mkResult {
  res_id : string;
  res_score : Z;
  res_metadata : Metadata;
  res_vector : option Vector
}.

(** The order of results: by score, descending for cosine and dot and
    ascending for l2; equal scores by id ascending. *)
Definition ranksBefore (m : Metric) (a b : SearchResult) : bool :=
  let better := match m with
                | l2 => res_score a <? res_score b
                | _ => res_score b <? res_score a
                end in
  better || ((res_score a =? res_score b) && String.leb (res_id a) (res_id b)).

Fixpoint rank_insert (m : Metric) (x : SearchResult) (l : list SearchResult) : list SearchResult :=
  match l with
  | [] => [x]
  | y :: l' => if ranksBefore m x y then x :: y :: l' else y :: rank_insert m x l'
  end.

Definition rank (m : Metric) (l : list SearchResult) : list SearchResult :=
  foldr (rank_insert m) [] l.

(** Modelled from the spec: [IndexManager.search] (section 4.2).  Candidates
    are scored against the query, those the filter rejects are dropped,
    the rest are ordered and cut to [k].  The metric's arithmetic on
    32-bit floats is a parameter ([score]); a filter is the predicate it
    denotes on metadata. *)
Definition index_search (D : nat) (m : Metric) (score : Vector -> Vector -> Z)
    (q : Vector) (k : nat) (flt : option (Metadata -> bool)) (ix : AnnIndex)
    : Result (list SearchResult) :=
  if hasDimension D q then
    let candidates :=
      map (fun r => mkResult (rec_id r) (score q (rec_vector r)) (rec_metadata r) None)
          (map_to_list ix).*2 in
    let kept := match flt with
                | Some f => List.filter (fun c => f (res_metadata c)) candidates
                | None => candidates
                end in
    Ok (take k (rank m kept))
  else Throw DimensionMismatchError.

(** The [index] field of an export: the string [serialize] produced, or
    any other text.  Modelled from the spec: [serialize] gives an opaque
    string capturing membership and dimensions; [deserialize] restores
    them, fails with IndexCorrupted on anything else and with
    DimensionMismatch when the serialized dimensions are not the
    configured ones. *)
Inductive IndexBytes : Type :=
| IxText (s : string)
| IxSerialized (dims : nat) (members : AnnIndex).

Definition index_serialize (D : nat) (ix : AnnIndex) : IndexBytes := IxSerialized D ix.

Definition index_deserialize (D : nat) (b : IndexBytes) : Result AnnIndex :=
  match b with
  | IxText _ => Throw IndexCorruptedError
  | IxSerialized d members =>
      if (d =? D)%nat then Ok members else Throw DimensionMismatchError
  end.

(** [if (data.index)]: only the empty string is falsy. *)
Definition indexBytes_truthy (b : IndexBytes) : bool :=
  match b with
  | IxText s => negb (String.eqb s "")
  | IxSerialized _ _ => true
  end.

(** ** Input validation *)

(** Modelled from the spec: [InputValidator.validateVector] is missing from
    the sources; a vector whose length is not the configured dimension is
    a DimensionMismatch (section 7). *)
Definition validateVector (v : Vector) (D : nat) : Result unit :=
  if hasDimension D v then Ok tt else Throw DimensionMismatchError.

(** ** JavaScript string helpers used by the version check *)

(** [s.split(sep)] for a one-character separator. *)
Fixpoint splitOn (sep : ascii) (s : string) : list string :=
  match s with
  | EmptyString => [EmptyString]
  | String c rest =>
      if Ascii.eqb c sep then EmptyString :: splitOn sep rest
      else match splitOn sep rest with
           | [] => [String c EmptyString]
           | hd :: tl => String c hd :: tl
           end
  end.

Definition isWhiteSpace (c : ascii) : bool :=
  let n := nat_of_ascii c in
  ((n =? 32) || ((9 <=? n) && (n <=? 13)))%nat.

Fixpoint skipWhiteSpace (s : string) : string :=
  match s with
  | String c rest => if isWhiteSpace c then skipWhiteSpace rest else s
  | EmptyString => s
  end.

Definition digitOf (c : ascii) : option Z :=
  let n := Z.of_nat (nat_of_ascii c) in
  if (48 <=? n) && (n <=? 57) then Some (n - 48) else None.

(** The longest prefix of decimal digits, as a number; [acc] is what has
    been read so far ([None]: no digit yet). *)
Fixpoint leadingDigits (s : string) (acc : option Z) : option Z :=
  match s with
  | String c rest =>
      match digitOf c with
      | Some d => leadingDigits rest (Some (10 * default 0 acc + d))
      | None => acc
      end
  | EmptyString => acc
  end.

(** [parseInt(s, 10)]; [None] is NaN.  Leading white space is skipped, a
    sign is accepted, and parsing stops at the first character that is not
    a digit. *)
Definition parseInt (s : string) : option Z :=
  match skipWhiteSpace s with
  | String "-"%char rest => Z.opp <$> leadingDigits rest None
  | String "+"%char rest => leadingDigits rest None
  | s' => leadingDigits s' None
  end.

(* ===================================================================== *)
(** * The coordinator: [VectorDB] *)
(* ===================================================================== *)

(** The parts of [VectorDBConfig] the coordinator reads. *)
Record Config : Type := mkConfig {
  dimensions : nat;                 (* config.index.dimensions *)
  metric : Metric;                  (* config.index.metric *)
  chunkSize : option nat;           (* config.performance?.chunkSize *)
  batching : bool;                  (* performanceOptimizer.batchOptimizer is set *)
  cacheBytes : nat;                 (* vector cache capacity *)
  embeddingCacheEntries : nat       (* embedding cache capacity *)
}.

(** The check of [validateConfig], which the constructor runs, on the
    dimensions: [!config.index?.dimensions || config.index.dimensions <= 0]
    throws.  (The checks of [dbName] and of the embedding model are on
    fields that are not modelled.) *)
Definition validateConfig (config : Config) : Result unit :=
  if (dimensions config <=? 0)%nat then Throw (VectorDBError INVALID_CONFIG)
  else Ok tt.

(** What the coordinator gets from outside: the clock, the random source,
    and the collaborators whose results it only passes on. *)
Record World : Type := mkWorld {
  clock : nat -> Z;                 (* the n-th reading of Date.now() *)
  random : nat -> string;           (* the n-th Math.random().toString(36).substring(2, 11) *)
  sanitize : option Metadata -> Result Metadata;
                                    (* InputValidator.validateAndSanitizeMetadata *)
  validateSearchQuery : nat -> Result unit;
                                    (* InputValidator.validateSearchQuery *)
  jsonLength : Metadata -> nat;     (* JSON.stringify(metadata).length *)
  score : Vector -> Vector -> Z;    (* the metric of the index *)
  generatorLoads : bool;            (* embeddingGenerator.initialize() succeeds *)
  generatorDimensions : nat;        (* embeddingGenerator.getDimensions() *)
  generatorEmbed : string -> Result Vector  (* embeddingGenerator.embed *)
}.

(** [SearchQuery] of [index/types]. *)
Record SearchQuery : Type := mkQuery {
  q_vector : option Vector;
  q_text : option string;
  q_k : nat;
  q_filter : option (Metadata -> bool);
  q_includeVectors : bool
}.

(** One element of [ExportData.vectors].  An envelope comes from outside,
    so every field may be missing. *)
Record ExportRecord : Type := mkExportRecord {
  x_id : option string;
  x_vector : option Vector;
  x_metadata : option Metadata;
  x_timestamp : option Z
}.

(** [ExportData.metadata]; [None] in a numeric field: not a number. *)
Record ExportMetadata : Type := mkExportMetadata {
  exportedAt : Z;
  vectorCount : option Z;
  x_dimensions : option Z
}.

(** [ExportData], the export envelope. *)
Record ExportData : Type := mkExportData {
  x_version : option string;
  x_config : option Config;
  x_vectors : option (list ExportRecord);   (* [None]: missing or not an array *)
  x_index : IndexBytes;
  x_meta : option ExportMetadata
}.

(** [ExportOptions] and [ImportOptions], after the defaults of the
    destructuring are applied; [onProgress] only observes and is left out. *)
Record ExportOptions : Type := mkExportOptions { includeIndex : bool }.
Record ImportOptions : Type := mkImportOptions {
  validateSchema : bool;
  clearExisting : bool
}.
Definition defaultExportOptions : ExportOptions := mkExportOptions true.
Definition defaultImportOptions : ImportOptions := mkImportOptions true true.

(** What [exportStream] yields. *)
Inductive StreamItem : Type :=
| ItemMetadata (version : string) (config : Config) (meta : ExportMetadata)
| ItemVectors (data : list ExportRecord)
| ItemIndex (data : IndexBytes).

(** The chunks of records among the items of a stream, in order. *)
Definition vectorChunks (items : list StreamItem) : list (list ExportRecord) :=
  omap (fun i => match i with ItemVectors d => Some d | _ => None end) items.

(** The state of a [VectorDB] instance and of what it owns. *)
Record DB : Type := mkDB {
  initialized : bool;
  storage : Storage;
  index : AnnIndex;
  vectorCache : VectorCache;
  embeddingCache : EmbeddingCache;
  modelsLoaded : bool;
  ticks : nat;                      (* readings of the clock so far *)
  rolls : nat;                      (* draws of the random source so far *)
  warnings : list string            (* console.warn *)
}.

Definition set_storage (s : Storage) (db : DB) : DB :=
  mkDB (initialized db) s (index db) (vectorCache db) (embeddingCache db)
       (modelsLoaded db) (ticks db) (rolls db) (warnings db).
Definition set_index (ix : AnnIndex) (db : DB) : DB :=
  mkDB (initialized db) (storage db) ix (vectorCache db) (embeddingCache db)
       (modelsLoaded db) (ticks db) (rolls db) (warnings db).
Definition set_vectorCache (c : VectorCache) (db : DB) : DB :=
  mkDB (initialized db) (storage db) (index db) c (embeddingCache db)
       (modelsLoaded db) (ticks db) (rolls db) (warnings db).
Definition set_embeddingCache (c : EmbeddingCache) (db : DB) : DB :=
  mkDB (initialized db) (storage db) (index db) (vectorCache db) c
       (modelsLoaded db) (ticks db) (rolls db) (warnings db).
Definition set_modelsLoaded (b : bool) (db : DB) : DB :=
  mkDB (initialized db) (storage db) (index db) (vectorCache db) (embeddingCache db)
       b (ticks db) (rolls db) (warnings db).
Definition set_ticks (n : nat) (db : DB) : DB :=
  mkDB (initialized db) (storage db) (index db) (vectorCache db) (embeddingCache db)
       (modelsLoaded db) n (rolls db) (warnings db).
Definition set_rolls (n : nat) (db : DB) : DB :=
  mkDB (initialized db) (storage db) (index db) (vectorCache db) (embeddingCache db)
       (modelsLoaded db) (ticks db) n (warnings db).
Definition add_warning (w : string) (db : DB) : DB :=
  mkDB (initialized db) (storage db) (index db) (vectorCache db) (embeddingCache db)
       (modelsLoaded db) (ticks db) (rolls db) (warnings db ++ [w]).

(** [db1] is [db] but for the embedding cache and the models-loaded flag. *)
Definition embeddingStateOf (db db1 : DB) : Prop :=
  db1 = set_modelsLoaded (modelsLoaded db1) (set_embeddingCache (embeddingCache db1) db).

(** The two reserved fields of the metadata of [record] are the system's:
    [content] is [c] and [timestamp] is a reading of the clock taken
    between the readings number [from] and [upto]. *)
Definition systemFields (W : World) (c : JsValue) (from upto : nat)
    (record : VectorRecord) : Prop :=
  rec_metadata record !! "content" = Some c
  /\ exists n, (from <= n < upto)%nat
       /\ rec_metadata record !! "timestamp" = Some (JNum (clock W n)).

(** What can be observed of a database from outside: the stored records,
    the membership of the index, and the two caches. *)
Definition observable (db : DB)
    : Storage * AnnIndex * VectorCache * EmbeddingCache :=
  (storage db, index db, vectorCache db, embeddingCache db).

(** A record of an envelope that the loop of [import] accepts for
    dimension [D]: an id that is not empty, a vector of [D] elements,
    metadata. *)
Definition acceptableRecord (D : nat) (v : ExportRecord) : bool :=
  truthy (x_id v)
  && match x_vector v with Some vec => (length vec =? D)%nat | None => false end
  && bool_decide (is_Some (x_metadata v)).


(** The database [clear] leaves. *)
Definition clearedDB (db : DB) : DB :=
  set_embeddingCache [] (set_vectorCache vc_empty (set_index index_clear (set_storage ∅ db))).

(** Every record of a store is kept under its own id and has a vector of
    [D] elements. *)
Definition storageInvariant (D : nat) (s : Storage) : Prop :=
  forall k r, s !! k = Some r -> rec_id r = k /\ hasDimension D (rec_vector r) = true.

(** How a record of the store comes out of an acceptable record of an
    envelope: same id, vector and metadata, and the timestamp of the
    envelope unless that is missing or 0, when it is a reading of the
    clock. *)
Definition converted (W : World) (v : ExportRecord) (r : VectorRecord) : Prop :=
  x_id v = Some (rec_id r)
  /\ x_vector v = Some (rec_vector r)
  /\ x_metadata v = Some (rec_metadata r)
  /\ match x_timestamp v with
     | Some t => if t =? 0 then exists n, rec_timestamp r = clock W n
                 else rec_timestamp r = t
     | None => exists n, rec_timestamp r = clock W n
     end.

(** [a] is at least as good a score as [b] under the metric. *)
Definition scoreNotWorse (m : Metric) (a b : Z) : Prop :=
  match m with
  | l2 => a <= b
  | _ => b <= a
  end.

(** Every cached embedding has [D] elements. *)
Definition embeddingCacheInvariant (D : nat) (c : EmbeddingCache) : Prop :=
  Forall (fun e => hasDimension D e.2 = true) c.

(** Every stored record has an id that is not empty and a timestamp that
    is not 0: what [import] needs to take a record as it is. *)
Definition exportable (s : Storage) : Prop :=
  forall k r, s !! k = Some r -> rec_id r <> "" /\ rec_timestamp r <> 0.

(** What holds of a database that inserts have filled. *)
Definition consistent (D : nat) (db : DB) : Prop :=
  initialized db = true
  /\ storageInvariant D (storage db)
  /\ exportable (storage db)
  /\ index db = storage db
  /\ embeddingCacheInvariant D (embeddingCache db).

(** A method: from the database before the call to what it returns or
    throws and the database after it. *)
Definition M (A : Type) : Type := DB -> Result A * DB.

Definition ret {A : Type} (a : A) : M A := fun db => (Ok a, db).
Definition throw {A : Type} (e : Exn) : M A := fun db => (Throw e, db).
Definition bind {A B : Type} (m : M A) (k : A -> M B) : M B :=
  fun db => match m db with
            | (Ok a, db') => k a db'
            | (Throw e, db') => (Throw e, db')
            end.
Definition tryCatch {A : Type} (m : M A) (handler : Exn -> M A) : M A :=
  fun db => match m db with
            | (Ok a, db') => (Ok a, db')
            | (Throw e, db') => handler e db'
            end.
Definition liftResult {A : Type} (r : Result A) : M A := fun db => (r, db).
Definition gets {A : Type} (f : DB -> A) : M A := fun db => (Ok (f db), db).
Definition modify (f : DB -> DB) : M unit := fun db => (Ok tt, f db).

Declare Scope db_scope.
Delimit Scope db_scope with db.
Notation "x <- m ;; k" := (bind m (fun x => k))
  (at level 100, m at next level, right associativity) : db_scope.
Notation "m ;; k" := (bind m (fun _ => k))
  (at level 100, right associativity) : db_scope.
Open Scope db_scope.

(** [catch (error) { if (error instanceof VectorDBError) throw error;
    throw new VectorDBError(..., code, ...) }] *)
Definition rethrowOrWrap {A : Type} (code : ErrorCode) (e : Exn) : M A :=
  if instanceofVectorDBError e then throw e else throw (VectorDBError code).

(** [catch (error) { throw new VectorDBError(..., code, ...) }] *)
Definition wrapAll {A : Type} (code : ErrorCode) (e : Exn) : M A :=
  throw (VectorDBError code).

Module VectorDB.
Section Coordinator.

Variable W : World.
Variable cfg : Config.

(** [Date.now()] *)
Definition now : M Z :=
  fun db => (Ok (clock W (ticks db)), set_ticks (S (ticks db)) db).

(** [Math.random().toString(36).substring(2, 11)] *)
Definition randomSuffix : M string :=
  fun db => (Ok (random W (rolls db)), set_rolls (S (rolls db)) db).

Definition ensureInitialized : M unit :=
  fun db => if initialized db then (Ok tt, db)
            else (Throw (VectorDBError NOT_INITIALIZED), db).

Definition generateId : M string :=
  t <- now ;;
  r <- randomSuffix ;;
  ret (pretty t +:+ "-" +:+ r).

Definition ensureModelsLoaded : M unit :=
  loaded <- gets modelsLoaded ;;
  if negb loaded then
    (if generatorLoads W then ret tt
     else throw (JsError "Failed to initialize embedding model")) ;;
    modify (set_modelsLoaded true) ;;
    if negb (generatorDimensions W =? dimensions cfg)%nat
    then throw DimensionMismatchError
    else ret tt
  else ret tt.

(** [performanceOptimizer.getCachedEmbedding] and [cacheEmbedding] *)
Definition getCachedEmbedding (text : string) : M (option Vector) :=
  fun db => let (hit, c) := ec_get text (embeddingCache db) in
            (Ok hit, set_embeddingCache c db).

Definition cacheEmbedding (text : string) (v : Vector) : M unit :=
  modify (fun db =>
    set_embeddingCache (ec_set (embeddingCacheEntries cfg) text v (embeddingCache db)) db).

(** [record.vector.byteLength + JSON.stringify(record.metadata).length * 2 + 100] *)
Definition recordSize (r : VectorRecord) : nat :=
  (byteLength (rec_vector r) + jsonLength W (rec_metadata r) * 2 + 100)%nat.

(** [performanceOptimizer.vectorCache.set(id, record, size)] *)
Definition cacheRecord (id : string) (r : VectorRecord) : M unit :=
  modify (fun db =>
    set_vectorCache (vc_set (cacheBytes cfg) id r (recordSize r) (vectorCache db)) db).

Definition prepareVector (data : InsertData) : M Vector :=
  match d_vector data with
  | Some v =>
      liftResult (validateVector v (dimensions cfg)) ;;
      ret v
  | None =>
      if truthy (d_text data) then
        let text := default "" (d_text data) in
        cached <- getCachedEmbedding text ;;
        match cached with
        | Some v => ret v
        | None =>
            ensureModelsLoaded ;;
            vector <- liftResult (generatorEmbed W text) ;;
            liftResult (validateVector vector (dimensions cfg)) ;;
            cacheEmbedding text vector ;;
            ret vector
        end
      else throw (VectorDBError INVALID_INSERT_DATA)
  end.

(** [content: data.text]: [undefined] when no text was given. *)
Definition textValue (t : option string) : JsValue :=
  match t with
  | Some s => JStr s
  | None => JUndefined
  end.

(** [{ ...base, content: c, timestamp: t }] *)
Definition withSystemFields (base : Metadata) (c : JsValue) (t : Z) : Metadata :=
  <["timestamp" := JNum t]> (<["content" := c]> base).

(** [storage.put], through the batch optimizer when there is one. *)
Definition putRecord (r : VectorRecord) : M unit :=
  if batching cfg
  then modify (fun db => set_storage (coalescer_put r (storage db)) db)
  else modify (fun db => set_storage (storage_put r (storage db)) db).

Definition indexAdd (r : VectorRecord) : M unit :=
  ix <- gets index ;;
  ix' <- liftResult (index_add (dimensions cfg) r ix) ;;
  modify (set_index ix').

Definition indexAddBatch (rs : list VectorRecord) : M unit :=
  ix <- gets index ;;
  ix' <- liftResult (index_addBatch (dimensions cfg) rs ix) ;;
  modify (set_index ix').

Definition indexRemove (id : string) : M unit :=
  modify (fun db => set_index (index_remove id (index db)) db).

Definition insert (data : InsertData) : M string :=
  ensureInitialized ;;
  tryCatch
    (sanitizedMetadata <- liftResult (sanitize W (d_metadata data)) ;;
     vector <- prepareVector data ;;
     id <- generateId ;;
     t_meta <- now ;;
     t_rec <- now ;;
     let record :=
       mkRecord id vector
                (withSystemFields sanitizedMetadata (textValue (d_text data)) t_meta)
                t_rec in
     putRecord record ;;
     cacheRecord id record ;;
     indexAdd record ;;
     ret id)
    (rethrowOrWrap INSERT_ERROR).

(** The id and the record [insert] and [insertBatch] build for [data] when
    the vector is ready and the database is [db]: three readings of the
    clock (for the id, for [metadata.timestamp], for [timestamp]) and one
    draw of the random source. *)
Definition newId (db : DB) : string :=
  pretty (clock W (ticks db)) +:+ "-" +:+ random W (rolls db).

Definition newRecord (data : InsertData) (sanitizedMetadata : Metadata)
    (vector : Vector) (db : DB) : VectorRecord :=
  mkRecord (newId db) vector
           (withSystemFields sanitizedMetadata (textValue (d_text data))
                             (clock W (S (ticks db))))
           (clock W (S (S (ticks db)))).

(** The database once the clock and the random source have been read for
    a new record. *)
Definition afterNewRecord (db : DB) : DB :=
  set_rolls (S (rolls db)) (set_ticks (S (S (S (ticks db)))) db).

(** The [for (const item of data)] loop of [insertBatch]. *)
Fixpoint prepareBatch (data : list InsertData)
    (records : list VectorRecord) (ids : list string)
    : M (list VectorRecord * list string) :=
  match data with
  | [] => ret (records, ids)
  | item :: rest =>
      sanitizedMetadata <- liftResult (sanitize W (d_metadata item)) ;;
      vector <- prepareVector item ;;
      id <- generateId ;;
      t_meta <- now ;;
      t_rec <- now ;;
      let record :=
        mkRecord id vector
                 (withSystemFields sanitizedMetadata (textValue (d_text item)) t_meta)
                 t_rec in
      cacheRecord id record ;;
      prepareBatch rest (records ++ [record]) (ids ++ [id])
  end.

(** The loop of [insertBatch] when no item fails: [prepared data db
    records db'] says that from [db] the items [data] give the records
    [records], in order, and leave [db']. *)
Inductive prepared : list InsertData -> DB -> list VectorRecord -> DB -> Prop :=
| prepared_nil db : prepared [] db [] db
| prepared_cons item rest db sanitized vector db1 records db' :
    sanitize W (d_metadata item) = Ok sanitized ->
    prepareVector item db = (Ok vector, db1) ->
    prepared rest
      (set_vectorCache
         (vc_set (cacheBytes cfg) (newId db1) (newRecord item sanitized vector db1)
                 (recordSize (newRecord item sanitized vector db1)) (vectorCache db1))
         (afterNewRecord db1))
      records db' ->
    prepared (item :: rest) db (newRecord item sanitized vector db1 :: records) db'.

Definition insertBatch (data : list InsertData) : M (list string) :=
  ensureInitialized ;;
  match data with
  | [] => ret []
  | _ =>
      tryCatch
        (prepared <- prepareBatch data [] [] ;;
         let (records, ids) := prepared : list VectorRecord * list string in
         modify (fun db => set_storage (storage_putBatch records (storage db)) db) ;;
         indexAddBatch records ;;
         ret ids)
        (rethrowOrWrap INSERT_BATCH_ERROR)
  end.

(** Modelled from the spec: [performanceOptimizer.getVector] is missing
    from the sources; section 2 gives the read path: the vector cache, on
    a miss Storage, and then the cache is filled. *)
Definition getVector (id : string) : M (option VectorRecord) :=
  fun db =>
    match vc_get id (vectorCache db) with
    | (Some r, c) => (Ok (Some r), set_vectorCache c db)
    | (None, _) =>
        match storage_get id (storage db) with
        | Some r =>
            (Ok (Some r),
             set_vectorCache (vc_set (cacheBytes cfg) id r (recordSize r) (vectorCache db)) db)
        | None => (Ok None, db)
        end
    end.

(** The [for (const result of results)] loop of [search]. *)
Fixpoint hydrate (results : list SearchResult) : M (list SearchResult) :=
  match results with
  | [] => ret []
  | result :: rest =>
      record <- getVector (res_id result) ;;
      let result' :=
        match record with
        | Some r => mkResult (res_id result) (res_score result) (res_metadata result)
                             (Some (rec_vector r))
        | None => result
        end in
      rest' <- hydrate rest ;;
      ret (result' :: rest')
  end.

Definition search (query : SearchQuery) : M (list SearchResult) :=
  ensureInitialized ;;
  tryCatch
    (liftResult (validateSearchQuery W (q_k query)) ;;
     queryVector <-
       match q_vector query with
       | Some v => ret v
       | None =>
           if truthy (q_text query) then
             let text := default "" (q_text query) in
             cached <- getCachedEmbedding text ;;
             match cached with
             | Some v => ret v
             | None =>
                 ensureModelsLoaded ;;
                 v <- liftResult (generatorEmbed W text) ;;
                 cacheEmbedding text v ;;
                 ret v
             end
           else throw (VectorDBError INVALID_QUERY)
       end ;;
     liftResult (validateVector queryVector (dimensions cfg)) ;;
     ix <- gets index ;;
     results <- liftResult (index_search (dimensions cfg) (metric cfg) (score W)
                                         queryVector (q_k query) (q_filter query) ix) ;;
     if q_includeVectors query then hydrate results else ret results)
    (rethrowOrWrap SEARCH_ERROR).

Definition delete (id : string) : M bool :=
  ensureInitialized ;;
  tryCatch
    (deleted <-
       (fun db =>
          let (existed, s) :=
            if batching cfg then coalescer_delete id (storage db)
            else storage_delete id (storage db) in
          (Ok existed, set_storage s db)) ;;
     (if deleted : bool then
        modify (fun db => set_vectorCache (vc_delete id (vectorCache db)) db) ;;
        indexRemove id
      else ret tt) ;;
     ret deleted)
    (wrapAll DELETE_ERROR).

Definition update (id : string) (data : InsertData) : M bool :=
  ensureInitialized ;;
  tryCatch
    (existing <- gets (fun db => storage_get id (storage db)) ;;
     match existing with
     | None => ret false
     | Some existing =>
         sanitizedMetadata <-
           match d_metadata data with
           | Some m => liftResult (sanitize W (Some m))
           | None => ret ∅
           end ;;
         vector <-
           (if bool_decide (is_Some (d_vector data)) || truthy (d_text data)
            then prepareVector data
            else ret (rec_vector existing)) ;;
         t_meta <- now ;;
         t_rec <- now ;;
         let content :=
           match d_text data with
           | Some s => JStr s
           | None => default JUndefined (rec_metadata existing !! "content")
           end in
         let updated :=
           mkRecord id vector
                    (withSystemFields (sanitizedMetadata ∪ rec_metadata existing)
                                      content t_meta)
                    t_rec in
         modify (fun db => set_storage (storage_put updated (storage db)) db) ;;
         indexRemove id ;;
         indexAdd updated ;;
         ret true
     end)
    (rethrowOrWrap UPDATE_ERROR).

(** The record [update] builds from the stored record [existing], once the
    metadata is sanitized and the vector is ready, on the database [db]:
    two readings of the clock. *)
Definition updatedRecord (id : string) (existing : VectorRecord) (data : InsertData)
    (sanitizedMetadata : Metadata) (vector : Vector) (db : DB) : VectorRecord :=
  mkRecord id vector
           (withSystemFields (sanitizedMetadata ∪ rec_metadata existing)
              (match d_text data with
               | Some s => JStr s
               | None => default JUndefined (rec_metadata existing !! "content")
               end)
              (clock W (ticks db)))
           (clock W (S (ticks db))).

(** [data.metadata ? validateAndSanitizeMetadata(data.metadata) : {}] *)
Definition sanitizedUpdate (data : InsertData) : Result Metadata :=
  match d_metadata data with
  | Some m => sanitize W (Some m)
  | None => Ok ∅
  end.

(** [data.vector || data.text] *)
Definition regenerates (data : InsertData) : bool :=
  bool_decide (is_Some (d_vector data)) || truthy (d_text data).

(** [performanceOptimizer.clearCaches()] *)
Definition clearCaches : M unit :=
  modify (fun db => set_embeddingCache [] (set_vectorCache vc_empty db)).

Definition flushPending : M unit :=
  if batching cfg
  then modify (fun db => set_storage (coalescer_flush (storage db)) db)
  else ret tt.

Definition clear : M unit :=
  ensureInitialized ;;
  tryCatch
    (flushPending ;;
     modify (set_storage ∅) ;;
     modify (set_index index_clear) ;;
     clearCaches)
    (wrapAll CLEAR_ERROR).

Definition size : M nat :=
  ensureInitialized ;;
  tryCatch (gets (fun db => storage_count (storage db))) (wrapAll SIZE_ERROR).

(** [{ id: r.id, vector: Array.from(r.vector), metadata: r.metadata,
    timestamp: r.timestamp }] *)
Definition toExportRecord (r : VectorRecord) : ExportRecord :=
  mkExportRecord (Some (rec_id r)) (Some (rec_vector r))
                 (Some (rec_metadata r)) (Some (rec_timestamp r)).

Definition export (options : ExportOptions) : M ExportData :=
  ensureInitialized ;;
  tryCatch
    (flushPending ;;
     count <- gets (fun db => storage_count (storage db)) ;;
     allRecords <- gets (fun db =>
       streamProcess (storage db) (fun record acc => acc ++ [record]) []) ;;
     serializedIndex <-
       (if includeIndex options
        then gets (fun db => index_serialize (dimensions cfg) (index db))
        else ret (IxText "")) ;;
     t <- now ;;
     ret (mkExportData (Some "1.0.0") (Some cfg)
            (Some (map toExportRecord allRecords))
            serializedIndex
            (Some (mkExportMetadata t (Some (Z.of_nat count))
                                    (Some (Z.of_nat (dimensions cfg)))))))
    (wrapAll EXPORT_ERROR).

(** The envelope [export] builds from a database. *)
Definition envelopeOf (options : ExportOptions) (db : DB) : ExportData :=
  mkExportData (Some "1.0.0") (Some cfg)
    (Some (map toExportRecord (storage_getAll (storage db))))
    (if includeIndex options then index_serialize (dimensions cfg) (index db)
     else IxText "")
    (Some (mkExportMetadata (clock W (ticks db))
                            (Some (Z.of_nat (storage_count (storage db))))
                            (Some (Z.of_nat (dimensions cfg))))).


(** The visitor of [exportStream]: it pushes onto the one [chunk] and
    counts; when the chunk is full only progress is reported. *)
Definition streamVisitor (size : nat) (record : VectorRecord)
    (acc : list ExportRecord * nat) : list ExportRecord * nat :=
  let chunk := acc.1 ++ [toExportRecord record] in
  let loaded := S acc.2 in
  if (size <=? length chunk)%nat then (chunk, loaded) else (chunk, loaded).

(** [exportStream], as the sequence of everything the generator yields
    when it is run to its end. *)
Definition exportStream (options : ExportOptions) : M (list StreamItem) :=
  ensureInitialized ;;
  tryCatch
    (flushPending ;;
     count <- gets (fun db => storage_count (storage db)) ;;
     t <- now ;;
     let first :=
       ItemMetadata "1.0.0" cfg
         (mkExportMetadata t (Some (Z.of_nat count)) (Some (Z.of_nat (dimensions cfg)))) in
     let size := orDefault100 (chunkSize cfg) in
     collected <- gets (fun db =>
       streamProcess (storage db) (streamVisitor size) ([], 0%nat)) ;;
     let chunk := collected.1 in
     let vectors := if (0 <? length chunk)%nat then [ItemVectors chunk] else [] in
     last <-
       (if includeIndex options
        then ix <- gets (fun db => index_serialize (dimensions cfg) (index db)) ;;
             ret [ItemIndex ix]
        else ret []) ;;
     ret (first :: vectors ++ last))
    (wrapAll EXPORT_STREAM_ERROR).

Definition validateExportData (data : ExportData) : Result unit :=
  if negb (truthy (x_version data)) then Throw (VectorDBError INVALID_EXPORT_DATA)
  else match x_vectors data with
  | None => Throw (VectorDBError INVALID_EXPORT_DATA)
  | Some _ =>
      match x_meta data with
      | None => Throw (VectorDBError INVALID_EXPORT_DATA)
      | Some meta =>
          match x_dimensions meta with
          | None => Throw (VectorDBError INVALID_EXPORT_DATA)
          | Some d =>
              if d <=? 0 then Throw (VectorDBError INVALID_EXPORT_DATA)
              else match vectorCount meta with
                   | None => Throw (VectorDBError INVALID_EXPORT_DATA)
                   | Some c =>
                       if c <? 0 then Throw (VectorDBError INVALID_EXPORT_DATA)
                       else Ok tt
                   end
          end
      end
  end.

Definition currentMajor : Z := 1.
Definition currentMinor : Z := 0.

(** [major !== currentMajor], where NaN differs from every number. *)
Definition differsFrom (n : option Z) (current : Z) : bool :=
  match n with
  | Some n => negb (n =? current)
  | None => true
  end.

(** [minor > currentMinor], where every comparison with NaN is false. *)
Definition greaterThan (n : option Z) (current : Z) : bool :=
  match n with
  | Some n => current <? n
  | None => false
  end.

Definition newerVersionWarning (version : string) : string :=
  "Export data is from a newer version (" +:+ version
    +:+ "). Some features may not be supported.".

Definition validateVersionCompatibility (version : string) : M unit :=
  let parts := splitOn "."%char version in
  if (length parts <? 2)%nat then throw (VectorDBError INVALID_VERSION)
  else
    let major := parseInt (default "" (parts !! 0%nat)) in
    let minor := parseInt (default "" (parts !! 1%nat)) in
    if differsFrom major currentMajor then throw (VectorDBError VERSION_INCOMPATIBLE)
    else if greaterThan minor currentMinor
         then modify (add_warning (newerVersionWarning version))
         else ret tt.

(** The parts of a version string the check looks at. *)
Definition versionParts (version : string) : list string := splitOn "."%char version.
Definition versionMajor (version : string) : option Z :=
  parseInt (default "" (versionParts version !! 0%nat)).
Definition versionMinor (version : string) : option Z :=
  parseInt (default "" (versionParts version !! 1%nat)).

(** A version string the check accepts: at least two parts, the first
    starting with the number 1. *)
Definition acceptsVersion (version : string) : bool :=
  negb (length (versionParts version) <? 2)%nat
  && bool_decide (versionMajor version = Some 1).

(** The database after the check has accepted [version]: with the warning
    when the minor version is newer. *)
Definition afterVersionCheck (version : string) (db : DB) : DB :=
  if greaterThan (versionMinor version) currentMinor
  then add_warning (newerVersionWarning version) db
  else db.

(** An envelope that passes the schema check and the version check. *)
Definition passesChecks (data : ExportData) : Prop :=
  validateExportData data = Ok tt
  /\ exists version, x_version data = Some version /\ acceptsVersion version = true.

(** An envelope that [import] takes as far as storing its records: it
    passes the two checks, it is for the configured dimension, its count
    is the number of its records, and every record is acceptable. *)
Definition importable (data : ExportData) : Prop :=
  passesChecks data
  /\ exists meta vectors,
       x_meta data = Some meta
       /\ x_vectors data = Some vectors
       /\ x_dimensions meta = Some (Z.of_nat (dimensions cfg))
       /\ vectorCount meta = Some (Z.of_nat (length vectors))
       /\ Forall (fun v => acceptableRecord (dimensions cfg) v = true) vectors.

Definition rebuildIndex : M unit :=
  allRecords <- gets (fun db => storage_getAll (storage db)) ;;
  modify (set_index index_clear) ;;
  if (0 <? length allRecords)%nat then indexAddBatch allRecords else ret tt.

(** A property read of [undefined] throws a TypeError. *)
Definition typeError {A : Type} : M A :=
  throw (JsError "TypeError: cannot read properties of undefined").

(** The [for (let i = 0; i < data.vectors.length; i++)] loop of [import]. *)
Fixpoint convertRecords (vs : list ExportRecord) (records : list VectorRecord)
    : M (list VectorRecord) :=
  match vs with
  | [] => ret records
  | v :: rest =>
      match x_vector v, x_metadata v with
      | Some vec, Some meta =>
          if negb (truthy (x_id v)) then throw (VectorDBError INVALID_VECTOR_RECORD)
          else if negb (length vec =? dimensions cfg)%nat then throw DimensionMismatchError
          else
            timestamp <-
              match x_timestamp v with
              | Some t => if t =? 0 then now else ret t
              | None => now
              end ;;
            convertRecords rest
              (records ++ [mkRecord (default "" (x_id v)) vec meta timestamp])
      | _, _ => throw (VectorDBError INVALID_VECTOR_RECORD)
      end
  end.

Definition deserializeWarning : string :=
  "Failed to deserialize index, rebuilding from vectors...".

(** The last block of [import]: deserialize the index of the envelope when
    there is one, and rebuild the index from Storage when there is none
    or when deserializing throws. *)
Definition restoreIndex (data : ExportData) : M unit :=
  if indexBytes_truthy (x_index data) then
    tryCatch
      (ix <- liftResult (index_deserialize (dimensions cfg) (x_index data)) ;;
       modify (set_index ix))
      (fun error =>
         modify (add_warning deserializeWarning) ;;
         rebuildIndex)
  else rebuildIndex.

(** [import], from the check of the dimensions on: what runs once the
    schema and the version have been accepted. *)
Definition importValidated (data : ExportData) (options : ImportOptions) : M unit :=
  meta <- match x_meta data with Some meta => ret meta | None => typeError end ;;
  (if negb (bool_decide (x_dimensions meta = Some (Z.of_nat (dimensions cfg))))
   then throw DimensionMismatchError else ret tt) ;;
  vectors <- match x_vectors data with Some vs => ret vs | None => typeError end ;;
  (if negb (bool_decide (Some (Z.of_nat (length vectors)) = vectorCount meta))
   then throw (VectorDBError INVALID_EXPORT_DATA) else ret tt) ;;
  (if clearExisting options then clear else ret tt) ;;
  records <- convertRecords vectors [] ;;
  modify (fun db =>
    set_storage (importInBatches (chunkSize cfg) records (storage db)) db) ;;
  restoreIndex data ;;
  ret tt.

Definition import (data : ExportData) (options : ImportOptions) : M unit :=
  ensureInitialized ;;
  tryCatch
    ((if validateSchema options then liftResult (validateExportData data) else ret tt) ;;
     match x_version data with
     | Some version => validateVersionCompatibility version
     | None => typeError
     end ;;
     importValidated data options)
    (rethrowOrWrap IMPORT_ERROR).

(** The databases that [insert] and [insertBatch] lead to from an
    initialized database over an empty store, whether the calls succeed or
    throw. *)
Inductive reachable : DB -> Prop :=
| reachable_initial loaded t r :
    reachable (mkDB true ∅ ∅ vc_empty [] loaded t r [])
| reachable_insert data db :
    reachable db -> reachable (insert data db).2
| reachable_insertBatch data db :
    reachable db -> reachable (insertBatch data db).2.

(** What a search returns, without the vectors that [includeVectors] adds. *)
Definition resultKeys (r : Result (list SearchResult))
    : Result (list (string * Z * Metadata)) :=
  match r with
  | Ok results => Ok (map (fun x => (res_id x, res_score x, res_metadata x)) results)
  | Throw e => Throw e
  end.

End Coordinator.
End VectorDB.

(* ===================================================================== *)
(** * The embedding model loader: [TransformersEmbedding] *)
(* ===================================================================== *)

Module TransformersEmbedding.

Inductive Device : Type := wasm | webgpu.

Definition device_eqb (a b : Device) : bool :=
  match a, b with
  | wasm, wasm | webgpu, webgpu => true
  | _, _ => false
  end.

(** [TransformersEmbeddingConfig]: only [model] is required. *)
Record TransformersEmbeddingConfig : Type := mkUserConfig {
  u_model : string;
  u_device : option Device;
  u_cache : option bool;
  u_quantized : option bool;
  u_maxRetries : option nat;
  u_retryDelay : option Z
}.

(** [Required<TransformersEmbeddingConfig>] *)
Record RequiredConfig : Type := mkRequiredConfig {
  model : string;
  device : Device;
  cache : bool;
  quantized : bool;
  maxRetries : nat;
  retryDelay : Z
}.

(** What one iteration of the retry loop finds: [pipeline(...)] rejects,
    or it resolves and the test embedding throws, or both work and the
    test embedding has [dims] elements. *)
Inductive Attempt : Type :=
| LoadFails
| TestEmbeddingFails
| Works (dims : nat).

(** What [initialize] does that can be seen from outside. *)
Inductive Event : Type :=
| CallPipeline (d : Device)        (* pipeline('feature-extraction', model, options) *)
| Warn (attempt : nat)             (* console.warn *)
| Sleep (ms : Z).                  (* await this.sleep(ms) *)

Record Generator : Type := mkGenerator {
  pipelineSet : bool;               (* this.pipeline !== null *)
  config : RequiredConfig;
  dims : nat;                       (* this.dimensions *)
  isInitialized : bool;             (* this.initialized *)
  calls : nat;                      (* calls of pipeline(...) so far *)
  trace : list Event
}.

Inductive Outcome : Type :=
| Resolved
| Rejected (attempts : nat)         (* Failed to initialize embedding model after N attempts *)
| OutOfFuel.

(** The constructor: defaults, then what the caller gave. *)
Definition new (c : TransformersEmbeddingConfig) : Generator :=
  mkGenerator false
    (mkRequiredConfig (u_model c)
       (default wasm (u_device c))
       (default true (u_cache c))
       (default true (u_quantized c))
       (default 3%nat (u_maxRetries c))
       (default 1000 (u_retryDelay c)))
    0 false 0 [].

Definition set_device (d : Device) (g : Generator) : Generator :=
  mkGenerator (pipelineSet g)
    (mkRequiredConfig (model (config g)) d (cache (config g)) (quantized (config g))
                      (maxRetries (config g)) (retryDelay (config g)))
    (dims g) (isInitialized g) (calls g) (trace g).

Definition emit (e : Event) (g : Generator) : Generator :=
  mkGenerator (pipelineSet g) (config g) (dims g) (isInitialized g) (calls g)
              (trace g ++ [e]).

Section Loader.

(** The outcome of the n-th call of [pipeline], on the device it was
    called for. *)
Variable outcome : nat -> Device -> Attempt.

(** [this.pipeline = await this.loadPipeline(this.config.device)] and the
    test embedding. *)
Definition tryLoad (g : Generator) : Attempt * Generator :=
  let d := device (config g) in
  let g1 := mkGenerator (pipelineSet g) (config g) (dims g) (isInitialized g)
                        (S (calls g)) (trace g ++ [CallPipeline d]) in
  match outcome (calls g) d with
  | LoadFails => (LoadFails, g1)
  | TestEmbeddingFails =>
      (TestEmbeddingFails,
       mkGenerator true (config g1) (dims g1) (isInitialized g1) (calls g1) (trace g1))
  | Works n =>
      (Works n, mkGenerator true (config g1) n true (calls g1) (trace g1))
  end.

(** The [while (attempt < this.config.maxRetries)] loop; every iteration
    uses one unit of [fuel]. *)
Fixpoint retryLoop (fuel : nat) (attempt : nat) (g : Generator) : Outcome * Generator :=
  match fuel with
  | O => (OutOfFuel, g)
  | S fuel' =>
      if (attempt <? maxRetries (config g))%nat then
        match tryLoad g with
        | (Works _, g1) => (Resolved, g1)
        | (_, g1) =>
            let attempt := S attempt in
            if device_eqb (device (config g1)) webgpu && (attempt =? 1)%nat then
              retryLoop fuel' attempt (set_device wasm (emit (Warn attempt) g1))
            else if (attempt <? maxRetries (config g1))%nat then
              let delay := retryDelay (config g1) * 2 ^ Z.of_nat (attempt - 1) in
              retryLoop fuel' attempt (emit (Sleep delay) (emit (Warn attempt) g1))
            else retryLoop fuel' attempt g1
        end
      else (Rejected (maxRetries (config g)), g)
  end.

Definition initialize (g : Generator) : Outcome * Generator :=
  if isInitialized g then (Resolved, g)
  else retryLoop (S (maxRetries (config g))) 0 g.

End Loader.

(** The devices [pipeline] was called for, in order. *)
Definition pipelineCalls (tr : list Event) : list Device :=
  omap (fun e => match e with CallPipeline d => Some d | _ => None end) tr.

(** For every call of [pipeline] in a trace, the time slept before it
    since the call before (for the first call: since the start); [slept]
    is what has been slept since the last call. *)
Fixpoint delaysBeforeCalls (slept : Z) (tr : list Event) : list Z :=
  match tr with
  | [] => []
  | CallPipeline _ :: rest => slept :: delaysBeforeCalls 0 rest
  | Sleep ms :: rest => delaysBeforeCalls (slept + ms) rest
  | Warn _ :: rest => delaysBeforeCalls slept rest
  end.

(** No call of [pipeline] ever gives a working pipeline. *)
Definition everyAttemptFails (outcome : nat -> Device -> Attempt) : Prop :=
  forall n d k, outcome n d <> Works k.

(** What the loop leaves in the trace when it runs on wasm from attempt
    [a] for [r] more iterations and every attempt fails. *)
Fixpoint wasmTrace (maxR : nat) (delay : Z) (r a : nat) : list Event :=
  match r with
  | O => []
  | S r' =>
      CallPipeline wasm ::
        (if (S a <? maxR)%nat
         then [Warn (S a); Sleep (delay * 2 ^ Z.of_nat a)]
         else [])
        ++ wasmTrace maxR delay r' (S a)
  end.

(** The delays before the calls of a run on wasm that starts at attempt
    [a], after [slept] has been slept, and makes [r] calls. *)
Definition wasmDelays (delay slept : Z) (a r : nat) : list Z :=
  match r with
  | O => []
  | S r' => slept :: map (fun k => delay * 2 ^ Z.of_nat (k - 1)) (seq (S a) r')
  end.

(** The delay the loop sleeps before retry number [k] (retry 1 is the
    second call of [pipeline]) when the generator was configured for
    [dev]: none before the fall-back from webgpu, otherwise the base delay
    doubled for every failure but the first. *)
Definition delayBeforeRetry (dev : Device) (delay : Z) (k : nat) : Z :=
  if device_eqb dev webgpu && (k =? 1)%nat then 0
  else delay * 2 ^ Z.of_nat (k - 1).

(** The devices and the delays of a run in which all of [maxR] attempts
    fail. *)
Definition failingCalls (dev : Device) (maxR : nat) : list Device :=
  match maxR with
  | O => []
  | S m => dev :: replicate m wasm
  end.

Definition failingDelays (dev : Device) (delay : Z) (maxR : nat) : list Z :=
  match maxR with
  | O => []
  | S m => 0 :: map (delayBeforeRetry dev delay) (seq 1 m)
  end.

End TransformersEmbedding.

(* ===================================================================== *)
(** * A concrete world, configuration and database *)
(* ===================================================================== *)

Module Demo.

Definition dotProduct (a b : Vector) : Z := foldr Z.add 0 (zip_with Z.mul a b).

(** A clock that advances by one millisecond per reading, no metadata
    sanitization beyond defaulting to the empty object, a generator of
    three-dimensional embeddings. *)
Definition world : World :=
  mkWorld (fun n => 1700000000000 + Z.of_nat n)
          (fun n => "r" +:+ pretty n)
          (fun m => Ok (default ∅ m))
          (fun k => if (k =? 0)%nat then Throw (VectorDBError INVALID_QUERY) else Ok tt)
          (fun m => (2 + 8 * size m)%nat)
          dotProduct
          true 3%nat
          (fun text => Ok [0; 1; Z.of_nat (String.length text)]).

(** Three dimensions, chunks of two records. *)
Definition config : Config := mkConfig 3 dot (Some 2%nat) true 4096 16.

(** An initialized database over an empty store. *)
Definition emptyDB : DB := mkDB true ∅ ∅ vc_empty [] false 0 0 [].

Definition byVector (v : Vector) (m : Metadata) : InsertData :=
  mkInsert (Some v) None (Some m).

Definition byText (t : string) : InsertData := mkInsert None (Some t) None.

(** The database after three inserts. *)
Definition threeRecords : DB :=
  (VectorDB.insertBatch world config
     [byVector [1; 0; 0] {["cat" := JStr "A"]};
      byVector [0; 1; 0] {["cat" := JStr "B"]};
      byText "hello"] emptyDB).2.

(** An envelope without records for a three-dimensional database, under
    a given version string. *)
Definition emptyEnvelope (version : string) : ExportData :=
  mkExportData (Some version) (Some config) (Some []) (IxText "")
               (Some (mkExportMetadata 1700000000000 (Some 0) (Some 3))).



(** The export of the three records, and the same with its index field
    overwritten. *)
Definition exported : ExportData :=
  match (VectorDB.export world config defaultExportOptions threeRecords).1 with
  | Ok data => data
  | Throw _ => emptyEnvelope "1.0.0"
  end.

Definition corrupted : ExportData :=
  mkExportData (x_version exported) (x_config exported) (x_vectors exported)
               (IxText "corrupted-index-data") (x_meta exported).

End Demo.


(* ===================================================================== *)
(** * Sequences of calls on one database *)
(* ===================================================================== *)

(** [db1] is [db] but for the two caches and the models-loaded flag. *)
Definition cachesOf (db db1 : DB) : Prop :=
  db1 = set_vectorCache (vectorCache db1)
          (set_embeddingCache (embeddingCache db1)
             (set_modelsLoaded (modelsLoaded db1) db)).

(** The index holds exactly the stored records, each under its own id and
    with a vector of [D] elements. *)
Definition indexAgrees (D : nat) (db : DB) : Prop :=
  storageInvariant D (storage db) /\ index db = storage db.

(** The contract of an embedding generator for dimension [D]: whatever it
    returns has [D] elements. *)
Definition generatorContract (W : World) (D : nat) : Prop :=
  forall text v, generatorEmbed W text = Ok v -> hasDimension D v = true.

(** What holds of a database between calls: the index agrees with the
    store, and every cached embedding has [D] elements. *)
Definition coherent (D : nat) (db : DB) : Prop :=
  indexAgrees D db /\ embeddingCacheInvariant D (embeddingCache db).

Module Calls.

(** A call of one of the operations on records, with its arguments. *)
Inductive Call : Type :=
| Insert (data : InsertData)
| InsertBatch (data : list InsertData)
| Search (query : SearchQuery)
| Update (id : string) (data : InsertData)
| Delete (id : string)
| Clear
| Size
| Export (options : ExportOptions)
| ExportStream (options : ExportOptions).

Section Calls.

Variable W : World.
Variable cfg : Config.

(** The database a call leaves, whether it returns or throws. *)
Definition after (c : Call) (db : DB) : DB :=
  match c with
  | Insert data => (VectorDB.insert W cfg data db).2
  | InsertBatch data => (VectorDB.insertBatch W cfg data db).2
  | Search query => (VectorDB.search W cfg query db).2
  | Update id data => (VectorDB.update W cfg id data db).2
  | Delete id => (VectorDB.delete cfg id db).2
  | Clear => (VectorDB.clear cfg db).2
  | Size => (VectorDB.size db).2
  | Export options => (VectorDB.export W cfg options db).2
  | ExportStream options => (VectorDB.exportStream W cfg options db).2
  end.

Definition afterAll (cs : list Call) (db : DB) : DB :=
  foldl (fun db c => after c db) db cs.

(** A caller that inserts the items one by one, [for (const item of
    data) ids.push(await db.insert(item))], and stops at the first
    failure. *)
Fixpoint insertEach (data : list InsertData) : M (list string) :=
  match data with
  | [] => ret []
  | item :: rest =>
      id <- VectorDB.insert W cfg item ;;
      ids <- insertEach rest ;;
      ret (id :: ids)
  end.

End Calls.
End Calls.

(* ===================================================================== *)
(** * More sample data *)
(* ===================================================================== *)

Module Samples.

(** An envelope for three dimensions whose one record is "a" while its
    serialized index holds a record "b". *)
Definition staleIndexEnvelope : ExportData :=
  mkExportData (Some "1.0.0") (Some Demo.config)
    (Some [mkExportRecord (Some "a") (Some [1; 0; 0]) (Some ∅) (Some 1700000000000)])
    (IxSerialized 3 {["b" := mkRecord "b" [0; 1; 0] ∅ 1700000000000]})
    (Some (mkExportMetadata 1700000000000 (Some 1) (Some 3))).

(** The database after one insert of the vector [1; 0; 0]. *)
Definition oneRecord : DB :=
  (VectorDB.insert Demo.world Demo.config (Demo.byVector [1; 0; 0] ∅) Demo.emptyDB).2.

End Samples.

(* ===================================================================== *)
(** * Using the embedding generator *)
(* ===================================================================== *)

Module Embedding.
Import TransformersEmbedding.

(** The device of the call number [j] of [pipeline] (from 0) in a run of
    [initialize] on a generator configured for [dev]: the first call is
    for the configured device, every later one for wasm. *)
Definition deviceOfCall (dev : Device) (j : nat) : Device :=
  match j with
  | O => dev
  | S _ => wasm
  end.

(** The call number [j] is the first that gives a working pipeline, of
    [n] dimensions. *)
Definition firstWorking (outcome : nat -> Device -> Attempt) (dev : Device)
    (j n : nat) : Prop :=
  (forall i, (i < j)%nat -> forall k, outcome i (deviceOfCall dev i) <> Works k)
  /\ outcome j (deviceOfCall dev j) = Works n.

(** What [tolist()] of a tensor returns: rows (a batch) or one flat list. *)
Inductive ListData : Type :=
| Rows (first : list Float32) (rest : list (list Float32))
| Flat (l : list Float32).

(** The [data] property of a pipeline output. *)
Inductive OutData : Type :=
| DataFloat32Array (v : Vector)
| DataArray (l : list Float32)
| DataOther.                        (* missing, or anything else *)

(** What the pipeline resolves with: a [Float32Array], or an object with
    its [data] and, when it has one, what its [tolist] returns. *)
Inductive PipelineOutput : Type :=
| OutFloat32Array (v : Vector)
| OutObject (data : OutData) (tolist : option ListData).

(** A call that returns, or throws an [Error] with a message. *)
Inductive Attempted (A : Type) : Type :=
| Returns (a : A)
| ThrowsError (message : string).
Arguments Returns {A} a.
Arguments ThrowsError {A} message.

Definition notInitialized : string :=
  "Embedding generator not initialized. Call initialize() first.".

Definition extractEmbedding (output : PipelineOutput) : Attempted Vector :=
  match output with
  | OutFloat32Array v => Returns v
  | OutObject (DataFloat32Array v) _ => Returns v
  | OutObject (DataArray l) _ => Returns l
  | OutObject DataOther (Some (Rows first _)) => Returns first
  | OutObject DataOther (Some (Flat l)) => Returns l
  | OutObject DataOther None =>
      ThrowsError "Unexpected output format from embedding pipeline"
  end.

Section Pipeline.

(** The loaded pipeline, called with mean pooling and normalization: it
    resolves with an output or rejects with a message. *)
Variable pipeline : string -> Attempted PipelineOutput.

Definition generateEmbedding (g : Generator) (text : string) : Attempted Vector :=
  if negb (pipelineSet g) then ThrowsError "Pipeline not initialized"
  else
    match pipeline text with
    | Returns output =>
        match extractEmbedding output with
        | Returns v => Returns v
        | ThrowsError m => ThrowsError ("Failed to generate embedding: " +:+ m)
        end
    | ThrowsError m => ThrowsError ("Failed to generate embedding: " +:+ m)
    end.

Definition embed (g : Generator) (text : string) : Attempted Vector :=
  if negb (isInitialized g) then ThrowsError notInitialized
  else generateEmbedding g text.

(** The [for (const text of texts)] loop of [embedBatch]. *)
Fixpoint embedEach (g : Generator) (texts : list string) (embeddings : list Vector)
    : Attempted (list Vector) :=
  match texts with
  | [] => Returns embeddings
  | text :: rest =>
      match generateEmbedding g text with
      | Returns embedding => embedEach g rest (embeddings ++ [embedding])
      | ThrowsError m => ThrowsError m
      end
  end.

Definition embedBatch (g : Generator) (texts : list string) : Attempted (list Vector) :=
  if negb (isInitialized g) then ThrowsError notInitialized
  else match texts with
       | [] => Returns []
       | _ => embedEach g texts []
       end.

End Pipeline.

Definition getDimensions (g : Generator) : Attempted nat :=
  if negb (isInitialized g) then ThrowsError notInitialized
  else Returns (dims g).

Definition dispose (g : Generator) : Generator :=
  mkGenerator false (config g) 0 false (calls g) (trace g).

(** A pipeline for samples: three-dimensional embeddings in a tensor,
    and a rejection for the empty text. *)
Definition samplePipeline (text : string) : Attempted PipelineOutput :=
  if String.eqb text "" then ThrowsError "empty input"
  else Returns (OutObject (DataFloat32Array [0; 1; Z.of_nat (String.length text)]) None).

(** The generators a caller can hold: constructed, then initialized
    (whatever the attempts give) and disposed any number of times. *)
Inductive lives : Generator -> Prop :=
| lives_new c : lives (new c)
| lives_initialize outcome g : lives g -> lives (initialize outcome g).2
| lives_dispose g : lives g -> lives (dispose g).

End Embedding.

(* ===================================================================== *)
(** * The life of a [VectorDB] instance: [initialize] and [dispose] *)
(* ===================================================================== *)

Module Lifecycle.

(** What the collaborators do when the instance starts: whether
    [storage.initialize()] and [performanceOptimizer.initialize(storage)]
    resolve, and the index [indexManager.initialize()] loads or the error
    it rejects with; and the [lazyLoadModels] flag of the configuration. *)
Record Startup : Type := mkStartup {
  storageOpens : Result unit;
  optimizerStarts : Result unit;
  indexLoads : Result AnnIndex;
  lazyLoadModels : bool
}.

(** An instance: the database, and which of the three handles are set. *)
Record Instance : Type := mkInstance {
  db : DB;
  storageHandle : bool;             (* this.storage !== null *)
  indexManager : bool;              (* this.indexManager !== null *)
  embeddingGenerator : bool         (* this.embeddingGenerator !== null *)
}.

Definition set_initialized (b : bool) (d : DB) : DB :=
  mkDB b (storage d) (index d) (vectorCache d) (embeddingCache d)
       (modelsLoaded d) (ticks d) (rolls d) (warnings d).

(** The instance the constructor leaves, over what the browser's store
    holds. *)
Definition constructed (s : Storage) : Instance :=
  mkInstance (mkDB false s ∅ vc_empty [] false 0 0 []) false false false.

Section Lifecycle.

Variable W : World.
Variable cfg : Config.
Variable startup : Startup.

(** [cleanup]: the generator is disposed and the store closed when they
    are set, and the three handles are dropped.  ([dispose] of the
    generator does not throw; [close] of the store is taken not to.) *)
Definition cleanup (i : Instance) : Instance :=
  mkInstance (db i) false false false.

(** The [try] block of [initialize].  The generator is constructed anew,
    so when the models count as loaded without this call having loaded
    them, its [getDimensions()] throws. *)
Definition start (i : Instance) : Result unit * Instance :=
  match storageOpens startup with
  | Throw e => (Throw e, i)
  | Ok _ =>
      let i1 := mkInstance (db i) true (indexManager i) (embeddingGenerator i) in
      match optimizerStarts startup with
      | Throw e => (Throw e, i1)
      | Ok _ =>
          let i2 := mkInstance (db i1) true true (embeddingGenerator i1) in
          match indexLoads startup with
          | Throw e => (Throw e, i2)
          | Ok ix =>
              let i3 := mkInstance (set_index ix (db i2)) true true true in
              if lazyLoadModels startup then
                if modelsLoaded (db i3)
                then (Throw (JsError
                        "Embedding generator not initialized. Call initialize() first."),
                      i3)
                else (Ok tt, mkInstance (set_initialized true (db i3)) true true true)
              else if generatorLoads W then
                let i4 := mkInstance (set_modelsLoaded true (db i3)) true true true in
                if negb (generatorDimensions W =? dimensions cfg)%nat
                then (Throw DimensionMismatchError, i4)
                else (Ok tt, mkInstance (set_initialized true (db i4)) true true true)
              else (Throw (JsError "Failed to initialize embedding model"), i3)
          end
      end
  end.

Definition initialize (i : Instance) : Result unit * Instance :=
  if initialized (db i) then (Ok tt, i)
  else match start i with
       | (Ok _, i') => (Ok tt, i')
       | (Throw _, i') => (Throw (VectorDBError INIT_ERROR), cleanup i')
       end.

(** Modelled from the spec: [performanceOptimizer.dispose()] is missing
    from the sources; section 3 has [dispose] clear the caches. *)
Definition optimizerDispose (d : DB) : DB :=
  set_embeddingCache [] (set_vectorCache vc_empty d).

Definition dispose (i : Instance) : Instance :=
  let i1 := cleanup i in
  mkInstance (set_initialized false (optimizerDispose (db i1)))
             (storageHandle i1) (indexManager i1) (embeddingGenerator i1).

End Lifecycle.
End Lifecycle.

(* ===================================================================== *)
(** * The retrieval pipeline: [RAGPipelineManager] *)
(* ===================================================================== *)

Module RAGPipelineManager.

(** A JavaScript string as the sequence of its code units. *)
Definition Text : Type := list ascii.

Definition text (s : string) : Text := String.list_ascii_of_string s.

Definition newline : ascii := "010"%char.

(** [s.lastIndexOf(c)] for a one-character [c]: the last index at which
    it occurs, or -1.  [i] is the index of the head of [l], [found] the
    last occurrence before it. *)
Fixpoint lastIndexFrom (c : ascii) (l : Text) (i found : Z) : Z :=
  match l with
  | [] => found
  | x :: rest => lastIndexFrom c rest (i + 1) (if Ascii.eqb x c then i else found)
  end.

Definition lastIndexOf (c : ascii) (l : Text) : Z := lastIndexFrom c l 0 (-1).

Definition truncationNotice : Text :=
  [newline; newline] ++ text "[Context truncated due to length...]".

(** [truncateContext], for a whole number of tokens.  [substring(0, n)]
    takes the first [n] code units, none when [n] is negative.  The test
    [cutoff > maxChars * 0.8] is between whole numbers: it holds exactly
    when [5 * cutoff > 4 * maxChars] (in double precision too, for limits
    below 2^47 tokens). *)
Definition truncateContext (context : Text) (maxTokens : Z) : Text :=
  let maxChars := maxTokens * 4 in
  if Z.of_nat (length context) <=? maxChars then context
  else
    let truncated := take (Z.to_nat maxChars) context in
    let lastPeriod := lastIndexOf "."%char truncated in
    let lastNewline := lastIndexOf newline truncated in
    let cutoff := Z.max lastPeriod lastNewline in
    if 4 * maxChars <? 5 * cutoff
    then take (Z.to_nat (cutoff + 1)) truncated ++ truncationNotice
    else truncated ++ text "..." ++ truncationNotice.

(** [Math.ceil(text.length / 4)] *)
Definition estimateTokenCount (t : Text) : Z :=
  (Z.of_nat (length t) + 3) / 4.

(** [parts.join(sep)] *)
Fixpoint join (sep : Text) (parts : list Text) : Text :=
  match parts with
  | [] => []
  | [part] => part
  | part :: rest => part ++ sep ++ join sep rest
  end.

(** [RAGOptions]; [generateOptions] is only passed on and is left out. *)
Record RAGOptions : Type := mkOptions {
  topK : option nat;
  filter : option (Metadata -> bool);
  contextTemplate : option Text;
  maxContextTokens : option Z;
  includeSourcesInResponse : option bool
}.

(** [RAGResult], with its [metadata] flattened. *)
Record RAGResult : Type := mkRAGResult {
  answer : Text;
  sources : list SearchResult;
  retrievalTime : Z;
  generationTime : Z;
  tokensGenerated : Z;
  contextLength : Z
}.

(** What [query] ends with: a result, or the one error it throws,
    RAG_QUERY_ERROR, with the error that caused it in its details. *)
Inductive QueryOutcome : Type :=
| Answered (result : RAGResult)
| RAG_QUERY_ERROR (error : Exn).

(** The two settings of a manager. *)
Record Manager : Type := mkManager {
  defaultContextTemplate : Text;
  defaultMaxContextTokens : Z
}.

Definition getDefaultTemplate : Text :=
  text "Document {index}:" ++ [newline] ++ text "{content}".

(** The constructor: [config.defaultContextTemplate || getDefaultTemplate()]
    and [config.defaultMaxContextTokens || 2000]. *)
Definition new (template : option Text) (maxTokens : option Z) : Manager :=
  mkManager
    (match template with
     | Some (c :: t) => c :: t
     | _ => getDefaultTemplate
     end)
    (match maxTokens with
     | Some 0 | None => 2000
     | Some n => n
     end).

Definition buildPrompt (query context : Text) : Text :=
  text "You are a helpful assistant. Use the following context to answer the user's question. If the context doesn't contain relevant information, say so."
  ++ [newline; newline] ++ text "Context:" ++ [newline] ++ context
  ++ [newline; newline] ++ text "Question: " ++ query
  ++ [newline; newline] ++ text "Answer:".

Section Pipeline.

Variable W : World.
Variable cfg : Config.

(** The collaborators of the manager: its embedding generator, its
    language model, and the substitutions of [applyTemplate] (regular
    expressions over the template, which are not modelled: what the
    template gives for a result and its index is a parameter). *)
Variable embed : Text -> Result Vector.
Variable generate : Text -> Result Text.
Variable applyTemplate : Text -> SearchResult -> nat -> Text.

Variable manager : Manager.

(** [options?.topK || 5] *)
Definition topKOr5 (options : RAGOptions) : nat :=
  match topK options with
  | Some O | None => 5%nat
  | Some k => k
  end.

(** [options?.maxContextTokens || this.defaultMaxContextTokens] *)
Definition maxTokensOf (options : RAGOptions) : Z :=
  match maxContextTokens options with
  | Some 0 | None => defaultMaxContextTokens manager
  | Some n => n
  end.

Definition retrieve (query : Text) (options : RAGOptions) : M (list SearchResult) :=
  queryVector <- liftResult (embed query) ;;
  VectorDB.search W cfg
    (mkQuery (Some queryVector) None (topKOr5 options) (filter options) false).

Definition formatContext (results : list SearchResult) (options : RAGOptions) : Text :=
  match results with
  | [] => text "No relevant information found."
  | _ =>
      let template :=
        match contextTemplate options with
        | Some (c :: t) => c :: t
        | _ => defaultContextTemplate manager
        end in
      join [newline; newline] (imap (fun index result => applyTemplate template result index)
                                    results)
  end.

(** The [try] block of [query]. *)
Definition answerQuery (query : Text) (options : RAGOptions) : M RAGResult :=
  retrievalStart <- VectorDB.now W ;;
  found <- retrieve query options ;;
  retrievalEnd <- VectorDB.now W ;;
  let context := formatContext found options in
  let truncatedContext := truncateContext context (maxTokensOf options) in
  let prompt := buildPrompt query truncatedContext in
  generationStart <- VectorDB.now W ;;
  answer <- liftResult (generate prompt) ;;
  generationEnd <- VectorDB.now W ;;
  ret (mkRAGResult answer
         (match includeSourcesInResponse options with
          | Some false => []
          | _ => found
          end)
         (retrievalEnd - retrievalStart)
         (generationEnd - generationStart)
         (estimateTokenCount answer)
         (estimateTokenCount truncatedContext)).

Definition query (q : Text) (options : RAGOptions) (db : DB) : QueryOutcome * DB :=
  match answerQuery q options db with
  | (Ok result, db') => (Answered result, db')
  | (Throw error, db') => (RAG_QUERY_ERROR error, db')
  end.

End Pipeline.

End RAGPipelineManager.
(* ===================================================================== *)
(** * Properties of the embedding model loader *)
(* ===================================================================== *)

Section EmbeddingLoader.
Import TransformersEmbedding.

Variable outcome : nat -> Device -> Attempt.

Lemma tryLoad_fails g :
  everyAttemptFails outcome ->
  exists att,
    tryLoad outcome g =
      (att, mkGenerator (match att with LoadFails => pipelineSet g | _ => true end)
                        (config g) (dims g) (isInitialized g) (S (calls g))
                        (trace g ++ [CallPipeline (device (config g))]))
    /\ (forall k, att <> Works k).
Proof.
  intros Hf. unfold tryLoad.
  destruct (outcome (calls g) (device (config g))) eqn:E.
  - exists LoadFails. split; [reflexivity | discriminate].
  - exists TestEmbeddingFails. split; [reflexivity | discriminate].
  - exfalso. exact (Hf _ _ _ E).
Qed.

Lemma retryLoop_wasm_fails r : forall fuel a g,
  everyAttemptFails outcome ->
  device (config g) = wasm ->
  (a + r = maxRetries (config g))%nat ->
  (r < fuel)%nat ->
  exists g',
    retryLoop outcome fuel a g = (Rejected (maxRetries (config g)), g')
    /\ config g' = config g
    /\ isInitialized g' = isInitialized g
    /\ trace g' = trace g ++ wasmTrace (maxRetries (config g)) (retryDelay (config g)) r a.
Proof.
  induction r as [|r IH]; intros fuel a g Hf Hdev Hsum Hfuel.
  - destruct fuel as [|fuel]; [lia|]. simpl.
    replace (a <? maxRetries (config g))%nat with false
      by (symmetry; apply Nat.ltb_ge; lia).
    exists g. rewrite app_nil_r. auto.
  - destruct fuel as [|fuel]; [lia|]. simpl.
    replace (a <? maxRetries (config g))%nat with true
      by (symmetry; apply Nat.ltb_lt; lia).
    destruct (tryLoad_fails g Hf) as (att & -> & Hatt).
    set (g1 := mkGenerator _ _ _ _ _ _).
    assert (Hcfg1 : config g1 = config g) by reflexivity.
    assert (Hloop : exists g',
      (if device_eqb (device (config g1)) webgpu && (S a =? 1)%nat
       then retryLoop outcome fuel (S a) (set_device wasm (emit (Warn (S a)) g1))
       else if (S a <? maxRetries (config g1))%nat
            then retryLoop outcome fuel (S a)
                   (emit (Sleep (retryDelay (config g1) * 2 ^ Z.of_nat (S a - 1)))
                         (emit (Warn (S a)) g1))
            else retryLoop outcome fuel (S a) g1)
      = (Rejected (maxRetries (config g)), g')
      /\ config g' = config g
      /\ isInitialized g' = isInitialized g
      /\ trace g' = trace g ++ wasmTrace (maxRetries (config g)) (retryDelay (config g)) (S r) a).
    { rewrite Hcfg1, Hdev. simpl device_eqb. cbn [andb].
      destruct (S a <? maxRetries (config g))%nat eqn:Elt.
      - edestruct (IH fuel (S a)
          (emit (Sleep (retryDelay (config g) * 2 ^ Z.of_nat (S a - 1)))
                (emit (Warn (S a)) g1))) as (g' & Hrun & Hc & Hi & Htr);
          [exact Hf | exact Hdev | simpl; lia | lia |].
        exists g'. split; [exact Hrun|]. split; [exact Hc|]. split; [exact Hi|].
        rewrite Htr. simpl. rewrite Hdev, Elt.
        replace (a - 0)%nat with a by lia.
        rewrite <- !app_assoc. reflexivity.
      - edestruct (IH fuel (S a) g1) as (g' & Hrun & Hc & Hi & Htr);
          [exact Hf | exact Hdev | simpl; lia | lia |].
        exists g'. split; [exact Hrun|]. split; [exact Hc|]. split; [exact Hi|].
        rewrite Htr. simpl. rewrite Hdev, Elt.
        rewrite <- !app_assoc. reflexivity. }
    destruct att; try (exfalso; eapply Hatt; reflexivity); exact Hloop.
Qed.

(** The loop on wasm, whatever the attempts give: it ends, and the calls
    and the delays it leaves in the trace are the first ones of a run in
    which every attempt fails. *)
Lemma retryLoop_wasm r : forall fuel a g,
  device (config g) = wasm ->
  (a + r = maxRetries (config g))%nat ->
  (r < fuel)%nat ->
  exists o g' s,
    retryLoop outcome fuel a g = (o, g')
    /\ o <> OutOfFuel
    /\ trace g' = trace g ++ s
    /\ pipelineCalls s `prefix_of` replicate r wasm
    /\ (o = Resolved -> isInitialized g' = true)
    /\ forall slept,
         delaysBeforeCalls slept s `prefix_of` wasmDelays (retryDelay (config g)) slept a r
         /\ length (delaysBeforeCalls slept s) = length (pipelineCalls s).
Proof.
  induction r as [|r IH]; intros fuel a g Hdev Hsum Hfuel.
  - destruct fuel as [|fuel]; [lia|]. simpl.
    replace (a <? maxRetries (config g))%nat with false
      by (symmetry; apply Nat.ltb_ge; lia).
    exists (Rejected (maxRetries (config g))), g, []. rewrite app_nil_r.
    split; [reflexivity|]. split; [discriminate|]. split; [reflexivity|].
    split; [apply prefix_nil|]. split; [discriminate|].
    intros slept. split; [apply prefix_nil | reflexivity].
  - destruct fuel as [|fuel]; [lia|]. cbn [retryLoop].
    replace (a <? maxRetries (config g))%nat with true
      by (symmetry; apply Nat.ltb_lt; lia).
    (* what a failed attempt leads to, whatever it left of the pipeline *)
    assert (Hfailed : forall ps,
      let g1 := mkGenerator ps (config g) (dims g) (isInitialized g) (S (calls g))
                            (trace g ++ [CallPipeline wasm]) in
      exists o g' s,
        (if device_eqb (device (config g1)) webgpu && (S a =? 1)%nat
         then retryLoop outcome fuel (S a) (set_device wasm (emit (Warn (S a)) g1))
         else if (S a <? maxRetries (config g1))%nat
              then retryLoop outcome fuel (S a)
                     (emit (Sleep (retryDelay (config g1) * 2 ^ Z.of_nat (S a - 1)))
                           (emit (Warn (S a)) g1))
              else retryLoop outcome fuel (S a) g1) = (o, g')
        /\ o <> OutOfFuel
        /\ trace g' = trace g ++ s
        /\ pipelineCalls s `prefix_of` replicate (S r) wasm
        /\ (o = Resolved -> isInitialized g' = true)
        /\ forall slept,
             delaysBeforeCalls slept s
               `prefix_of` wasmDelays (retryDelay (config g)) slept a (S r)
             /\ length (delaysBeforeCalls slept s) = length (pipelineCalls s)).
    { intros ps g1. assert (Hcfg1 : config g1 = config g) by reflexivity.
      rewrite Hcfg1, Hdev. cbn [device_eqb andb].
      destruct (S a <? maxRetries (config g))%nat eqn:Elt.
      - apply Nat.ltb_lt in Elt.
        destruct (IH fuel (S a)
                    (emit (Sleep (retryDelay (config g) * 2 ^ Z.of_nat (S a - 1)))
                          (emit (Warn (S a)) g1)))
          as (o & g' & s & Hrun & Hfuel' & Htr & Hcalls & Hres & Hdel);
          [exact Hdev | simpl; lia | lia |].
        exists o, g',
          ([CallPipeline wasm; Warn (S a);
            Sleep (retryDelay (config g) * 2 ^ Z.of_nat (S a - 1))] ++ s).
        split; [exact Hrun|]. split; [exact Hfuel'|].
        split; [rewrite Htr; simpl; by rewrite <- !app_assoc|].
        split; [by apply prefix_cons|]. split; [exact Hres|].
        intros slept. cbn [app delaysBeforeCalls]. rewrite Z.add_0_l.
        destruct (Hdel (retryDelay (config g) * 2 ^ Z.of_nat (S a - 1)))
          as [Hpre Hlen].
        split; [|change (pipelineCalls (CallPipeline wasm :: Warn (S a) :: Sleep _ :: s))
                   with (wasm :: pipelineCalls s); cbn [length]; by rewrite Hlen].
        unfold wasmDelays in *. apply prefix_cons.
        destruct r as [|r]; [lia|]. exact Hpre.
      - apply Nat.ltb_ge in Elt.
        destruct (IH fuel (S a) g1)
          as (o & g' & s & Hrun & Hfuel' & Htr & Hcalls & Hres & Hdel);
          [exact Hdev | simpl; lia | lia |].
        exists o, g', ([CallPipeline wasm] ++ s).
        split; [exact Hrun|]. split; [exact Hfuel'|].
        split; [rewrite Htr; simpl; by rewrite <- !app_assoc|].
        split; [by apply prefix_cons|]. split; [exact Hres|].
        intros slept. cbn [app delaysBeforeCalls].
        destruct (Hdel 0) as [Hpre Hlen].
        split; [|change (pipelineCalls (CallPipeline wasm :: s))
                   with (wasm :: pipelineCalls s); cbn [length]; by rewrite Hlen].
        assert (r = 0)%nat as -> by lia.
        unfold wasmDelays in *. simpl in *. by apply prefix_cons. }
    unfold tryLoad. rewrite Hdev.
    destruct (outcome (calls g) wasm) as [| |n].
    + apply Hfailed.
    + apply Hfailed.
    + eexists Resolved, _, [CallPipeline wasm].
      split; [reflexivity|]. split; [discriminate|]. split; [reflexivity|].
      split; [apply prefix_cons, prefix_nil|]. split; [reflexivity|].
      intros slept. split; [apply prefix_cons, prefix_nil | reflexivity].
Qed.

Lemma wasmTrace_calls maxR delay r a :
  pipelineCalls (wasmTrace maxR delay r a) = replicate r wasm.
Proof.
  revert a. induction r as [|r IH]; intros a; [reflexivity|].
  simpl. f_equal. unfold pipelineCalls in *.
  destruct (S a <? maxR)%nat; simpl; apply IH.
Qed.

Lemma wasmTrace_delays maxR delay r : forall a slept,
  (a + r = maxR)%nat ->
  delaysBeforeCalls slept (wasmTrace maxR delay r a) =
    match r with
    | O => []
    | S r' => slept :: map (fun k => delay * 2 ^ Z.of_nat (k - 1)) (seq (S a) r')
    end.
Proof.
  induction r as [|r IH]; intros a slept Hsum; [reflexivity|].
  simpl. f_equal.
  destruct (S a <? maxR)%nat eqn:E.
  - apply Nat.ltb_lt in E. simpl. rewrite (IH (S a)) by lia.
    destruct r as [|r]; [lia|]. simpl. do 2 f_equal.
    replace (a - 0)%nat with a by lia. lia.
  - apply Nat.ltb_ge in E. destruct r as [|r]; [reflexivity | lia].
Qed.

(** When every attempt fails, [initialize] rejects, and the trace shows
    the calls of [failingCalls] separated by the delays of
    [failingDelays]. *)
Lemma initialize_fails_trace (g : Generator) :
  everyAttemptFails outcome ->
  isInitialized g = false ->
  trace g = [] ->
  exists g',
    initialize outcome g = (Rejected (maxRetries (config g)), g')
    /\ isInitialized g' = false
    /\ pipelineCalls (trace g') = failingCalls (device (config g)) (maxRetries (config g))
    /\ delaysBeforeCalls 0 (trace g') =
         failingDelays (device (config g)) (retryDelay (config g)) (maxRetries (config g)).
Proof.
  intros Hf Hinit Htrace. unfold initialize. rewrite Hinit.
  destruct (device (config g)) eqn:Hdev.
  - (* wasm from the start *)
    destruct (retryLoop_wasm_fails (maxRetries (config g)) (S (maxRetries (config g))) 0 g)
      as (g' & Hrun & Hc & Hi & Htr); [exact Hf | exact Hdev | lia | lia |].
    exists g'. split; [exact Hrun|]. split; [rewrite Hi; exact Hinit|].
    rewrite Htr, Htrace, app_nil_l.
    rewrite wasmTrace_calls, wasmTrace_delays by lia.
    destruct (maxRetries (config g)) as [|m]; [split; reflexivity|].
    split; reflexivity.
  - (* webgpu: the first failure falls back to wasm without a delay *)
    destruct (maxRetries (config g)) as [|m] eqn:Hmax.
    + simpl. rewrite Hmax. simpl. exists g. rewrite Htrace. repeat split. exact Hinit.
    + cbn [retryLoop]. rewrite Hmax.
      replace (0 <? S m)%nat with true by reflexivity.
      destruct (tryLoad_fails g Hf) as (att & Hload & Hatt).
      rewrite Hload. set (g1 := mkGenerator _ _ _ _ _ _).
      assert (Hdev1 : device (config g1) = webgpu) by exact Hdev.
      set (g2 := set_device wasm (emit (Warn 1) g1)).
      destruct (retryLoop_wasm_fails m (S m) 1 g2)
        as (g' & Hrun & Hc & Hi & Htr);
        [exact Hf | reflexivity | simpl; rewrite Hmax; lia | lia |].
      assert (Hmax2 : maxRetries (config g2) = S m) by (simpl; exact Hmax).
      assert (Hdel2 : retryDelay (config g2) = retryDelay (config g)) by reflexivity.
      rewrite Hmax2, Hdel2 in Htr. rewrite Hmax2 in Hrun.
      exists g'. split.
      { destruct att; try (exfalso; eapply Hatt; reflexivity);
          rewrite Hdev1; simpl; exact Hrun. }
      split; [rewrite Hi; exact Hinit|].
      rewrite Htr. simpl trace. rewrite Htrace, Hdev. simpl app.
      split.
      * unfold pipelineCalls. simpl. f_equal. apply wasmTrace_calls.
      * simpl. f_equal. rewrite wasmTrace_delays by lia.
        destruct m as [|m]; [reflexivity|]. simpl. f_equal.
        apply map_ext_in. intros k Hk. apply in_seq in Hk.
        unfold delayBeforeRetry. simpl.
        destruct k as [|[|k]]; try lia. reflexivity.
Qed.

Lemma wasmDelays_failing delay maxR :
  wasmDelays delay 0 0 maxR = failingDelays wasm delay maxR.
Proof. destruct maxR; reflexivity. Qed.

Lemma wasmDelays_after_fallback delay m :
  0 :: wasmDelays delay 0 1 m = failingDelays webgpu delay (S m).
Proof.
  unfold wasmDelays, failingDelays. f_equal.
  destruct m as [|m]; [reflexivity|]. simpl. f_equal.
  apply map_ext_in. intros k Hk. apply in_seq in Hk.
  unfold delayBeforeRetry. simpl. destruct k as [|[|k]]; try lia. reflexivity.
Qed.

(** [initialize] of a fresh generator, whatever the attempts give: it
    ends, and the calls and delays in its trace are the first ones of
    [failingCalls] and [failingDelays]. *)
Lemma initialize_trace (g : Generator) :
  isInitialized g = false ->
  trace g = [] ->
  exists o g',
    initialize outcome g = (o, g')
    /\ o <> OutOfFuel
    /\ pipelineCalls (trace g') `prefix_of`
         failingCalls (device (config g)) (maxRetries (config g))
    /\ delaysBeforeCalls 0 (trace g') `prefix_of`
         failingDelays (device (config g)) (retryDelay (config g)) (maxRetries (config g))
    /\ length (delaysBeforeCalls 0 (trace g')) = length (pipelineCalls (trace g'))
    /\ (o = Resolved -> isInitialized g' = true).
Proof.
  intros Hinit Htrace. unfold initialize. rewrite Hinit.
  destruct (device (config g)) eqn:Hdev.
  - destruct (retryLoop_wasm (maxRetries (config g)) (S (maxRetries (config g))) 0 g)
      as (o & g' & s & Hrun & Hfuel & Htr & Hcalls & Hres & Hdel);
      [exact Hdev | lia | lia |].
    exists o, g'. split; [exact Hrun|]. split; [exact Hfuel|].
    rewrite Htr, Htrace, app_nil_l. destruct (Hdel 0) as [Hpre Hlen].
    rewrite wasmDelays_failing in Hpre.
    split; [by destruct (maxRetries (config g))|]. auto.
  - destruct (maxRetries (config g)) as [|m] eqn:Hmax.
    + simpl. rewrite Hmax. simpl. exists (Rejected 0), g. rewrite Htrace.
      split; [reflexivity|]. split; [discriminate|].
      split; [apply prefix_nil|]. split; [apply prefix_nil|].
      split; [reflexivity | discriminate].
    + cbn [retryLoop]. rewrite Hmax.
      replace (0 <? S m)%nat with true by reflexivity.
      assert (Hfailed : forall ps,
        let g1 := mkGenerator ps (config g) (dims g) (isInitialized g) (S (calls g))
                              (trace g ++ [CallPipeline webgpu]) in
        exists o g',
          (if device_eqb (device (config g1)) webgpu && (1 =? 1)%nat
           then retryLoop outcome (S m) 1 (set_device wasm (emit (Warn 1) g1))
           else if (1 <? maxRetries (config g1))%nat
                then retryLoop outcome (S m) 1
                       (emit (Sleep (retryDelay (config g1) * 2 ^ Z.of_nat (1 - 1)))
                             (emit (Warn 1) g1))
                else retryLoop outcome (S m) 1 g1) = (o, g')
          /\ o <> OutOfFuel
          /\ pipelineCalls (trace g') `prefix_of` failingCalls webgpu (S m)
          /\ delaysBeforeCalls 0 (trace g') `prefix_of`
               failingDelays webgpu (retryDelay (config g)) (S m)
          /\ length (delaysBeforeCalls 0 (trace g')) = length (pipelineCalls (trace g'))
          /\ (o = Resolved -> isInitialized g' = true)).
      { intros ps g1. assert (Hdev1 : device (config g1) = webgpu) by exact Hdev.
        rewrite Hdev1. cbn [device_eqb andb Nat.eqb].
        set (g2 := set_device wasm (emit (Warn 1) g1)).
        destruct (retryLoop_wasm m (S m) 1 g2)
          as (o & g' & s & Hrun & Hfuel & Htr & Hcalls & Hres & Hdel);
          [reflexivity | simpl; rewrite Hmax; lia | lia |].
        exists o, g'. split; [exact Hrun|]. split; [exact Hfuel|].
        rewrite Htr. simpl trace. rewrite Htrace. cbn [app].
        destruct (Hdel 0) as [Hpre Hlen].
        change (retryDelay (config g2)) with (retryDelay (config g)) in Hpre.
        split; [by apply prefix_cons|].
        split; [rewrite <- wasmDelays_after_fallback; by apply prefix_cons|].
        split; [|exact Hres].
        change (pipelineCalls (CallPipeline webgpu :: Warn 1 :: s))
          with (webgpu :: pipelineCalls s).
        cbn [delaysBeforeCalls length]. by rewrite Hlen. }
      unfold tryLoad. rewrite Hdev.
      destruct (outcome (calls g) webgpu) as [| |n].
      * apply Hfailed.
      * apply Hfailed.
      * eexists Resolved, _. split; [reflexivity|]. split; [discriminate|].
        simpl trace. rewrite Htrace. simpl.
        split; [apply prefix_cons, prefix_nil|].
        split; [apply prefix_cons, prefix_nil|]. split; reflexivity.
Qed.

End EmbeddingLoader.

Section EmbeddingLoaderClaims.
Import TransformersEmbedding.

Lemma failingCalls_length dev maxR : length (failingCalls dev maxR) = maxR.
Proof. destruct maxR; simpl; [reflexivity|]. by rewrite length_replicate. Qed.

Lemma failingCalls_retry dev maxR k :
  (1 <= k < maxR)%nat -> failingCalls dev maxR !! k = Some wasm.
Proof.
  intros Hk. destruct maxR as [|m]; [lia|]. destruct k as [|k]; [lia|].
  simpl. apply lookup_replicate_2. lia.
Qed.

Lemma failingDelays_retry dev delay maxR k :
  (1 <= k < maxR)%nat ->
  failingDelays dev delay maxR !! k = Some (delayBeforeRetry dev delay k).
Proof.
  intros Hk. destruct maxR as [|m]; [lia|]. destruct k as [|k]; [lia|].
  simpl. rewrite list_lookup_fmap, lookup_seq_lt by lia. reflexivity.
Qed.

(** C5 (amended).  A generator that has not been initialized and whose
    every load attempt fails: [initialize] rejects with the model-load
    error after exactly [maxRetries] calls of [pipeline]; the first call
    is for the configured device and every retry is for wasm, so a
    generator configured for webgpu falls back to wasm on its first retry;
    and the time slept before retry number [k] (counting the retries from
    1) is [retryDelay * 2 ^ (k - 1)], except that the fall-back from webgpu
    is retried at once. *)
Theorem initialize_retries_with_backoff
    (outcome : nat -> Device -> Attempt) (g : Generator) :
  everyAttemptFails outcome ->
  isInitialized g = false ->
  trace g = [] ->
  exists g',
    initialize outcome g = (Rejected (maxRetries (config g)), g')
    /\ isInitialized g' = false
    /\ length (pipelineCalls (trace g')) = maxRetries (config g)
    /\ ((0 < maxRetries (config g))%nat ->
          pipelineCalls (trace g') !! 0%nat = Some (device (config g)))
    /\ (forall k, (1 <= k < maxRetries (config g))%nat ->
          pipelineCalls (trace g') !! k = Some wasm
          /\ delaysBeforeCalls 0 (trace g') !! k =
               Some (if device_eqb (device (config g)) webgpu && (k =? 1)%nat
                     then 0
                     else retryDelay (config g) * 2 ^ (Z.of_nat k - 1))).
Proof.
  intros Hf Hinit Htrace.
  destruct (initialize_fails_trace outcome g Hf Hinit Htrace)
    as (g' & Hrun & Hi & Hcalls & Hdelays).
  exists g'. split; [exact Hrun|]. split; [exact Hi|].
  rewrite Hcalls, Hdelays. split; [apply failingCalls_length|]. split.
  - intros Hpos. destruct (maxRetries (config g)); [lia | reflexivity].
  - intros k Hk. split; [by apply failingCalls_retry|].
    rewrite failingDelays_retry by exact Hk. unfold delayBeforeRetry.
    replace (Z.of_nat (k - 1)) with (Z.of_nat k - 1) by lia. reflexivity.
Qed.

(** A generator for webgpu with the default three attempts and one second
    of base delay, every load failing. *)
Lemma initialize_retries_with_backoff_witness :
  exists g',
    initialize (fun _ _ => LoadFails)
               (new (mkUserConfig "Xenova/all-MiniLM-L6-v2" (Some webgpu) None None None None))
      = (Rejected 3, g')
    /\ isInitialized g' = false
    /\ length (pipelineCalls (trace g')) = 3%nat
    /\ ((0 < 3)%nat -> pipelineCalls (trace g') !! 0%nat = Some webgpu)
    /\ (forall k, (1 <= k < 3)%nat ->
          pipelineCalls (trace g') !! k = Some wasm
          /\ delaysBeforeCalls 0 (trace g') !! k =
               Some (if device_eqb webgpu webgpu && (k =? 1)%nat
                     then 0
                     else 1000 * 2 ^ (Z.of_nat k - 1))).
Proof.
  apply (initialize_retries_with_backoff (fun _ _ => LoadFails)
           (new (mkUserConfig "Xenova/all-MiniLM-L6-v2" (Some webgpu) None None None None))).
  - intros n d k. discriminate.
  - reflexivity.
  - reflexivity.
Defined.

(** C5, as stated, fails.  With a base delay of 1000 ms and three
    attempts, all failing: configured for webgpu, nothing is slept before
    the first retry; configured for wasm, 1000 ms are slept before the
    first retry and 2000 ms before the second.  The claimed
    [retryDelay * 2 ^ attempt] would be 2000 and 4000 ms when retries are
    counted from 1, and for webgpu's first retry 1000 ms even when they
    are counted from 0. *)
Lemma initialize_delay_counterexample :
  let run dev :=
    (initialize (fun _ _ => LoadFails)
       (new (mkUserConfig "m" (Some dev) None None (Some 3%nat) (Some 1000)))).2 in
  delaysBeforeCalls 0 (trace (run webgpu)) = [0; 0; 2000]
  /\ delaysBeforeCalls 0 (trace (run wasm)) = [0; 1000; 2000]
  /\ 0 <> 1000 * 2 ^ 0 /\ 0 <> 1000 * 2 ^ 1
  /\ 1000 <> 1000 * 2 ^ 1 /\ 2000 <> 1000 * 2 ^ 2.
Proof. repeat split; try reflexivity; discriminate. Qed.

End EmbeddingLoaderClaims.

(* ===================================================================== *)
(** * Properties of the coordinator *)
(* ===================================================================== *)

(** Unfolding of the plumbing of methods. *)
Ltac unfold_M :=
  unfold bind, ret, throw, gets, modify, liftResult, tryCatch,
         rethrowOrWrap, wrapAll in *.

Section StreamingExport.

Variable W : World.
Variable cfg : Config.

Lemma streamVisitor_foldl size (rs : list VectorRecord) : forall chunk loaded,
  foldl (fun a r => VectorDB.streamVisitor size r a) (chunk, loaded) rs
  = (chunk ++ map VectorDB.toExportRecord rs, (loaded + length rs)%nat).
Proof.
  induction rs as [|r rs IH]; intros chunk loaded; simpl.
  - by rewrite app_nil_r, Nat.add_0_r.
  - unfold VectorDB.streamVisitor at 2. simpl.
    destruct (size <=? length (chunk ++ [VectorDB.toExportRecord r]))%nat;
      rewrite IH, <- app_assoc; simpl; f_equal; lia.
Qed.

Lemma flushPending_id (db : DB) : VectorDB.flushPending cfg db = (Ok tt, db).
Proof.
  unfold VectorDB.flushPending, coalescer_flush. destruct (batching cfg); unfold_M.
  - by destruct db.
  - reflexivity.
Qed.

(** What [exportStream] yields, whatever the chunk size: the metadata
    item, one vectors item holding every stored record (none when the
    store is empty), and the index item when asked for. *)
Lemma exportStream_items (options : ExportOptions) (db : DB) :
  initialized db = true ->
  VectorDB.exportStream W cfg options db =
    (Ok (ItemMetadata "1.0.0" cfg
           (mkExportMetadata (clock W (ticks db))
                             (Some (Z.of_nat (storage_count (storage db))))
                             (Some (Z.of_nat (dimensions cfg))))
         :: (if (0 <? length (storage_getAll (storage db)))%nat
             then [ItemVectors (map VectorDB.toExportRecord (storage_getAll (storage db)))]
             else [])
         ++ (if includeIndex options
             then [ItemIndex (index_serialize (dimensions cfg) (index db))]
             else [])),
     set_ticks (S (ticks db)) db).
Proof.
  intros Hinit. unfold VectorDB.exportStream, VectorDB.ensureInitialized.
  unfold bind at 1. rewrite Hinit. unfold tryCatch.
  unfold bind at 1. rewrite flushPending_id.
  unfold VectorDB.now, streamProcess. unfold_M. simpl.
  rewrite streamVisitor_foldl. simpl.
  rewrite length_map.
  destruct (includeIndex options); reflexivity.
Qed.

End StreamingExport.

Lemma storage_getAll_length (s : Storage) : length (storage_getAll s) = storage_count s.
Proof. unfold storage_getAll, storage_count. by rewrite length_fmap, length_map_to_list. Qed.

(** C4 (what the code does instead).  With more stored records than the
    chunk size, [exportStream] yields the metadata item first and then a
    single vectors item that holds all the records, more than the chunk
    size allows, where the claim has one item per [chunkSize] records. *)
Theorem exportStream_yields_one_oversized_chunk
    (W : World) (cfg : Config) (options : ExportOptions) (db : DB) :
  initialized db = true ->
  (orDefault100 (chunkSize cfg) < storage_count (storage db))%nat ->
  exists first rest chunk,
    (VectorDB.exportStream W cfg options db).1 = Ok (first :: rest)
    /\ vectorChunks (first :: rest) = [chunk]
    /\ length chunk = storage_count (storage db)
    /\ (orDefault100 (chunkSize cfg) < length chunk)%nat.
Proof.
  intros Hinit Hmore. rewrite (exportStream_items W cfg options db Hinit).
  rewrite storage_getAll_length.
  replace (0 <? storage_count (storage db))%nat with true
    by (symmetry; apply Nat.ltb_lt; lia).
  eexists _, _, _. split; [reflexivity|].
  split; [|rewrite length_map, storage_getAll_length; split; [reflexivity | exact Hmore]].
  simpl. destruct (includeIndex options); reflexivity.
Qed.

(** Three records, chunks of two. *)
Lemma exportStream_yields_one_oversized_chunk_witness :
  exists first rest chunk,
    (VectorDB.exportStream Demo.world Demo.config defaultExportOptions Demo.threeRecords).1
      = Ok (first :: rest)
    /\ vectorChunks (first :: rest) = [chunk]
    /\ length chunk = storage_count (storage Demo.threeRecords)
    /\ (orDefault100 (chunkSize Demo.config) < length chunk)%nat.
Proof.
  apply (exportStream_yields_one_oversized_chunk Demo.world Demo.config
           defaultExportOptions Demo.threeRecords).
  - reflexivity.
  - vm_compute. lia.
Defined.

(** The same run, evaluated: one chunk of three records between the
    metadata and the index, not a chunk of two and a chunk of one. *)
Lemma exportStream_three_records_chunks_of_two :
  match (VectorDB.exportStream Demo.world Demo.config defaultExportOptions
           Demo.threeRecords).1 with
  | Ok [ItemMetadata _ _ meta; ItemVectors chunk; ItemIndex _] =>
      vectorCount meta = Some 3 /\ length chunk = 3%nat
  | _ => False
  end.
Proof. vm_compute. split; reflexivity. Qed.

Lemma set_storage_same (db : DB) : set_storage (storage db) db = db.
Proof. by destruct db. Qed.

Lemma index_set_index (ix : AnnIndex) (db : DB) : index (set_index ix db) = ix.
Proof. reflexivity. Qed.

Lemma vc_delete_gone (id : string) (c : VectorCache) :
  vc_has id (vc_delete id c) = false.
Proof.
  unfold vc_has, vc_delete, vc_remove.
  apply bool_decide_eq_false. intros Hin.
  apply list_elem_of_fmap in Hin as (e & He & Hin).
  destruct (list_find _ (vc_entries c)) as [[i [k [r sz]]]|] eqn:Hfind; simpl in Hin.
  - apply list_elem_of_filter in Hin as [Hne _]. by apply Hne.
  - apply list_find_None in Hfind. rewrite Forall_forall in Hfind.
    by apply (Hfind e Hin).
Qed.

Lemma vc_delete_keeps (id other : string) (c : VectorCache) :
  other <> id -> vc_has other (vc_delete id c) = vc_has other c.
Proof.
  intros Hne. unfold vc_has, vc_delete, vc_remove.
  destruct (list_find _ (vc_entries c)) as [[i [k [r sz]]]|]; [|reflexivity].
  simpl. apply bool_decide_ext. rewrite !list_elem_of_fmap.
  split.
  - intros (e & He & Hin). apply list_elem_of_filter in Hin as [_ Hin]. eauto.
  - intros (e & He & Hin). exists e. split; [exact He|].
    apply list_elem_of_filter. split; [congruence | exact Hin].
Qed.

(** C7.  On an initialized database [delete id] returns whether [id] was
    in Storage.  When it was, the record is gone from Storage, from the
    vector cache and from the index, and entries under other ids stay;
    when it was not, nothing at all changes. *)
Theorem delete_reports_existence (cfg : Config) (id : string) (db : DB) :
  initialized db = true ->
  exists db',
    VectorDB.delete cfg id db = (Ok (bool_decide (is_Some (storage db !! id))), db')
    /\ (is_Some (storage db !! id) ->
          storage db' = delete id (storage db)
          /\ vc_has id (vectorCache db') = false
          /\ index db' = delete id (index db)
          /\ (forall other, other <> id ->
                vc_has other (vectorCache db') = vc_has other (vectorCache db)))
    /\ (storage db !! id = None -> db' = db).
Proof.
  intros Hinit. unfold VectorDB.delete, VectorDB.ensureInitialized.
  unfold bind at 1. rewrite Hinit. unfold tryCatch, bind at 1.
  assert (Hdel : (if batching cfg then coalescer_delete id (storage db)
                  else storage_delete id (storage db)) = storage_delete id (storage db))
    by (destruct (batching cfg); reflexivity).
  rewrite Hdel. unfold storage_delete.
  destruct (storage db !! id) as [r|] eqn:Hlook.
  - eexists. split.
    + unfold VectorDB.indexRemove. unfold_M. simpl.
      reflexivity.
    + simpl. split; [|discriminate]. intros _.
      split; [reflexivity|]. split; [apply vc_delete_gone|].
      split; [reflexivity|]. intros other Hne. by apply vc_delete_keeps.
  - exists db. split.
    + unfold_M. simpl. rewrite set_storage_same. reflexivity.
    + split; [intros [? ?]; discriminate | reflexivity].
Qed.

(** Deleting the first of three records, and an id that is not there. *)
Lemma delete_reports_existence_witness :
  (exists db',
     VectorDB.delete Demo.config "1700000000000-r0" Demo.threeRecords
       = (Ok (bool_decide (is_Some (storage Demo.threeRecords !! "1700000000000-r0"))), db')
     /\ (is_Some (storage Demo.threeRecords !! "1700000000000-r0") ->
           storage db' = delete "1700000000000-r0" (storage Demo.threeRecords)
           /\ vc_has "1700000000000-r0" (vectorCache db') = false
           /\ index db' = delete "1700000000000-r0" (index Demo.threeRecords)
           /\ (forall other, other <> "1700000000000-r0" ->
                 vc_has other (vectorCache db') = vc_has other (vectorCache Demo.threeRecords)))
     /\ (storage Demo.threeRecords !! "1700000000000-r0" = None -> db' = Demo.threeRecords))
  /\ initialized Demo.threeRecords = true
  /\ (VectorDB.delete Demo.config "1700000000000-r0" Demo.threeRecords).1 = Ok true
  /\ (VectorDB.delete Demo.config "non-existent-id" Demo.threeRecords).1 = Ok false.
Proof.
  split; [|repeat split; vm_compute; reflexivity].
  apply (delete_reports_existence Demo.config "1700000000000-r0" Demo.threeRecords).
  vm_compute. reflexivity.
Defined.

Section ImportChecks.

Variable W : World.
Variable cfg : Config.

Lemma validateVersionCompatibility_cases (version : string) (db : DB) :
  VectorDB.validateVersionCompatibility version db =
    if (length (VectorDB.versionParts version) <? 2)%nat
    then (Throw (VectorDBError INVALID_VERSION), db)
    else if bool_decide (VectorDB.versionMajor version = Some 1)
    then (Ok tt,
          if VectorDB.greaterThan (VectorDB.versionMinor version) 0
          then add_warning (VectorDB.newerVersionWarning version) db
          else db)
    else (Throw (VectorDBError VERSION_INCOMPATIBLE), db).
Proof.
  unfold VectorDB.validateVersionCompatibility, VectorDB.versionMajor,
    VectorDB.versionMinor, VectorDB.versionParts.
  destruct (length (splitOn "." version) <? 2)%nat; [reflexivity|].
  destruct (parseInt (default "" (splitOn "." version !! 0%nat))) as [major|]; simpl.
  - unfold VectorDB.currentMajor. destruct (Z.eqb_spec major 1) as [->|Hne]; simpl.
    + destruct (VectorDB.greaterThan _ _); reflexivity.
    + rewrite bool_decide_eq_false_2 by congruence. reflexivity.
  - reflexivity.
Qed.


Lemma validateExportData_ok (data : ExportData) :
  VectorDB.validateExportData data = Ok tt ->
  exists version vectors meta d c,
    x_version data = Some version /\ version <> ""
    /\ x_vectors data = Some vectors
    /\ x_meta data = Some meta
    /\ x_dimensions meta = Some d /\ 0 < d
    /\ vectorCount meta = Some c /\ 0 <= c.
Proof.
  unfold VectorDB.validateExportData, truthy.
  destruct (x_version data) as [version|]; [|discriminate].
  destruct (String.eqb_spec version ""); [discriminate|]. simpl.
  destruct (x_vectors data) as [vectors|]; [|discriminate].
  destruct (x_meta data) as [meta|]; [|discriminate].
  destruct (x_dimensions meta) as [d|] eqn:Hd; [|discriminate].
  destruct (Z.leb_spec d 0); [discriminate|].
  destruct (vectorCount meta) as [c|] eqn:Hc; [|discriminate].
  destruct (Z.ltb_spec c 0); [discriminate|].
  intros _. exists version, vectors, meta, d, c. repeat split; auto.
Qed.

(** [import] up to the end of the version check. *)
Lemma import_checks (data : ExportData) (options : ImportOptions) (db : DB) :
  initialized db = true ->
  VectorDB.import W cfg data options db =
    match (if validateSchema options then VectorDB.validateExportData data else Ok tt) with
    | Throw e => rethrowOrWrap IMPORT_ERROR e db
    | Ok _ =>
        match x_version data with
        | None => (Throw (VectorDBError IMPORT_ERROR), db)
        | Some version =>
            match VectorDB.validateVersionCompatibility version db with
            | (Ok _, db1) =>
                tryCatch (VectorDB.importValidated W cfg data options)
                         (rethrowOrWrap IMPORT_ERROR) db1
            | (Throw e, db1) => rethrowOrWrap IMPORT_ERROR e db1
            end
        end
    end.
Proof.
  intros Hinit. unfold VectorDB.import, VectorDB.ensureInitialized.
  unfold bind at 1. rewrite Hinit.
  unfold tryCatch at 1. unfold bind at 1.
  destruct (validateSchema options).
  - unfold liftResult. destruct (VectorDB.validateExportData data) as [[]|e]; [|reflexivity].
    unfold bind at 1. destruct (x_version data) as [version|]; [|reflexivity].
    destruct (VectorDB.validateVersionCompatibility version db) as [[[]|e] db1]; reflexivity.
  - unfold ret at 1. unfold bind at 1.
    destruct (x_version data) as [version|]; [|reflexivity].
    destruct (VectorDB.validateVersionCompatibility version db) as [[[]|e] db1]; reflexivity.
Qed.

End ImportChecks.



(** The three outcomes on concrete versions: a newer minor version is
    imported and leaves the warning; a different major version and a
    version of one part are refused. *)
Lemma import_versions_evaluated :
  let run version :=
    VectorDB.import Demo.world Demo.config (Demo.emptyEnvelope version)
      defaultImportOptions Demo.emptyDB in
  (run "1.2.0").1 = Ok tt
  /\ warnings (run "1.2.0").2 = [VectorDB.newerVersionWarning "1.2.0"]
  /\ (run "1.0.0").1 = Ok tt
  /\ warnings (run "1.0.0").2 = []
  /\ (run "2.0.0").1 = Throw (VectorDBError VERSION_INCOMPATIBLE)
  /\ (run "").1 = Throw (VectorDBError INVALID_EXPORT_DATA).
Proof. vm_compute. repeat split. Qed.


(* --------------------------------------------------------------------- *)
(** ** How the methods run *)
(* --------------------------------------------------------------------- *)

Section Runs.

Variable W : World.
Variable cfg : Config.

Lemma embeddingStateOf_refl db : embeddingStateOf db db.
Proof. unfold embeddingStateOf. by destruct db. Qed.

Lemma embeddingStateOf_storage db db1 :
  embeddingStateOf db db1 ->
  storage db1 = storage db /\ index db1 = index db /\ vectorCache db1 = vectorCache db
  /\ ticks db1 = ticks db /\ rolls db1 = rolls db /\ initialized db1 = initialized db
  /\ warnings db1 = warnings db.
Proof. unfold embeddingStateOf. intros ->. by destruct db. Qed.

Lemma ensureModelsLoaded_frame db :
  embeddingStateOf db (VectorDB.ensureModelsLoaded W cfg db).2.
Proof.
  unfold VectorDB.ensureModelsLoaded, embeddingStateOf. unfold_M. simpl.
  destruct db as [i s ix vc ec ml t r w]; simpl.
  destruct ml; simpl; [reflexivity|].
  destruct (generatorLoads W); simpl; [|reflexivity].
  destruct (generatorDimensions W =? dimensions cfg)%nat; reflexivity.
Qed.

Lemma prepareVector_frame data db :
  embeddingStateOf db (VectorDB.prepareVector W cfg data db).2.
Proof.
  unfold VectorDB.prepareVector.
  destruct (d_vector data) as [v|].
  { unfold_M. destruct (validateVector v (dimensions cfg)) as [[]|e];
      apply embeddingStateOf_refl. }
  destruct (truthy (d_text data)); [|apply embeddingStateOf_refl].
  unfold bind at 1. unfold VectorDB.getCachedEmbedding.
  destruct (ec_get _ (embeddingCache db)) as [[hit|] c] eqn:Hget.
  { unfold ret, embeddingStateOf. by destruct db. }
  unfold bind at 1.
  pose proof (ensureModelsLoaded_frame (set_embeddingCache c db)) as Hframe.
  destruct (VectorDB.ensureModelsLoaded W cfg (set_embeddingCache c db)) as [[[]|e] db1];
    simpl in Hframe.
  2:{ unfold embeddingStateOf in *. simpl. rewrite Hframe. by destruct db. }
  unfold_M. unfold VectorDB.cacheEmbedding, modify.
  destruct (generatorEmbed W _) as [vector|e]; simpl.
  2:{ unfold embeddingStateOf in *. rewrite Hframe. by destruct db. }
  destruct (validateVector vector (dimensions cfg)) as [[]|e]; simpl;
    unfold embeddingStateOf in *; rewrite Hframe; by destruct db.
Qed.

(** A vector the caller provides is returned only after validation, and
    then nothing changes. *)
Lemma prepareVector_provided data v db :
  d_vector data = Some v ->
  VectorDB.prepareVector W cfg data db =
    (if hasDimension (dimensions cfg) v then Ok v else Throw DimensionMismatchError, db).
Proof.
  intros Hv. unfold VectorDB.prepareVector. rewrite Hv. unfold_M.
  unfold validateVector. by destruct (hasDimension (dimensions cfg) v).
Qed.

(** [insert] on an initialized database, step by step. *)
Lemma insert_run data db :
  initialized db = true ->
  VectorDB.insert W cfg data db =
    match sanitize W (d_metadata data) with
    | Throw e => rethrowOrWrap INSERT_ERROR e db
    | Ok sanitized =>
        match VectorDB.prepareVector W cfg data db with
        | (Throw e, db1) => rethrowOrWrap INSERT_ERROR e db1
        | (Ok vector, db1) =>
            let record := VectorDB.newRecord W data sanitized vector db1 in
            let db2 :=
              set_vectorCache
                (vc_set (cacheBytes cfg) (rec_id record) record
                        (VectorDB.recordSize W record) (vectorCache db1))
                (set_storage (storage_put record (storage db1))
                             (VectorDB.afterNewRecord db1)) in
            if hasDimension (dimensions cfg) vector
            then (Ok (rec_id record), set_index (<[rec_id record := record]> (index db1)) db2)
            else (Throw DimensionMismatchError, db2)
        end
    end.
Proof.
  intros Hinit. unfold VectorDB.insert, VectorDB.ensureInitialized.
  unfold bind at 1. rewrite Hinit. unfold tryCatch at 1.
  unfold bind at 1. unfold liftResult at 1.
  destruct (sanitize W (d_metadata data)) as [sanitized|e]; [|reflexivity].
  unfold bind at 1.
  destruct (VectorDB.prepareVector W cfg data db) as [[vector|e] db1]; [|reflexivity].
  unfold VectorDB.generateId, VectorDB.now, VectorDB.randomSuffix, VectorDB.putRecord,
    VectorDB.cacheRecord, VectorDB.indexAdd, index_add, coalescer_put.
  unfold_M. simpl.
  destruct (batching cfg); simpl;
    destruct (hasDimension (dimensions cfg) vector); reflexivity.
Qed.

(** [update] on an initialized database, step by step. *)
Lemma update_run id data db :
  initialized db = true ->
  VectorDB.update W cfg id data db =
    match storage db !! id with
    | None => (Ok false, db)
    | Some existing =>
        match VectorDB.sanitizedUpdate W data with
        | Throw e => rethrowOrWrap UPDATE_ERROR e db
        | Ok sanitized =>
            match (if VectorDB.regenerates data
                   then VectorDB.prepareVector W cfg data db
                   else (Ok (rec_vector existing), db)) with
            | (Throw e, db1) => rethrowOrWrap UPDATE_ERROR e db1
            | (Ok vector, db1) =>
                let updated :=
                  VectorDB.updatedRecord W id existing data sanitized vector db1 in
                let db2 :=
                  set_index (delete id (index db1))
                    (set_storage (storage_put updated (storage db1))
                                 (set_ticks (S (S (ticks db1))) db1)) in
                if hasDimension (dimensions cfg) vector
                then (Ok true, set_index (<[id := updated]> (delete id (index db1))) db2)
                else (Throw DimensionMismatchError, db2)
            end
        end
    end.
Proof.
  intros Hinit. unfold VectorDB.update, VectorDB.ensureInitialized.
  unfold bind at 1. rewrite Hinit. unfold tryCatch at 1.
  unfold bind at 1. unfold gets at 1. unfold storage_get.
  destruct (storage db !! id) as [existing|]; [|reflexivity].
  unfold bind at 1. unfold VectorDB.sanitizedUpdate.
  destruct (d_metadata data) as [m|] eqn:Hm.
  - unfold liftResult at 1. destruct (sanitize W (Some m)) as [sanitized|e]; [|reflexivity].
    unfold bind at 1. unfold VectorDB.regenerates.
    destruct (bool_decide (is_Some (d_vector data)) || truthy (d_text data)).
    + destruct (VectorDB.prepareVector W cfg data db) as [[vector|e] db1]; [|reflexivity].
      unfold VectorDB.now, VectorDB.indexRemove, VectorDB.indexAdd, index_add,
        index_remove, VectorDB.updatedRecord. unfold_M. simpl.
      destruct (hasDimension (dimensions cfg) vector); reflexivity.
    + unfold ret at 1.
      unfold VectorDB.now, VectorDB.indexRemove, VectorDB.indexAdd, index_add,
        index_remove, VectorDB.updatedRecord. unfold_M. simpl.
      destruct (hasDimension (dimensions cfg) (rec_vector existing)); reflexivity.
  - unfold ret at 1. unfold bind at 1. unfold VectorDB.regenerates.
    destruct (bool_decide (is_Some (d_vector data)) || truthy (d_text data)).
    + destruct (VectorDB.prepareVector W cfg data db) as [[vector|e] db1]; [|reflexivity].
      unfold VectorDB.now, VectorDB.indexRemove, VectorDB.indexAdd, index_add,
        index_remove, VectorDB.updatedRecord. unfold_M. simpl.
      destruct (hasDimension (dimensions cfg) vector); reflexivity.
    + unfold ret at 1.
      unfold VectorDB.now, VectorDB.indexRemove, VectorDB.indexAdd, index_add,
        index_remove, VectorDB.updatedRecord. unfold_M. simpl.
      destruct (hasDimension (dimensions cfg) (rec_vector existing)); reflexivity.
Qed.

(** The loop of [insertBatch] touches neither Storage nor the index,
    whether it finishes or throws. *)
Lemma prepareBatch_frame data : forall records ids db r db',
  VectorDB.prepareBatch W cfg data records ids db = (r, db') ->
  storage db' = storage db /\ index db' = index db
  /\ initialized db' = initialized db /\ warnings db' = warnings db.
Proof.
  induction data as [|item rest IH]; intros records ids db r db' Hrun.
  { simpl in Hrun. unfold ret in Hrun. by injection Hrun as _ <-. }
  simpl in Hrun. unfold bind at 1 in Hrun. unfold liftResult at 1 in Hrun.
  destruct (sanitize W (d_metadata item)) as [sanitized|e];
    [|by injection Hrun as _ <-].
  unfold bind at 1 in Hrun.
  pose proof (prepareVector_frame item db) as Hframe.
  destruct (VectorDB.prepareVector W cfg item db) as [[vector|e] db1]; simpl in Hframe;
    apply embeddingStateOf_storage in Hframe as (Hs & Hi & _ & _ & _ & Hin & Hw);
    [|by injection Hrun as _ <-].
  unfold VectorDB.generateId, VectorDB.now, VectorDB.randomSuffix,
    VectorDB.cacheRecord in Hrun.
  unfold_M. simpl in Hrun.
  apply IH in Hrun as (Hs' & Hi' & Hin' & Hw').
  simpl in *. rewrite Hs', Hi', Hin', Hw'. auto.
Qed.

(** When the loop finishes, it has appended the records of [prepared]. *)
Lemma prepareBatch_ok data : forall records ids db records' ids' db',
  VectorDB.prepareBatch W cfg data records ids db = (Ok (records', ids'), db') ->
  exists new,
    records' = records ++ new /\ ids' = ids ++ map rec_id new
    /\ VectorDB.prepared W cfg data db new db'.
Proof.
  induction data as [|item rest IH]; intros records ids db records' ids' db' Hrun.
  - simpl in Hrun. unfold ret in Hrun. injection Hrun as <- <- <-.
    exists []. rewrite !app_nil_r. repeat split. constructor.
  - simpl in Hrun. unfold bind at 1 in Hrun. unfold liftResult at 1 in Hrun.
    destruct (sanitize W (d_metadata item)) as [sanitized|e] eqn:Hsan; [|discriminate].
    unfold bind at 1 in Hrun.
    destruct (VectorDB.prepareVector W cfg item db) as [[vector|e] db1] eqn:Hvec;
      [|discriminate].
    unfold VectorDB.generateId, VectorDB.now, VectorDB.randomSuffix,
      VectorDB.cacheRecord in Hrun.
    unfold_M. simpl in Hrun.
    apply IH in Hrun as (new & -> & -> & Hprep).
    exists (VectorDB.newRecord W item sanitized vector db1 :: new).
    rewrite <- !app_assoc. simpl. repeat split.
    econstructor; [exact Hsan | exact Hvec | exact Hprep].
Qed.

(** [insertBatch] of at least one item on an initialized database. *)
Lemma insertBatch_run data db :
  initialized db = true ->
  data <> [] ->
  VectorDB.insertBatch W cfg data db =
    match VectorDB.prepareBatch W cfg data [] [] db with
    | (Throw e, db1) => rethrowOrWrap INSERT_BATCH_ERROR e db1
    | (Ok (records, ids), db1) =>
        let db2 := set_storage (storage_putBatch records (storage db1)) db1 in
        match index_addBatch (dimensions cfg) records (index db1) with
        | Ok ix => (Ok ids, set_index ix db2)
        | Throw e => rethrowOrWrap INSERT_BATCH_ERROR e db2
        end
    end.
Proof.
  intros Hinit Hne. unfold VectorDB.insertBatch, VectorDB.ensureInitialized.
  unfold bind at 1. rewrite Hinit.
  destruct data as [|item rest]; [done|].
  unfold tryCatch at 1. unfold bind at 1.
  destruct (VectorDB.prepareBatch W cfg (item :: rest) [] [] db) as [[[records ids]|e] db1];
    [|reflexivity].
  unfold VectorDB.indexAddBatch. unfold_M. simpl.
  destruct (index_addBatch (dimensions cfg) records (index db1)); reflexivity.
Qed.

Lemma not_initialized_insert data db :
  initialized db = false ->
  VectorDB.insert W cfg data db = (Throw (VectorDBError NOT_INITIALIZED), db).
Proof.
  intros Hinit. unfold VectorDB.insert, VectorDB.ensureInitialized.
  unfold bind at 1. by rewrite Hinit.
Qed.

Lemma not_initialized_insertBatch data db :
  initialized db = false ->
  VectorDB.insertBatch W cfg data db = (Throw (VectorDBError NOT_INITIALIZED), db).
Proof.
  intros Hinit. unfold VectorDB.insertBatch, VectorDB.ensureInitialized.
  unfold bind at 1. by rewrite Hinit.
Qed.

Lemma not_initialized_update id data db :
  initialized db = false ->
  VectorDB.update W cfg id data db = (Throw (VectorDBError NOT_INITIALIZED), db).
Proof.
  intros Hinit. unfold VectorDB.update, VectorDB.ensureInitialized.
  unfold bind at 1. by rewrite Hinit.
Qed.

End Runs.



(* --------------------------------------------------------------------- *)
(** ** The reserved metadata fields *)
(* --------------------------------------------------------------------- *)

Section ReservedFields.

Variable W : World.
Variable cfg : Config.

Lemma withSystemFields_content base c t :
  VectorDB.withSystemFields base c t !! "content" = Some c.
Proof.
  unfold VectorDB.withSystemFields.
  rewrite lookup_insert_ne by discriminate. apply lookup_insert_eq.
Qed.

Lemma withSystemFields_timestamp base c t :
  VectorDB.withSystemFields base c t !! "timestamp" = Some (JNum t).
Proof. unfold VectorDB.withSystemFields. apply lookup_insert_eq. Qed.

Lemma systemFields_weaken c from upto from' upto' record :
  (from' <= from)%nat -> (upto <= upto')%nat ->
  systemFields W c from upto record -> systemFields W c from' upto' record.
Proof.
  intros Hf Hu (Hc & n & Hn & Ht). split; [exact Hc|]. exists n. split; [lia | exact Ht].
Qed.

Lemma newRecord_systemFields item sanitized vector db1 :
  systemFields W (VectorDB.textValue (d_text item)) (ticks db1) (S (S (S (ticks db1))))
               (VectorDB.newRecord W item sanitized vector db1).
Proof.
  split; [apply withSystemFields_content|].
  exists (S (ticks db1)). split; [lia | apply withSystemFields_timestamp].
Qed.

Lemma prepareVector_ticks item db :
  ticks (VectorDB.prepareVector W cfg item db).2 = ticks db.
Proof.
  pose proof (prepareVector_frame W cfg item db) as Hf.
  by apply embeddingStateOf_storage in Hf as (_ & _ & _ & Ht & _).
Qed.

Lemma prepared_systemFields data db records db' :
  VectorDB.prepared W cfg data db records db' ->
  (ticks db <= ticks db')%nat
  /\ Forall2 (fun item record =>
                systemFields W (VectorDB.textValue (d_text item)) (ticks db) (ticks db') record)
             data records.
Proof.
  induction 1 as [db|item rest db sanitized vector db1 records db' Hsan Hvec Hprep [Hle IH]].
  - split; [lia | constructor].
  - pose proof (prepareVector_ticks item db) as Ht. rewrite Hvec in Ht. simpl in Ht.
    simpl in Hle. split; [lia|]. constructor.
    + eapply systemFields_weaken; [| |apply newRecord_systemFields]; lia.
    + eapply Forall2_impl; [exact IH|]. intros item' record' Hsys. simpl in Hsys.
      eapply systemFields_weaken; [| |exact Hsys]; simpl; lia.
Qed.

(** C10.  Whatever [insert], [insertBatch] and [update] write into Storage
    during a call has its reserved metadata fields set by the system,
    whatever the caller's metadata holds under these names: [content] is
    the text of the call ([undefined] without one; for [update] without
    a text, the stored content), and [timestamp] is a reading of the
    clock taken during the call. *)
Theorem written_records_have_system_fields :
  (forall data db,
     let db' := (VectorDB.insert W cfg data db).2 in
     storage db' = storage db
     \/ exists record,
          storage db' = storage_put record (storage db)
          /\ systemFields W (VectorDB.textValue (d_text data)) (ticks db) (ticks db') record)
  /\ (forall data db,
        let db' := (VectorDB.insertBatch W cfg data db).2 in
        storage db' = storage db
        \/ exists records,
             storage db' = storage_putBatch records (storage db)
             /\ Forall2 (fun item record =>
                           systemFields W (VectorDB.textValue (d_text item))
                                        (ticks db) (ticks db') record)
                        data records)
  /\ (forall id data db,
        let db' := (VectorDB.update W cfg id data db).2 in
        storage db' = storage db
        \/ exists existing updated,
             storage db !! id = Some existing
             /\ storage db' = storage_put updated (storage db)
             /\ rec_id updated = id
             /\ systemFields W
                  (match d_text data with
                   | Some s => JStr s
                   | None => default JUndefined (rec_metadata existing !! "content")
                   end)
                  (ticks db) (ticks db') updated).
Proof.
  split; [|split].
  - intros data db db'. subst db'.
    destruct (initialized db) eqn:Hinit;
      [|rewrite not_initialized_insert by exact Hinit; by left].
    rewrite insert_run by exact Hinit.
    destruct (sanitize W (d_metadata data)) as [sanitized|e];
      [|left; unfold rethrowOrWrap; by destruct (instanceofVectorDBError e)].
    pose proof (prepareVector_frame W cfg data db) as Hframe.
    destruct (VectorDB.prepareVector W cfg data db) as [[vector|e] db1]; simpl in Hframe;
      apply embeddingStateOf_storage in Hframe as (Hs & _ & _ & Ht & _);
      [|left; unfold rethrowOrWrap; by destruct (instanceofVectorDBError e)].
    right. exists (VectorDB.newRecord W data sanitized vector db1).
    destruct (hasDimension (dimensions cfg) vector); simpl; rewrite Hs, <- Ht;
      (split; [reflexivity | apply newRecord_systemFields]).
  - intros data db db'. subst db'.
    destruct (initialized db) eqn:Hinit;
      [|rewrite not_initialized_insertBatch by exact Hinit; by left].
    destruct data as [|item rest].
    { left. unfold VectorDB.insertBatch, VectorDB.ensureInitialized. unfold_M.
      by rewrite Hinit. }
    rewrite insertBatch_run by done.
    destruct (VectorDB.prepareBatch W cfg (item :: rest) [] [] db)
      as [[[records ids]|e] db1] eqn:Hrun.
    + destruct (prepareBatch_frame W cfg _ _ _ _ _ _ Hrun) as (Hs & _).
      apply prepareBatch_ok in Hrun as (new & Hrec & _ & Hprep).
      simpl in Hrec. subst new.
      apply prepared_systemFields in Hprep as [_ Hall].
      right. exists records.
      destruct (index_addBatch (dimensions cfg) records (index db1)) as [ix|e]; simpl.
      * rewrite Hs. split; [reflexivity | exact Hall].
      * unfold rethrowOrWrap. destruct (instanceofVectorDBError e); simpl;
          rewrite Hs; (split; [reflexivity | exact Hall]).
    + destruct (prepareBatch_frame W cfg _ _ _ _ _ _ Hrun) as (Hs & _).
      left. unfold rethrowOrWrap. by destruct (instanceofVectorDBError e).
  - intros id data db db'. subst db'.
    destruct (initialized db) eqn:Hinit;
      [|rewrite not_initialized_update by exact Hinit; by left].
    rewrite update_run by exact Hinit.
    destruct (storage db !! id) as [existing|] eqn:Hex; [|by left].
    destruct (VectorDB.sanitizedUpdate W data) as [sanitized|e];
      [|left; unfold rethrowOrWrap; by destruct (instanceofVectorDBError e)].
    assert (Hframe : embeddingStateOf db
      (if VectorDB.regenerates data
       then VectorDB.prepareVector W cfg data db
       else (Ok (rec_vector existing), db)).2).
    { destruct (VectorDB.regenerates data);
        [apply prepareVector_frame | apply embeddingStateOf_refl]. }
    destruct (if VectorDB.regenerates data
              then VectorDB.prepareVector W cfg data db
              else (Ok (rec_vector existing), db)) as [[vector|e] db1]; simpl in Hframe;
      apply embeddingStateOf_storage in Hframe as (Hs & _ & _ & Ht & _);
      [|left; unfold rethrowOrWrap; by destruct (instanceofVectorDBError e)].
    right. exists existing, (VectorDB.updatedRecord W id existing data sanitized vector db1).
    split; [reflexivity|].
    assert (Hsys : systemFields W
              (match d_text data with
               | Some s => JStr s
               | None => default JUndefined (rec_metadata existing !! "content")
               end)
              (ticks db) (S (S (ticks db1)))
              (VectorDB.updatedRecord W id existing data sanitized vector db1)).
    { split; [apply withSystemFields_content|].
      exists (ticks db1). split; [lia | apply withSystemFields_timestamp]. }
    destruct (hasDimension (dimensions cfg) vector); simpl; rewrite Hs;
      (split; [reflexivity | split; [reflexivity | exact Hsys]]).
Qed.

End ReservedFields.

(** An insert whose metadata tries to set both reserved fields: the
    stored record has the text as content and the clock's reading as
    timestamp. *)
Lemma insert_overwrites_reserved_fields :
  let data := mkInsert None (Some "hello")
                (Some {["content" := JStr "mine"; "timestamp" := JNum 7]}) in
  let run := VectorDB.insert Demo.world Demo.config data Demo.emptyDB in
  run.1 = Ok "1700000000000-r0"
  /\ (rec_metadata <$> storage run.2 !! "1700000000000-r0") =
       Some {["content" := JStr "hello"; "timestamp" := JNum 1700000000001]}.
Proof. vm_compute. split; reflexivity. Qed.

(* --------------------------------------------------------------------- *)
(** ** Search *)
(* --------------------------------------------------------------------- *)

Lemma rank_insert_perm m x l : rank_insert m x l ≡ₚ x :: l.
Proof.
  induction l as [|y l IH]; simpl; [reflexivity|].
  destruct (ranksBefore m x y); [reflexivity|].
  rewrite IH. apply Permutation_swap.
Qed.

Lemma rank_perm m l : rank m l ≡ₚ l.
Proof.
  unfold rank. induction l as [|x l IH]; simpl; [reflexivity|].
  by rewrite rank_insert_perm, IH.
Qed.

Section Search.

Variable W : World.
Variable cfg : Config.

(** Filling in the vectors changes neither the results' ids, scores and
    metadata nor Storage or the index, and it does not throw. *)
Lemma hydrate_ok results : forall db,
  exists results' db',
    VectorDB.hydrate W cfg results db = (Ok results', db')
    /\ map (fun r => (res_id r, res_score r, res_metadata r)) results'
       = map (fun r => (res_id r, res_score r, res_metadata r)) results
    /\ storage db' = storage db /\ index db' = index db.
Proof.
  induction results as [|result rest IH]; intros db.
  - exists [], db. by simpl.
  - simpl. unfold bind at 1. unfold VectorDB.getVector.
    destruct (vc_get (res_id result) (vectorCache db)) as [[r|] c].
    + destruct (IH (set_vectorCache c db)) as (rest' & db' & Hrun & Hids & Hs & Hi).
      unfold bind at 1. rewrite Hrun. eexists _, _. split; [reflexivity|].
      simpl. rewrite Hids. auto.
    + unfold storage_get. destruct (storage db !! res_id result) as [r|].
      * match goal with
        | |- context [VectorDB.hydrate W cfg rest] =>
            destruct (IH (set_vectorCache
                            (vc_set (cacheBytes cfg) (res_id result) r
                                    (VectorDB.recordSize W r) (vectorCache db)) db))
              as (rest' & db' & Hrun & Hids & Hs & Hi)
        end.
        unfold bind at 1. rewrite Hrun. eexists _, _. split; [reflexivity|].
        simpl. rewrite Hids. auto.
      * destruct (IH db) as (rest' & db' & Hrun & Hids & Hs & Hi).
        unfold bind at 1. rewrite Hrun. eexists _, _. split; [reflexivity|].
        simpl. rewrite Hids. auto.
Qed.

(** [search] by vector on an initialized database. *)
Lemma search_by_vector_run query v db :
  initialized db = true ->
  q_vector query = Some v ->
  VectorDB.search W cfg query db =
    match validateSearchQuery W (q_k query) with
    | Throw e => rethrowOrWrap SEARCH_ERROR e db
    | Ok _ =>
        match index_search (dimensions cfg) (metric cfg) (score W) v (q_k query)
                           (q_filter query) (index db) with
        | Throw e => (Throw e, db)
        | Ok results =>
            if q_includeVectors query then VectorDB.hydrate W cfg results db
            else (Ok results, db)
        end
    end.
Proof.
  intros Hinit Hv. unfold VectorDB.search, VectorDB.ensureInitialized.
  unfold bind at 1. rewrite Hinit. unfold tryCatch at 1.
  unfold bind at 1. unfold liftResult at 1.
  destruct (validateSearchQuery W (q_k query)) as [[]|e]; [|reflexivity].
  rewrite Hv. unfold bind at 1. unfold ret at 1.
  unfold bind at 1. unfold liftResult at 1. unfold validateVector, index_search.
  destruct (hasDimension (dimensions cfg) v); [|reflexivity].
  unfold bind at 1. unfold gets at 1. unfold bind at 1. unfold liftResult at 1.
  destruct (q_includeVectors query); [|reflexivity].
  match goal with
  | |- context [VectorDB.hydrate W cfg ?rs db] =>
      destruct (hydrate_ok rs db) as (results' & db' & Hrun & _)
  end.
  rewrite Hrun. reflexivity.
Qed.

(** A member of the index that the filter accepts is among the results
    when [k] is at least the size of the index. *)
Lemma index_search_finds (v : Vector) (k : nat) (flt : option (Metadata -> bool))
    (ix : AnnIndex) (id : string) (record : VectorRecord) :
  hasDimension (dimensions cfg) v = true ->
  ix !! id = Some record ->
  match flt with Some f => f (rec_metadata record) = true | None => True end ->
  (size ix <= k)%nat ->
  exists results,
    index_search (dimensions cfg) (metric cfg) (score W) v k flt ix = Ok results
    /\ mkResult (rec_id record) (score W v (rec_vector record)) (rec_metadata record) None
         ∈ results.
Proof.
  intros Hdim Hin Hflt Hk. unfold index_search. rewrite Hdim.
  eexists. split; [reflexivity|].
  set (candidates := map _ (map_to_list ix).*2).
  assert (Hcand : mkResult (rec_id record) (score W v (rec_vector record))
                           (rec_metadata record) None ∈ candidates).
  { subst candidates. apply list_elem_of_fmap. exists record. split; [reflexivity|].
    apply list_elem_of_fmap. exists (id, record). split; [reflexivity|].
    by apply elem_of_map_to_list. }
  assert (Hlen : (length candidates <= k)%nat).
  { subst candidates. rewrite length_map, length_fmap, length_map_to_list. exact Hk. }
  destruct flt as [f|].
  - rewrite take_ge.
    + rewrite rank_perm. apply list_elem_of_In, filter_In.
      split; [by apply list_elem_of_In | exact Hflt].
    + rewrite rank_perm. etrans; [apply filter_length_le | exact Hlen].
  - rewrite take_ge by (by rewrite rank_perm).
    by rewrite rank_perm.
Qed.

End Search.

(** C9.  When [insert] has returned an id, the database it leaves has the
    new record in the index under that id.  So a [search] that starts from
    there finds it: for a query vector of the right dimension, a valid [k]
    not smaller than the index and a filter that accepts the record, the
    results contain the id with the score of the record's vector. *)
Theorem search_after_insert_observes_it
    (W : World) (cfg : Config) (data : InsertData) (db db' : DB) (id : string) :
  VectorDB.insert W cfg data db = (Ok id, db') ->
  exists record,
    index db' !! id = Some record
    /\ rec_id record = id
    /\ forall query v,
         q_vector query = Some v ->
         hasDimension (dimensions cfg) v = true ->
         validateSearchQuery W (q_k query) = Ok tt ->
         match q_filter query with
         | Some f => f (rec_metadata record) = true
         | None => True
         end ->
         (size (index db') <= q_k query)%nat ->
         exists results db'',
           VectorDB.search W cfg query db' = (Ok results, db'')
           /\ (id, score W v (rec_vector record), rec_metadata record)
                ∈ map (fun r => (res_id r, res_score r, res_metadata r)) results.
Proof.
  intros Hins.
  destruct (initialized db) eqn:Hinit;
    [|rewrite not_initialized_insert in Hins by exact Hinit; discriminate].
  rewrite insert_run in Hins by exact Hinit.
  destruct (sanitize W (d_metadata data)) as [sanitized|e];
    [|unfold rethrowOrWrap in Hins; destruct (instanceofVectorDBError e); discriminate].
  pose proof (prepareVector_frame W cfg data db) as Hframe.
  destruct (VectorDB.prepareVector W cfg data db) as [[vector|e] db1]; simpl in Hframe;
    [|unfold rethrowOrWrap in Hins; destruct (instanceofVectorDBError e); discriminate].
  apply embeddingStateOf_storage in Hframe as (_ & _ & _ & _ & _ & Hinit1 & _).
  simpl in Hins. destruct (hasDimension (dimensions cfg) vector); [|discriminate].
  injection Hins as <- <-.
  set (record := VectorDB.newRecord W data sanitized vector db1).
  exists record. split; [apply lookup_insert_eq|]. split; [reflexivity|].
  intros query v Hv Hdim Hk Hflt Hsize.
  rewrite (search_by_vector_run W cfg query v) by (simpl; congruence || exact Hv).
  rewrite Hk.
  destruct (index_search_finds W cfg v (q_k query) (q_filter query)
              (<[rec_id record := record]> (index db1)) (rec_id record) record
              Hdim (lookup_insert_eq _ _ _) Hflt Hsize) as (results & Hrun & Hin).
  rewrite index_set_index. change (VectorDB.newId W db1) with (rec_id record).
  rewrite Hrun.
  destruct (q_includeVectors query).
  - match goal with
    | |- context [VectorDB.hydrate W cfg results ?d] =>
        destruct (hydrate_ok W cfg results d) as (results' & db'' & Hhyd & Hkeys & _)
    end.
    exists results', db''. split; [exact Hhyd|]. rewrite Hkeys.
    apply list_elem_of_fmap. exists (mkResult (rec_id record) (score W v (rec_vector record))
                                         (rec_metadata record) None).
    split; [reflexivity | exact Hin].
  - eexists _, _. split; [reflexivity|].
    apply list_elem_of_fmap. exists (mkResult (rec_id record) (score W v (rec_vector record))
                                         (rec_metadata record) None).
    split; [reflexivity | exact Hin].
Qed.

(** One insert into the empty database, then a search for its vector. *)
Lemma search_after_insert_observes_it_witness :
  let data := Demo.byVector [1; 0; 0] {["cat" := JStr "A"]} in
  let db' := (VectorDB.insert Demo.world Demo.config data Demo.emptyDB).2 in
  (exists record,
     index db' !! "1700000000000-r0" = Some record
     /\ rec_id record = "1700000000000-r0"
     /\ forall query v,
          q_vector query = Some v ->
          hasDimension (dimensions Demo.config) v = true ->
          validateSearchQuery Demo.world (q_k query) = Ok tt ->
          match q_filter query with
          | Some f => f (rec_metadata record) = true
          | None => True
          end ->
          (size (index db') <= q_k query)%nat ->
          exists results db'',
            VectorDB.search Demo.world Demo.config query db' = (Ok results, db'')
            /\ ("1700000000000-r0", score Demo.world v (rec_vector record), rec_metadata record)
                 ∈ map (fun r => (res_id r, res_score r, res_metadata r)) results)
  /\ match (VectorDB.search Demo.world Demo.config
               (mkQuery (Some [1; 0; 0]) None 1 None false) db').1 with
     | Ok results => map res_id results = ["1700000000000-r0"]
     | Throw _ => False
     end.
Proof.
  intros data db'. split.
  - apply (search_after_insert_observes_it Demo.world Demo.config data Demo.emptyDB db'
             "1700000000000-r0").
    vm_compute. reflexivity.
  - vm_compute. reflexivity.
Defined.

(* --------------------------------------------------------------------- *)
(** ** Dimension validation *)
(* --------------------------------------------------------------------- *)

Section DimensionValidation.

Variable W : World.
Variable cfg : Config.




Lemma clear_run db :
  initialized db = true -> VectorDB.clear cfg db = (Ok tt, clearedDB db).
Proof.
  intros Hinit. unfold VectorDB.clear, VectorDB.ensureInitialized.
  unfold bind at 1. rewrite Hinit. unfold tryCatch, bind at 1.
  rewrite flushPending_id. reflexivity.
Qed.

(** [import] after the schema and version checks, up to the restoring of
    the index. *)
Lemma importValidated_run data options meta vectors db :
  initialized db = true ->
  x_meta data = Some meta ->
  x_vectors data = Some vectors ->
  VectorDB.importValidated W cfg data options db =
    if negb (bool_decide (x_dimensions meta = Some (Z.of_nat (dimensions cfg))))
    then (Throw DimensionMismatchError, db)
    else if negb (bool_decide (Some (Z.of_nat (length vectors)) = vectorCount meta))
    then (Throw (VectorDBError INVALID_EXPORT_DATA), db)
    else
      let db1 := if clearExisting options then clearedDB db else db in
      match VectorDB.convertRecords W cfg vectors [] db1 with
      | (Throw e, db2) => (Throw e, db2)
      | (Ok records, db2) =>
          match VectorDB.restoreIndex cfg data
                  (set_storage (importInBatches (chunkSize cfg) records (storage db2)) db2)
          with
          | (Throw e, db3) => (Throw e, db3)
          | (Ok _, db3) => (Ok tt, db3)
          end
      end.
Proof.
  intros Hinit Hmeta Hvectors. unfold VectorDB.importValidated.
  rewrite Hmeta, Hvectors. unfold bind at 1. unfold ret at 1.
  unfold bind at 1.
  destruct (negb (bool_decide (x_dimensions meta = Some (Z.of_nat (dimensions cfg)))));
    [reflexivity|].
  unfold ret at 1. unfold bind at 1. unfold ret at 1. unfold bind at 1.
  destruct (negb (bool_decide (Some (Z.of_nat (length vectors)) = vectorCount meta)));
    [reflexivity|].
  unfold ret at 1. unfold bind at 1.
  assert (Hclear : (if clearExisting options then VectorDB.clear cfg else ret tt) db
                   = (Ok tt, if clearExisting options then clearedDB db else db)).
  { destruct (clearExisting options); [by apply clear_run | reflexivity]. }
  rewrite Hclear. cbv zeta. unfold bind at 1.
  destruct (VectorDB.convertRecords W cfg vectors []
              (if clearExisting options then clearedDB db else db))
    as [[records|e] db2]; [|reflexivity].
  unfold bind at 1. unfold modify at 1. unfold bind at 1.
  destruct (VectorDB.restoreIndex cfg data _) as [[[]|e] db3]; reflexivity.
Qed.

Lemma afterVersionCheck_frame version db :
  observable (VectorDB.afterVersionCheck version db) = observable db
  /\ initialized (VectorDB.afterVersionCheck version db) = initialized db
  /\ ticks (VectorDB.afterVersionCheck version db) = ticks db
  /\ rolls (VectorDB.afterVersionCheck version db) = rolls db
  /\ modelsLoaded (VectorDB.afterVersionCheck version db) = modelsLoaded db.
Proof.
  unfold VectorDB.afterVersionCheck. by destruct (VectorDB.greaterThan _ _).
Qed.

(** [import] of an envelope that passes the two checks goes on to the
    remaining steps. *)
Lemma import_passes_checks data options db :
  initialized db = true ->
  VectorDB.passesChecks data ->
  exists version meta vectors,
    x_version data = Some version /\ x_meta data = Some meta
    /\ x_vectors data = Some vectors
    /\ VectorDB.import W cfg data options db
       = tryCatch (VectorDB.importValidated W cfg data options)
                  (rethrowOrWrap IMPORT_ERROR)
                  (VectorDB.afterVersionCheck version db).
Proof.
  intros Hinit (Hvalid & version & Hversion & Hacc).
  destruct (validateExportData_ok data Hvalid)
    as (version' & vectors & meta & d & c & Hv & _ & Hvs & Hm & _).
  exists version, meta, vectors. repeat split; try assumption.
  rewrite (import_checks W cfg data options db Hinit), Hvalid, Hversion.
  rewrite validateVersionCompatibility_cases.
  unfold VectorDB.acceptsVersion in Hacc. apply andb_true_iff in Hacc as [Hlen Hmajor].
  apply negb_true_iff in Hlen. rewrite Hlen, Hmajor.
  by destruct (validateSchema options).
Qed.

End DimensionValidation.




(* --------------------------------------------------------------------- *)
(** ** Import: the records and the index *)
(* --------------------------------------------------------------------- *)

Lemma chunks_fuel_concat {A : Type} (c : nat) : forall fuel (l : list A),
  (0 < c)%nat -> (length l <= fuel)%nat -> concat (chunks_fuel fuel c l) = l.
Proof.
  induction fuel as [|fuel IH]; intros l Hc Hlen.
  - destruct l; [reflexivity | simpl in Hlen; lia].
  - destruct l as [|x l]; [reflexivity|].
    cbn [chunks_fuel concat]. rewrite IH.
    + apply take_drop.
    + exact Hc.
    + rewrite length_drop. simpl in *. lia.
Qed.

Lemma chunks_concat {A : Type} (c : nat) (l : list A) :
  (0 < c)%nat -> concat (chunks c l) = l.
Proof. intros Hc. unfold chunks. by apply chunks_fuel_concat. Qed.

Lemma orDefault100_pos c : (0 < orDefault100 c)%nat.
Proof. destruct c as [[|c]|]; simpl; lia. Qed.

Lemma putBatch_concat (css : list (list VectorRecord)) : forall s,
  foldl (fun acc chunk => storage_putBatch chunk acc) s css
  = storage_putBatch (concat css) s.
Proof.
  induction css as [|cs css IH]; intros s; [reflexivity|].
  simpl. rewrite IH. unfold storage_putBatch. by rewrite foldl_app.
Qed.

(** Importing in chunks stores what one batch would. *)
Lemma importInBatches_putBatch c records s :
  importInBatches c records s = storage_putBatch records s.
Proof.
  unfold importInBatches. rewrite putBatch_concat, chunks_concat; [reflexivity|].
  apply orDefault100_pos.
Qed.

Lemma putBatch_keyed (rs : list VectorRecord) : forall s : Storage,
  NoDup (map rec_id rs) ->
  storage_putBatch rs s = list_to_map (map (fun r => (rec_id r, r)) rs) ∪ s.
Proof.
  unfold storage_putBatch, storage_put.
  induction rs as [|r rs IH]; intros s Hnd.
  - simpl. by rewrite (left_id_L ∅ (∪)).
  - rewrite fmap_cons in Hnd. apply NoDup_cons in Hnd as [Hnotin Hnd].
    cbn [foldl map list_to_map foldr fst snd]. rewrite IH by exact Hnd.
    rewrite <- insert_union_l. symmetry. apply insert_union_r.
    apply not_elem_of_list_to_map_1.
    rewrite <- list_fmap_compose. exact Hnotin.
Qed.

Lemma storageInvariant_empty D : storageInvariant D ∅.
Proof. intros k r Hk. by rewrite lookup_empty in Hk. Qed.

Lemma storageInvariant_put D r s :
  hasDimension D (rec_vector r) = true ->
  storageInvariant D s -> storageInvariant D (storage_put r s).
Proof.
  intros Hdim Hinv k r' Hk. unfold storage_put in Hk.
  destruct (decide (rec_id r = k)) as [<-|Hne].
  - rewrite lookup_insert_eq in Hk. injection Hk as <-. auto.
  - rewrite lookup_insert_ne in Hk by exact Hne. by apply Hinv.
Qed.

Lemma storageInvariant_putBatch D rs : forall s,
  Forall (fun r => hasDimension D (rec_vector r) = true) rs ->
  storageInvariant D s -> storageInvariant D (storage_putBatch rs s).
Proof.
  unfold storage_putBatch.
  induction rs as [|r rs IH]; intros s Hall Hinv; [exact Hinv|].
  apply Forall_cons in Hall as [Hr Hall]. simpl.
  apply IH; [exact Hall | by apply storageInvariant_put].
Qed.

(** Under the invariant, what [getAll] delivers is what the store holds,
    each record once. *)
Lemma getAll_keyed D (s : Storage) :
  storageInvariant D s ->
  map (fun r => (rec_id r, r)) (storage_getAll s) = map_to_list s.
Proof.
  intros Hinv. unfold storage_getAll. rewrite <- list_fmap_compose.
  rewrite <- (list_fmap_id (map_to_list s)) at 2.
  apply list_fmap_ext. intros i [k r] Hin. simpl.
  apply list_elem_of_lookup_2, elem_of_map_to_list in Hin.
  by destruct (Hinv k r Hin) as [-> _].
Qed.

Lemma getAll_NoDup D (s : Storage) :
  storageInvariant D s -> NoDup (map rec_id (storage_getAll s)).
Proof.
  intros Hinv.
  replace (map rec_id (storage_getAll s)) with ((map_to_list s).*1).
  - apply NoDup_fst_map_to_list.
  - rewrite <- (getAll_keyed D s Hinv), <- list_fmap_compose. reflexivity.
Qed.

Lemma getAll_dimension D (s : Storage) :
  storageInvariant D s ->
  Forall (fun r => hasDimension D (rec_vector r) = true) (storage_getAll s).
Proof.
  intros Hinv. apply Forall_forall. intros r Hin. unfold storage_getAll in Hin.
  apply list_elem_of_fmap in Hin as ([k r'] & -> & Hin).
  apply elem_of_map_to_list in Hin. by destruct (Hinv k r' Hin).
Qed.

(** Putting back everything a store holds, into the empty store, gives
    the store. *)
Lemma putBatch_getAll D (s : Storage) :
  storageInvariant D s -> storage_putBatch (storage_getAll s) ∅ = s.
Proof.
  intros Hinv. rewrite putBatch_keyed by (by eapply getAll_NoDup).
  rewrite (getAll_keyed D s Hinv), list_to_map_to_list.
  apply (right_id_L ∅ (∪)).
Qed.

Section ImportRecords.

Variable W : World.
Variable cfg : Config.

(** The loop of [import] on acceptable records: it does not throw, only
    reads the clock, and appends one converted record per record of the
    envelope. *)
Lemma convertRecords_acceptable vs : forall acc db,
  Forall (fun v => acceptableRecord (dimensions cfg) v = true) vs ->
  exists records n,
    VectorDB.convertRecords W cfg vs acc db = (Ok (acc ++ records), set_ticks n db)
    /\ Forall2 (converted W) vs records
    /\ Forall (fun r => hasDimension (dimensions cfg) (rec_vector r) = true) records.
Proof.
  induction vs as [|v vs IH]; intros acc db Hall.
  { exists [], (ticks db). simpl. rewrite app_nil_r. unfold ret.
    split; [by destruct db | split; constructor]. }
  apply Forall_cons in Hall as [Hv Hall]. simpl.
  unfold acceptableRecord in Hv.
  destruct (x_vector v) as [vec|] eqn:Hvec; [|by rewrite andb_false_r in Hv].
  destruct (x_metadata v) as [meta|] eqn:Hmeta;
    [|rewrite bool_decide_eq_false_2 in Hv by (intros [? ?]; discriminate);
      by rewrite andb_false_r in Hv].
  apply andb_true_iff in Hv as [Hv _]. apply andb_true_iff in Hv as [Hid Hlen].
  rewrite Hid, Hlen. simpl. unfold bind at 1.
  assert (Hidv : x_id v = Some (default "" (x_id v))).
  { unfold truthy in Hid. destruct (x_id v); [reflexivity | discriminate]. }
  destruct (x_timestamp v) as [t|] eqn:Ht; [destruct (t =? 0) eqn:Hzero|].
  - unfold VectorDB.now.
    destruct (IH (acc ++ [mkRecord (default "" (x_id v)) vec meta (clock W (ticks db))])
                 (set_ticks (S (ticks db)) db) Hall)
      as (records & n & Hrun & Hconv & Hdims).
    exists (mkRecord (default "" (x_id v)) vec meta (clock W (ticks db)) :: records), n.
    rewrite Hrun, <- app_assoc. split; [reflexivity|]. split.
    + constructor; [|exact Hconv]. unfold converted. simpl.
      rewrite Hvec, Hmeta, Ht, Hzero. eauto.
    + constructor; [exact Hlen | exact Hdims].
  - unfold ret at 1.
    destruct (IH (acc ++ [mkRecord (default "" (x_id v)) vec meta t]) db Hall)
      as (records & n & Hrun & Hconv & Hdims).
    exists (mkRecord (default "" (x_id v)) vec meta t :: records), n.
    rewrite Hrun, <- app_assoc. split; [reflexivity|]. split.
    + constructor; [|exact Hconv]. unfold converted. simpl.
      rewrite Hvec, Hmeta, Ht, Hzero. eauto.
    + constructor; [exact Hlen | exact Hdims].
  - unfold VectorDB.now.
    destruct (IH (acc ++ [mkRecord (default "" (x_id v)) vec meta (clock W (ticks db))])
                 (set_ticks (S (ticks db)) db) Hall)
      as (records & n & Hrun & Hconv & Hdims).
    exists (mkRecord (default "" (x_id v)) vec meta (clock W (ticks db)) :: records), n.
    rewrite Hrun, <- app_assoc. split; [reflexivity|]. split.
    + constructor; [|exact Hconv]. unfold converted. simpl.
      rewrite Hvec, Hmeta, Ht. eauto.
    + constructor; [exact Hlen | exact Hdims].
Qed.

(** [rebuildIndex] on a store that satisfies the invariant: the index
    becomes the membership of the store. *)
Lemma rebuildIndex_run db :
  storageInvariant (dimensions cfg) (storage db) ->
  VectorDB.rebuildIndex cfg db = (Ok tt, set_index (storage db) db).
Proof.
  intros Hinv. unfold VectorDB.rebuildIndex.
  unfold bind at 1. unfold gets at 1. unfold bind at 1. unfold modify at 1.
  destruct (0 <? length (storage_getAll (storage db)))%nat eqn:Hlen.
  - unfold VectorDB.indexAddBatch, index_addBatch. unfold_M. simpl.
    pose proof (getAll_dimension _ _ Hinv) as Hdims.
    rewrite Forall_forall in Hdims.
    rewrite (proj2 (forallb_forall _ _)).
    + pose proof (putBatch_getAll _ _ Hinv) as Hput.
      unfold storage_putBatch, storage_put in Hput. unfold index_clear.
      rewrite Hput. reflexivity.
    + intros r Hin. apply Hdims. by apply list_elem_of_In.
  - unfold ret. apply Nat.ltb_ge in Hlen.
    assert (Hempty : storage db = ∅).
    { apply map_to_list_empty_iff. unfold storage_getAll in Hlen.
      rewrite length_fmap in Hlen. destruct (map_to_list (storage db)); [done|].
      simpl in Hlen. lia. }
    unfold index_clear. rewrite Hempty. reflexivity.
Qed.

(** The last block of [import] when the index of the envelope cannot be
    deserialized: no throw, a warning when there was something to
    deserialize, and the index rebuilt from Storage. *)
Lemma restoreIndex_rebuilds data db :
  storageInvariant (dimensions cfg) (storage db) ->
  (forall ix, index_deserialize (dimensions cfg) (x_index data) <> Ok ix) ->
  VectorDB.restoreIndex cfg data db =
    (Ok tt,
     set_index (storage db)
       (if indexBytes_truthy (x_index data) then add_warning VectorDB.deserializeWarning db
        else db)).
Proof.
  intros Hinv Hfail. unfold VectorDB.restoreIndex.
  destruct (indexBytes_truthy (x_index data)).
  - unfold tryCatch. unfold bind at 1. unfold liftResult at 1.
    destruct (index_deserialize (dimensions cfg) (x_index data)) as [ix|e];
      [by destruct (Hfail ix)|].
    unfold bind at 1. unfold modify at 1.
    rewrite rebuildIndex_run by exact Hinv. reflexivity.
  - by apply rebuildIndex_run.
Qed.

End ImportRecords.

(* --------------------------------------------------------------------- *)
(** ** The first result of a search *)
(* --------------------------------------------------------------------- *)

Lemma scoreNotWorse_refl m a : scoreNotWorse m a a.
Proof. destruct m; simpl; lia. Qed.

Lemma scoreNotWorse_trans m a b c :
  scoreNotWorse m a b -> scoreNotWorse m b c -> scoreNotWorse m a c.
Proof. destruct m; simpl; lia. Qed.

Lemma ranksBefore_true_score m a b :
  ranksBefore m a b = true -> scoreNotWorse m (res_score a) (res_score b).
Proof.
  unfold ranksBefore. intros H. apply orb_true_iff in H as [H|H].
  - destruct m; simpl; apply Z.ltb_lt in H; lia.
  - apply andb_true_iff in H as [H _]. apply Z.eqb_eq in H. rewrite H.
    apply scoreNotWorse_refl.
Qed.

Lemma ranksBefore_false_score m a b :
  ranksBefore m a b = false -> scoreNotWorse m (res_score b) (res_score a).
Proof.
  unfold ranksBefore. intros H. apply orb_false_iff in H as [H _].
  destruct m; simpl; apply Z.ltb_ge in H; lia.
Qed.

(** The first element of a ranking is at least as good as every element. *)
Lemma rank_insert_head m x l :
  (forall top rest, l = top :: rest ->
     Forall (fun r => scoreNotWorse m (res_score top) (res_score r)) l) ->
  exists top rest,
    rank_insert m x l = top :: rest
    /\ Forall (fun r => scoreNotWorse m (res_score top) (res_score r)) (top :: rest).
Proof.
  intros Hbest. destruct l as [|y l]; simpl.
  - exists x, []. split; [reflexivity|]. constructor; [apply scoreNotWorse_refl | constructor].
  - specialize (Hbest y l eq_refl).
    destruct (ranksBefore m x y) eqn:Hcmp.
    + exists x, (y :: l). split; [reflexivity|].
      constructor; [apply scoreNotWorse_refl|].
      eapply Forall_impl; [exact Hbest|]. intros r Hr. simpl in Hr.
      eapply scoreNotWorse_trans; [|exact Hr]. by apply ranksBefore_true_score.
    + exists y, (rank_insert m x l). split; [reflexivity|].
      rewrite rank_insert_perm.
      apply Forall_cons in Hbest as [Hy Hl].
      constructor; [exact Hy|]. constructor; [by apply ranksBefore_false_score | exact Hl].
Qed.

Lemma rank_head m l :
  forall top rest, rank m l = top :: rest ->
    Forall (fun r => scoreNotWorse m (res_score top) (res_score r)) (rank m l).
Proof.
  induction l as [|x l IH]; intros top rest Heq; [discriminate|].
  unfold rank in *. simpl in *.
  destruct (rank_insert_head m x (foldr (rank_insert m) [] l) IH)
    as (top' & rest' & Heq' & Hall).
  rewrite Heq' in Heq. injection Heq as <- <-. by rewrite Heq'.
Qed.

(** A search without filter over an index that is not empty, for at least
    one result: the first result is a member of the index, and no member
    scores better against the query. *)
Lemma index_search_top (D : nat) (m : Metric) (sc : Vector -> Vector -> Z)
    (q : Vector) (k : nat) (ix : AnnIndex) :
  hasDimension D q = true ->
  (1 <= k)%nat ->
  ix <> ∅ ->
  exists top rest id r,
    index_search D m sc q k None ix = Ok (top :: rest)
    /\ ix !! id = Some r
    /\ top = mkResult (rec_id r) (sc q (rec_vector r)) (rec_metadata r) None
    /\ forall id' r', ix !! id' = Some r' ->
         scoreNotWorse m (res_score top) (sc q (rec_vector r')).
Proof.
  intros Hdim Hk Hne. unfold index_search. rewrite Hdim.
  set (candidates := map _ (map_to_list ix).*2).
  destruct (rank m candidates) as [|top rest] eqn:Hrank.
  { exfalso. apply Hne, map_to_list_empty_iff.
    pose proof (rank_perm m candidates) as Hperm. rewrite Hrank in Hperm.
    apply Permutation_nil_l in Hperm. subst candidates.
    destruct (map_to_list ix); [reflexivity | discriminate]. }
  pose proof (rank_head m candidates top rest Hrank) as Hall.
  rewrite Hrank in Hall. rewrite <- Hrank, (rank_perm m candidates) in Hall.
  rewrite Forall_forall in Hall.
  assert (Htop : top ∈ candidates).
  { rewrite <- (rank_perm m candidates), Hrank. apply list_elem_of_here. }
  subst candidates.
  apply list_elem_of_fmap in Htop as (r & Htop & Hr).
  apply list_elem_of_fmap in Hr as ([id r0] & Hr0 & Hin). simpl in Hr0. subst r0.
  apply elem_of_map_to_list in Hin.
  destruct k as [|k]; [lia|].
  exists top, (take k rest), id, r. split; [reflexivity|].
  split; [exact Hin|]. split; [exact Htop|].
  intros id' r' Hin'.
  apply (Hall (mkResult (rec_id r') (sc q (rec_vector r')) (rec_metadata r') None)).
  apply list_elem_of_fmap. exists r'. split; [reflexivity|].
  apply list_elem_of_fmap. exists (id', r'). split; [reflexivity|].
  by apply elem_of_map_to_list.
Qed.

(* --------------------------------------------------------------------- *)
(** ** Import of a well-formed envelope *)
(* --------------------------------------------------------------------- *)

Section ImportRuns.

Variable W : World.
Variable cfg : Config.

(** [import] of an importable envelope, up to the restoring of the index:
    the records are converted and stored, after the clearing when that is
    asked for. *)
Lemma import_importable_run data options db :
  initialized db = true ->
  VectorDB.importable cfg data ->
  exists version vectors records n,
    x_version data = Some version
    /\ x_vectors data = Some vectors
    /\ Forall2 (converted W) vectors records
    /\ Forall (fun r => hasDimension (dimensions cfg) (rec_vector r) = true) records
    /\ let dbw := VectorDB.afterVersionCheck version db in
       let db1 := if clearExisting options then clearedDB dbw else dbw in
       let db3 := set_storage (storage_putBatch records (storage db1)) (set_ticks n db1) in
       VectorDB.import W cfg data options db =
         match VectorDB.restoreIndex cfg data db3 with
         | (Ok _, db4) => (Ok tt, db4)
         | (Throw e, db4) => rethrowOrWrap IMPORT_ERROR e db4
         end.
Proof.
  intros Hinit (Hpass & meta & vectors & Hmeta & Hvectors & Hdims & Hcount & Hall).
  destruct (import_passes_checks W cfg data options db Hinit Hpass)
    as (version & meta' & vectors' & Hversion & _ & _ & Himport).
  destruct (afterVersionCheck_frame version db) as (_ & Hinit' & _).
  set (dbw := VectorDB.afterVersionCheck version db) in *.
  set (db1 := if clearExisting options then clearedDB dbw else dbw).
  destruct (convertRecords_acceptable W cfg vectors [] db1 Hall)
    as (records & n & Hconv & Hrel & Hrecdims).
  exists version, vectors, records, n.
  split; [exact Hversion|]. split; [exact Hvectors|].
  split; [exact Hrel|]. split; [exact Hrecdims|].
  cbv zeta. rewrite Himport. unfold tryCatch.
  rewrite (importValidated_run W cfg data options meta vectors dbw
             (eq_trans Hinit' Hinit) Hmeta Hvectors).
  rewrite bool_decide_eq_true_2 by exact Hdims. simpl negb. cbv iota.
  rewrite bool_decide_eq_true_2 by (by rewrite Hcount). simpl negb. cbv iota zeta.
  fold db1. rewrite Hconv. simpl app.
  rewrite importInBatches_putBatch.
  change (storage (set_ticks n db1)) with (storage db1).
  destruct (VectorDB.restoreIndex cfg data _) as [[[]|e] db4]; reflexivity.
Qed.

End ImportRuns.

(** C3.  On an initialized database, for an importable envelope whose
    index field does not deserialize: [import] returns without throwing;
    it has stored the converted records and rebuilt the index from
    Storage, so that the index holds exactly the stored records, and has
    left the warning when there was something to deserialize.  A search
    by vector afterwards, without filter and for at least one result, over
    a store that is not empty, returns as its first result a stored record
    such that no stored record scores better against the query.  (When the
    existing records are kept, they are taken to satisfy the invariant of
    the store.) *)
Theorem import_rebuilds_index_that_fails_to_deserialize
    (W : World) (cfg : Config) (data : ExportData) (options : ImportOptions) (db : DB) :
  initialized db = true ->
  VectorDB.importable cfg data ->
  (clearExisting options = false -> storageInvariant (dimensions cfg) (storage db)) ->
  (forall ix, index_deserialize (dimensions cfg) (x_index data) <> Ok ix) ->
  exists db' vectors records,
    VectorDB.import W cfg data options db = (Ok tt, db')
    /\ x_vectors data = Some vectors
    /\ Forall2 (converted W) vectors records
    /\ storage db' =
         storage_putBatch records (if clearExisting options then ∅ else storage db)
    /\ index db' = storage db'
    /\ storageInvariant (dimensions cfg) (storage db')
    /\ (indexBytes_truthy (x_index data) = true ->
          VectorDB.deserializeWarning ∈ warnings db')
    /\ (forall query q,
          q_vector query = Some q ->
          q_filter query = None ->
          hasDimension (dimensions cfg) q = true ->
          validateSearchQuery W (q_k query) = Ok tt ->
          (1 <= q_k query)%nat ->
          storage db' <> ∅ ->
          exists top rest db'' id r,
            VectorDB.search W cfg query db' = (Ok (top :: rest), db'')
            /\ storage db' !! id = Some r
            /\ res_id top = rec_id r
            /\ res_score top = score W q (rec_vector r)
            /\ forall id' r', storage db' !! id' = Some r' ->
                 scoreNotWorse (metric cfg) (res_score top) (score W q (rec_vector r'))).
Proof.
  intros Hinit Himp Hkeep Hfail.
  destruct (import_importable_run W cfg data options db Hinit Himp)
    as (version & vectors & records & n & Hversion & Hvectors & Hrel & Hdims & Hrun).
  cbv zeta in Hrun.
  destruct (afterVersionCheck_frame version db) as (Hobs & Hinit' & _).
  set (dbw := VectorDB.afterVersionCheck version db) in *.
  set (db1 := if clearExisting options then clearedDB dbw else dbw) in *.
  assert (Hbase : storage db1 = if clearExisting options then ∅ else storage db).
  { subst db1. destruct (clearExisting options); [reflexivity|].
    by injection Hobs as -> _ _ _. }
  assert (Hinv : storageInvariant (dimensions cfg)
                   (storage_putBatch records (storage db1))).
  { apply storageInvariant_putBatch; [exact Hdims|]. rewrite Hbase.
    destruct (clearExisting options); [apply storageInvariant_empty | by apply Hkeep]. }
  rewrite (restoreIndex_rebuilds cfg data
             (set_storage (storage_putBatch records (storage db1)) (set_ticks n db1))
             Hinv Hfail) in Hrun.
  eexists _, vectors, records. split; [exact Hrun|]. split; [exact Hvectors|].
  split; [exact Hrel|].
  assert (Hinit3 : initialized db1 = true).
  { subst db1. destruct (clearExisting options); simpl; congruence. }
  split; [by rewrite <- Hbase; destruct (indexBytes_truthy (x_index data))|].
  split; [by destruct (indexBytes_truthy (x_index data))|].
  split; [by destruct (indexBytes_truthy (x_index data))|].
  split.
  { intros ->. simpl. set_solver. }
  intros query q Hq Hflt Hdim Hk Hone Hne.
  rewrite (search_by_vector_run W cfg query q)
    by (try exact Hq; by destruct (indexBytes_truthy (x_index data))).
  rewrite Hk, Hflt.
  assert (Hne' : storage_putBatch records (storage db1) <> ∅)
    by (by destruct (indexBytes_truthy (x_index data))).
  destruct (index_search_top (dimensions cfg) (metric cfg) (score W) q (q_k query)
              (storage_putBatch records (storage db1)) Hdim Hone Hne')
    as (top & rest & id & r & Hsearch & Hin & Htop & Hbest).
  assert (Hix : forall d, index (set_index (storage_putBatch records (storage db1)) d)
                          = storage_putBatch records (storage db1)) by reflexivity.
  destruct (indexBytes_truthy (x_index data)); rewrite Hix, Hsearch;
    (destruct (q_includeVectors query);
     [ match goal with
       | |- context [VectorDB.hydrate W cfg (top :: rest) ?d] =>
           destruct (hydrate_ok W cfg (top :: rest) d)
             as (results' & db'' & Hhyd & Hkeys & _)
       end;
       destruct results' as [|top' rest']; [discriminate|];
       injection Hkeys as Hid Hsc Hmeta _;
       exists top', rest', db'', id, r;
       split; [exact Hhyd|]; split; [exact Hin|];
       rewrite Hid, Hsc, Htop; split; [reflexivity|]; split; [reflexivity|];
       intros id' r' Hin'; simpl; rewrite <- (f_equal res_score Htop) at 1;
       by eapply Hbest
     | exists top, rest; eexists; exists id, r;
       split; [reflexivity|]; split; [exact Hin|];
       rewrite Htop; split; [reflexivity|]; split; [reflexivity|];
       intros id' r' Hin'; simpl; rewrite <- (f_equal res_score Htop) at 1;
       by eapply Hbest ]).
Qed.

Lemma corrupted_importable : VectorDB.importable Demo.config Demo.corrupted.
Proof.
  split.
  - split; [vm_compute; reflexivity|]. exists "1.0.0". split; vm_compute; reflexivity.
  - eexists _, _. split; [vm_compute; reflexivity|]. split; [vm_compute; reflexivity|].
    split; [vm_compute; reflexivity|]. split; [vm_compute; reflexivity|].
    repeat constructor.
Qed.

(** The export of three records with its index overwritten, imported
    with the default options; then a search for the first vector. *)
Lemma import_rebuilds_index_that_fails_to_deserialize_witness :
  exists db',
    VectorDB.import Demo.world Demo.config Demo.corrupted defaultImportOptions
      Demo.threeRecords = (Ok tt, db')
    /\ index db' = storage db'
    /\ storage db' = storage Demo.threeRecords
    /\ VectorDB.deserializeWarning ∈ warnings db'
    /\ exists top rest db'',
         VectorDB.search Demo.world Demo.config (mkQuery (Some [1; 0; 0]) None 1 None false) db'
           = (Ok (top :: rest), db'')
         /\ res_id top = "1700000000000-r0".
Proof.
  destruct (import_rebuilds_index_that_fails_to_deserialize Demo.world Demo.config
              Demo.corrupted defaultImportOptions Demo.threeRecords)
    as (db' & vectors & records & Hrun & _ & _ & _ & Hindex & _ & Hwarn & _).
  - vm_compute. reflexivity.
  - exact corrupted_importable.
  - discriminate.
  - intros ix. vm_compute. discriminate.
  - exists db'. split; [exact Hrun|]. split; [exact Hindex|].
    assert (Hdb' : db' = (VectorDB.import Demo.world Demo.config Demo.corrupted
                            defaultImportOptions Demo.threeRecords).2)
      by (by rewrite Hrun).
    split; [rewrite Hdb'; vm_compute; reflexivity|].
    split; [apply Hwarn; reflexivity|].
    rewrite Hdb'. vm_compute. eexists _, _, _. split; reflexivity.
Defined.

(* --------------------------------------------------------------------- *)
(** ** What inserts maintain *)
(* --------------------------------------------------------------------- *)

Lemma ec_get_invariant D text c :
  embeddingCacheInvariant D c ->
  embeddingCacheInvariant D (ec_get text c).2
  /\ forall v, (ec_get text c).1 = Some v -> hasDimension D v = true.
Proof.
  unfold embeddingCacheInvariant, ec_get. intros Hinv.
  destruct (list_find _ c) as [[i [t v]]|] eqn:Hfind; simpl.
  - apply list_find_Some in Hfind as (Hi & _ & _).
    apply list_elem_of_lookup_2 in Hi.
    rewrite Forall_forall in Hinv. pose proof (Hinv _ Hi) as Hv. simpl in Hv.
    split.
    + constructor; [exact Hv|]. apply Forall_forall. intros e He.
      apply list_elem_of_filter in He as [_ He]. by apply Hinv.
    + intros v' Heq. by injection Heq as <-.
  - split; [exact Hinv | discriminate].
Qed.

Lemma ec_set_invariant D n text v c :
  hasDimension D v = true ->
  embeddingCacheInvariant D c ->
  embeddingCacheInvariant D (ec_set n text v c).
Proof.
  unfold embeddingCacheInvariant, ec_set. intros Hv Hinv.
  apply Forall_take. constructor; [exact Hv|].
  apply Forall_forall. intros e He. apply list_elem_of_filter in He as [_ He].
  rewrite Forall_forall in Hinv. by apply Hinv.
Qed.

Lemma newId_not_empty W db : VectorDB.newId W db <> "".
Proof.
  unfold VectorDB.newId. destruct (pretty (clock W (ticks db))); discriminate.
Qed.

Section Maintained.

Variable W : World.
Variable cfg : Config.
Hypothesis clock_not_zero : forall n, clock W n <> 0.

Lemma ensureModelsLoaded_cache db :
  embeddingCache (VectorDB.ensureModelsLoaded W cfg db).2 = embeddingCache db.
Proof.
  unfold VectorDB.ensureModelsLoaded. unfold_M. simpl.
  destruct (modelsLoaded db); simpl; [reflexivity|].
  destruct (generatorLoads W); simpl; [|reflexivity].
  destruct (generatorDimensions W =? dimensions cfg)%nat; reflexivity.
Qed.

(** [prepareVector] for a text, step by step. *)
Lemma prepareVector_text data text db :
  d_vector data = None ->
  d_text data = Some text ->
  text <> "" ->
  VectorDB.prepareVector W cfg data db =
    match ec_get text (embeddingCache db) with
    | (Some v, c) => (Ok v, set_embeddingCache c db)
    | (None, c) =>
        match VectorDB.ensureModelsLoaded W cfg (set_embeddingCache c db) with
        | (Throw e, db1) => (Throw e, db1)
        | (Ok _, db1) =>
            match generatorEmbed W text with
            | Throw e => (Throw e, db1)
            | Ok vector =>
                if hasDimension (dimensions cfg) vector
                then (Ok vector,
                      set_embeddingCache
                        (ec_set (embeddingCacheEntries cfg) text vector (embeddingCache db1))
                        db1)
                else (Throw DimensionMismatchError, db1)
            end
        end
    end.
Proof.
  intros Hv Ht Hne. unfold VectorDB.prepareVector. rewrite Hv, Ht. simpl.
  destruct (String.eqb_spec text ""); [done|]. simpl.
  unfold bind at 1. unfold VectorDB.getCachedEmbedding.
  destruct (ec_get text (embeddingCache db)) as [[hit|] c]; [reflexivity|].
  unfold bind at 1.
  destruct (VectorDB.ensureModelsLoaded W cfg (set_embeddingCache c db)) as [[[]|e] db1];
    [|reflexivity].
  unfold bind at 1. unfold liftResult at 1.
  destruct (generatorEmbed W text) as [vector|e]; [|reflexivity].
  unfold bind at 1. unfold liftResult at 1. unfold validateVector.
  destruct (hasDimension (dimensions cfg) vector); reflexivity.
Qed.

(** The vector [prepareVector] returns has the configured dimension, and
    the embedding cache keeps its invariant whether it returns or throws. *)
Lemma prepareVector_invariant data db :
  embeddingCacheInvariant (dimensions cfg) (embeddingCache db) ->
  embeddingCacheInvariant (dimensions cfg)
    (embeddingCache (VectorDB.prepareVector W cfg data db).2)
  /\ forall v, (VectorDB.prepareVector W cfg data db).1 = Ok v ->
       hasDimension (dimensions cfg) v = true.
Proof.
  intros Hinv.
  destruct (d_vector data) as [v|] eqn:Hv.
  { rewrite (prepareVector_provided W cfg data v db Hv). simpl.
    split; [exact Hinv|]. intros v' Heq.
    destruct (hasDimension (dimensions cfg) v) eqn:Hdim; [|discriminate].
    by injection Heq as <-. }
  destruct (d_text data) as [text|] eqn:Ht.
  2:{ unfold VectorDB.prepareVector. rewrite Hv, Ht. simpl.
      split; [exact Hinv | discriminate]. }
  destruct (String.eqb_spec text "") as [->|Hne].
  { unfold VectorDB.prepareVector. rewrite Hv, Ht. simpl.
    split; [exact Hinv | discriminate]. }
  rewrite (prepareVector_text data text db Hv Ht Hne).
  destruct (ec_get_invariant _ text _ Hinv) as [Hinv' Hhit].
  destruct (ec_get text (embeddingCache db)) as [[hit|] c]; simpl in Hinv', Hhit.
  { simpl. split; [exact Hinv'|]. intros v Heq. injection Heq as <-. by apply Hhit. }
  pose proof (ensureModelsLoaded_cache (set_embeddingCache c db)) as Hc.
  destruct (VectorDB.ensureModelsLoaded W cfg (set_embeddingCache c db)) as [[[]|e] db1];
    simpl in Hc.
  2:{ simpl. rewrite Hc. split; [exact Hinv' | discriminate]. }
  destruct (generatorEmbed W text) as [vector|e].
  2:{ simpl. rewrite Hc. split; [exact Hinv' | discriminate]. }
  destruct (hasDimension (dimensions cfg) vector) eqn:Hdim; simpl.
  - split.
    + apply ec_set_invariant; [exact Hdim | by rewrite Hc].
    + intros v' Heq. by injection Heq as <-.
  - rewrite Hc. split; [exact Hinv' | discriminate].
Qed.

Lemma exportable_put r (s : Storage) :
  rec_id r <> "" -> rec_timestamp r <> 0 ->
  exportable s -> exportable (storage_put r s).
Proof.
  intros Hid Hts Hexp k r' Hk. unfold storage_put in Hk.
  destruct (decide (rec_id r = k)) as [<-|Hne].
  - rewrite lookup_insert_eq in Hk. injection Hk as <-. auto.
  - rewrite lookup_insert_ne in Hk by exact Hne. by eapply Hexp.
Qed.

Lemma exportable_putBatch rs : forall s : Storage,
  Forall (fun r => rec_id r <> "" /\ rec_timestamp r <> 0) rs ->
  exportable s -> exportable (storage_putBatch rs s).
Proof.
  unfold storage_putBatch.
  induction rs as [|r rs IH]; intros s Hall Hexp; [exact Hexp|].
  apply Forall_cons in Hall as [[Hid Hts] Hall]. simpl.
  apply IH; [exact Hall | by apply exportable_put].
Qed.

Lemma newRecord_exportable data sanitized vector db :
  rec_id (VectorDB.newRecord W data sanitized vector db) <> ""
  /\ rec_timestamp (VectorDB.newRecord W data sanitized vector db) <> 0.
Proof. split; [apply newId_not_empty | apply clock_not_zero]. Qed.

Lemma insert_consistent data db :
  consistent (dimensions cfg) db ->
  consistent (dimensions cfg) (VectorDB.insert W cfg data db).2.
Proof.
  intros Hcons. pose proof Hcons as (Hinit & Hinv & Hexp & Hix & Hcache).
  rewrite (insert_run W cfg data db Hinit).
  destruct (sanitize W (d_metadata data)) as [sanitized|e].
  2:{ unfold rethrowOrWrap, throw. by destruct (instanceofVectorDBError e). }
  pose proof (prepareVector_frame W cfg data db) as Hframe.
  destruct (prepareVector_invariant data db Hcache) as [Hcache1 Hdim].
  destruct (VectorDB.prepareVector W cfg data db) as [[vector|e] db1];
    simpl in Hframe, Hcache1, Hdim;
    apply embeddingStateOf_storage in Hframe as (Hs & Hi & _ & _ & _ & Hinit1 & _).
  2:{ unfold rethrowOrWrap, throw. destruct (instanceofVectorDBError e); simpl;
        (split; [congruence|]); rewrite Hs, Hi; auto. }
  rewrite (Hdim vector eq_refl). simpl.
  destruct (newRecord_exportable data sanitized vector db1) as [Hid Hts].
  unfold consistent. simpl. rewrite Hs, Hi, Hix.
  split; [congruence|].
  split; [by apply storageInvariant_put; [apply Hdim|]|].
  split; [by apply exportable_put|].
  split; [reflexivity | exact Hcache1].
Qed.

Lemma prepareBatch_cache data : forall records ids db r db',
  VectorDB.prepareBatch W cfg data records ids db = (r, db') ->
  embeddingCacheInvariant (dimensions cfg) (embeddingCache db) ->
  embeddingCacheInvariant (dimensions cfg) (embeddingCache db').
Proof.
  induction data as [|item rest IH]; intros records ids db r db' Hrun Hcache.
  { simpl in Hrun. unfold ret in Hrun. by injection Hrun as _ <-. }
  simpl in Hrun. unfold bind at 1 in Hrun. unfold liftResult at 1 in Hrun.
  destruct (sanitize W (d_metadata item)) as [sanitized|e];
    [|by injection Hrun as _ <-].
  unfold bind at 1 in Hrun.
  destruct (prepareVector_invariant item db Hcache) as [Hcache1 _].
  destruct (VectorDB.prepareVector W cfg item db) as [[vector|e] db1]; simpl in Hcache1;
    [|by injection Hrun as _ <-].
  unfold VectorDB.generateId, VectorDB.now, VectorDB.randomSuffix,
    VectorDB.cacheRecord in Hrun.
  unfold_M. simpl in Hrun.
  apply IH in Hrun; [exact Hrun | exact Hcache1].
Qed.

Lemma prepared_records data db records db' :
  VectorDB.prepared W cfg data db records db' ->
  embeddingCacheInvariant (dimensions cfg) (embeddingCache db) ->
  Forall (fun r => hasDimension (dimensions cfg) (rec_vector r) = true) records
  /\ Forall (fun r => rec_id r <> "" /\ rec_timestamp r <> 0) records.
Proof.
  induction 1 as [db|item rest db sanitized vector db1 records db' Hsan Hvec Hprep IH];
    intros Hcache.
  - split; constructor.
  - destruct (prepareVector_invariant item db Hcache) as [Hcache1 Hdim].
    rewrite Hvec in Hcache1, Hdim. simpl in Hcache1, Hdim.
    destruct (IH Hcache1) as [Hdims Hexp].
    split; constructor; auto. apply newRecord_exportable.
Qed.

Lemma insertBatch_consistent data db :
  consistent (dimensions cfg) db ->
  consistent (dimensions cfg) (VectorDB.insertBatch W cfg data db).2.
Proof.
  intros Hcons. pose proof Hcons as (Hinit & Hinv & Hexp & Hix & Hcache).
  destruct data as [|item rest].
  { unfold VectorDB.insertBatch, VectorDB.ensureInitialized. unfold_M.
    by rewrite Hinit. }
  rewrite (insertBatch_run W cfg _ db Hinit) by done.
  destruct (VectorDB.prepareBatch W cfg (item :: rest) [] [] db)
    as [[[records ids]|e] db1] eqn:Hrun.
  - destruct (prepareBatch_frame W cfg _ _ _ _ _ _ Hrun) as (Hs & Hi & Hinit1 & _).
    pose proof (prepareBatch_cache _ _ _ _ _ _ Hrun Hcache) as Hcache1.
    apply prepareBatch_ok in Hrun as (new & Hrec & _ & Hprep).
    simpl in Hrec. subst new.
    destruct (prepared_records _ _ _ _ Hprep Hcache) as [Hdims Hexps].
    unfold index_addBatch.
    rewrite (proj2 (forallb_forall _ _))
      by (intros r Hr; rewrite Forall_forall in Hdims; by apply Hdims, list_elem_of_In).
    unfold consistent. simpl. rewrite Hs, Hi, Hix.
    split; [congruence|].
    split; [by apply storageInvariant_putBatch|].
    split; [by apply exportable_putBatch|].
    split; [reflexivity | exact Hcache1].
  - destruct (prepareBatch_frame W cfg _ _ _ _ _ _ Hrun) as (Hs & Hi & Hinit1 & _).
    pose proof (prepareBatch_cache _ _ _ _ _ _ Hrun Hcache) as Hcache1.
    unfold rethrowOrWrap, throw. destruct (instanceofVectorDBError e); simpl;
      (split; [congruence|]); rewrite Hs, Hi; auto.
Qed.

(** Every reachable database is consistent. *)
Lemma reachable_consistent db :
  VectorDB.reachable W cfg db -> consistent (dimensions cfg) db.
Proof.
  induction 1 as [loaded t r|data db Hreach IH|data db Hreach IH].
  - unfold consistent. simpl.
    split; [reflexivity|]. split; [apply storageInvariant_empty|].
    split; [intros k r' Hk; by rewrite lookup_empty in Hk|].
    split; [reflexivity | constructor].
  - by apply insert_consistent.
  - by apply insertBatch_consistent.
Qed.

End Maintained.

(* --------------------------------------------------------------------- *)
(** ** Export, and export followed by import *)
(* --------------------------------------------------------------------- *)

Section RoundTrip.

Variable W : World.
Variable cfg : Config.

Lemma collect_foldl (rs : list VectorRecord) : forall acc,
  foldl (fun a r => a ++ [r]) acc rs = acc ++ rs.
Proof.
  induction rs as [|r rs IH]; intros acc; simpl; [by rewrite app_nil_r|].
  by rewrite IH, <- app_assoc.
Qed.

(** [export] on an initialized database: it returns the envelope and only
    reads the clock. *)
Lemma export_run options db :
  initialized db = true ->
  VectorDB.export W cfg options db
    = (Ok (VectorDB.envelopeOf W cfg options db), set_ticks (S (ticks db)) db).
Proof.
  intros Hinit. unfold VectorDB.export, VectorDB.ensureInitialized.
  unfold bind at 1. rewrite Hinit. unfold tryCatch.
  unfold bind at 1. rewrite flushPending_id.
  unfold VectorDB.now, streamProcess, VectorDB.envelopeOf. unfold_M. simpl.
  rewrite collect_foldl. simpl.
  destruct (includeIndex options); reflexivity.
Qed.






End RoundTrip.


Lemma threeRecords_reachable : VectorDB.reachable Demo.world Demo.config Demo.threeRecords.
Proof. apply VectorDB.reachable_insertBatch, VectorDB.reachable_initial. Qed.


(* ===================================================================== *)
(** * Further properties of the coordinator *)
(* ===================================================================== *)

Section Guards.

Variable W : World.
Variable cfg : Config.

(** X1.  Before [initialize] has succeeded (and after [dispose]) every
    operation on records throws NOT_INITIALIZED and changes nothing:
    [insert], [insertBatch], [search], [delete], [update], [clear],
    [size], [export], [exportStream] and [import], whatever their
    arguments. *)
Theorem operations_need_initialize (db : DB) :
  initialized db = false ->
  (forall data, VectorDB.insert W cfg data db = (Throw (VectorDBError NOT_INITIALIZED), db))
  /\ (forall data,
        VectorDB.insertBatch W cfg data db = (Throw (VectorDBError NOT_INITIALIZED), db))
  /\ (forall query,
        VectorDB.search W cfg query db = (Throw (VectorDBError NOT_INITIALIZED), db))
  /\ (forall id, VectorDB.delete cfg id db = (Throw (VectorDBError NOT_INITIALIZED), db))
  /\ (forall id data,
        VectorDB.update W cfg id data db = (Throw (VectorDBError NOT_INITIALIZED), db))
  /\ VectorDB.clear cfg db = (Throw (VectorDBError NOT_INITIALIZED), db)
  /\ VectorDB.size db = (Throw (VectorDBError NOT_INITIALIZED), db)
  /\ (forall options,
        VectorDB.export W cfg options db = (Throw (VectorDBError NOT_INITIALIZED), db))
  /\ (forall options,
        VectorDB.exportStream W cfg options db
        = (Throw (VectorDBError NOT_INITIALIZED), db))
  /\ (forall data options,
        VectorDB.import W cfg data options db
        = (Throw (VectorDBError NOT_INITIALIZED), db)).
Proof.
  intros Hinit.
  repeat split; intros;
    unfold VectorDB.insert, VectorDB.insertBatch, VectorDB.search, VectorDB.delete,
           VectorDB.update, VectorDB.clear, VectorDB.size, VectorDB.export,
           VectorDB.exportStream, VectorDB.import, VectorDB.ensureInitialized;
    unfold bind at 1; by rewrite Hinit.
Qed.

End Guards.

(** A database that was never initialized. *)
Lemma operations_need_initialize_witness :
  initialized (mkDB false ∅ ∅ vc_empty [] false 0 0 []) = false
  /\ VectorDB.size (mkDB false ∅ ∅ vc_empty [] false 0 0 [])
     = (Throw (VectorDBError NOT_INITIALIZED), mkDB false ∅ ∅ vc_empty [] false 0 0 []).
Proof.
  split; [reflexivity|].
  apply (operations_need_initialize Demo.world Demo.config
           (mkDB false ∅ ∅ vc_empty [] false 0 0 [])).
  reflexivity.
Defined.

(** Whatever the index returns is one of its members. *)
Lemma index_search_members (D : nat) (m : Metric) (sc : Vector -> Vector -> Z)
    (q : Vector) (k : nat) (flt : option (Metadata -> bool)) (ix : AnnIndex)
    (results : list SearchResult) :
  index_search D m sc q k flt ix = Ok results ->
  forall id, id ∈ map res_id results ->
    exists key record, ix !! key = Some record /\ rec_id record = id.
Proof.
  unfold index_search. destruct (hasDimension D q); [|discriminate].
  intros [= <-] id Hid.
  apply list_elem_of_fmap in Hid as (x & -> & Hx).
  apply (fun H => elem_of_sublist _ _ _ H (sublist_take _ _)) in Hx.
  rewrite rank_perm in Hx.
  assert (Hcand : x ∈ map (fun r => mkResult (rec_id r) (sc q (rec_vector r))
                                            (rec_metadata r) None) (map_to_list ix).*2).
  { destruct flt as [f|]; [|exact Hx].
    apply list_elem_of_In, filter_In in Hx as [Hx _]. by apply list_elem_of_In. }
  apply list_elem_of_fmap in Hcand as (r & -> & Hr).
  apply list_elem_of_fmap in Hr as ([key r'] & -> & Hr).
  apply elem_of_map_to_list in Hr. by exists key, r'.
Qed.

Section Frames.

Variable W : World.
Variable cfg : Config.

Lemma cachesOf_refl db : cachesOf db db.
Proof. unfold cachesOf. by destruct db. Qed.

Lemma cachesOf_trans db db1 db2 : cachesOf db db1 -> cachesOf db1 db2 -> cachesOf db db2.
Proof. unfold cachesOf. intros H1 H2. rewrite H2, H1. by destruct db. Qed.

Lemma cachesOf_vectorCache c db : cachesOf db (set_vectorCache c db).
Proof. unfold cachesOf. by destruct db. Qed.

Lemma cachesOf_embeddingCache c db : cachesOf db (set_embeddingCache c db).
Proof. unfold cachesOf. by destruct db. Qed.

Lemma cachesOf_embeddingState db db1 : embeddingStateOf db db1 -> cachesOf db db1.
Proof. unfold cachesOf, embeddingStateOf. intros H. rewrite H. by destruct db. Qed.

Lemma cachesOf_fields db db1 :
  cachesOf db db1 ->
  initialized db1 = initialized db /\ storage db1 = storage db /\ index db1 = index db
  /\ ticks db1 = ticks db /\ rolls db1 = rolls db /\ warnings db1 = warnings db.
Proof. unfold cachesOf. intros H. rewrite H. by destruct db. Qed.

(** The loop that attaches vectors to results reads records through the
    vector cache: only that cache changes, and it never fails. *)
Lemma hydrate_frame results : forall db,
  exists results' c,
    VectorDB.hydrate W cfg results db = (Ok results', set_vectorCache c db)
    /\ map res_id results' = map res_id results.
Proof.
  induction results as [|result rest IH]; intros db.
  - exists [], (vectorCache db). simpl. unfold ret. split; [|reflexivity].
    by destruct db.
  - simpl. unfold bind at 1. unfold VectorDB.getVector.
    destruct (vc_get (res_id result) (vectorCache db)) as [[r|] c].
    + destruct (IH (set_vectorCache c db)) as (rest' & c' & Hrun & Hids).
      unfold bind at 1. rewrite Hrun. exists (mkResult (res_id result) (res_score result)
        (res_metadata result) (Some (rec_vector r)) :: rest'), c'.
      unfold ret. simpl. rewrite Hids. split; [|reflexivity]. by destruct db.
    + unfold storage_get. destruct (storage db !! res_id result) as [r|].
      * destruct (IH (set_vectorCache
                        (vc_set (cacheBytes cfg) (res_id result) r
                                (VectorDB.recordSize W r) (vectorCache db)) db))
          as (rest' & c' & Hrun & Hids).
        unfold bind at 1. rewrite Hrun.
        exists (mkResult (res_id result) (res_score result) (res_metadata result)
                         (Some (rec_vector r)) :: rest'), c'.
        unfold ret. simpl. rewrite Hids. split; [|reflexivity]. by destruct db.
      * destruct (IH db) as (rest' & c' & Hrun & Hids).
        unfold bind at 1. rewrite Hrun. exists (result :: rest'), c'.
        unfold ret. simpl. rewrite Hids. split; reflexivity.
Qed.

(** [search] changes nothing but the caches and the models-loaded flag;
    what it returns are members of the index; and when the generator keeps
    its contract the embeddings it caches have the configured dimension. *)
Lemma search_effects query db :
  exists r db',
    VectorDB.search W cfg query db = (r, db')
    /\ cachesOf db db'
    /\ (generatorContract W (dimensions cfg) ->
        embeddingCacheInvariant (dimensions cfg) (embeddingCache db) ->
        embeddingCacheInvariant (dimensions cfg) (embeddingCache db'))
    /\ (forall results, r = Ok results ->
        forall id, id ∈ map res_id results ->
          exists key record, index db !! key = Some record /\ rec_id record = id).
Proof.
  unfold VectorDB.search, VectorDB.ensureInitialized.
  unfold bind at 1. destruct (initialized db) eqn:Hinit.
  2:{ eexists _, _. split; [reflexivity|]. split; [apply cachesOf_refl|].
      split; [auto | discriminate]. }
  unfold tryCatch at 1. unfold bind at 1. unfold liftResult at 1.
  destruct (validateSearchQuery W (q_k query)) as [[]|e].
  2:{ unfold rethrowOrWrap. destruct (instanceofVectorDBError e);
        (eexists _, _; split; [reflexivity|]; split; [apply cachesOf_refl|];
         split; [auto | discriminate]). }
  unfold bind at 1.
  assert (Hvec : exists r db1,
    (match q_vector query with
     | Some v => ret v
     | None =>
         if truthy (q_text query)
         then
           cached <- VectorDB.getCachedEmbedding (default "" (q_text query)) ;;
           match cached with
           | Some v => ret v
           | None =>
               VectorDB.ensureModelsLoaded W cfg ;;
               v <- liftResult (generatorEmbed W (default "" (q_text query))) ;;
               VectorDB.cacheEmbedding cfg (default "" (q_text query)) v ;;
               ret v
           end
         else throw (VectorDBError INVALID_QUERY)
     end) db = (r, db1) /\ cachesOf db db1
    /\ (generatorContract W (dimensions cfg) ->
        embeddingCacheInvariant (dimensions cfg) (embeddingCache db) ->
        embeddingCacheInvariant (dimensions cfg) (embeddingCache db1))).
  { destruct (q_vector query) as [v|].
    { eexists _, _. split; [reflexivity|]. split; [apply cachesOf_refl|auto]. }
    destruct (truthy (q_text query)).
    2:{ eexists _, _. split; [reflexivity|]. split; [apply cachesOf_refl|auto]. }
    unfold bind at 1. unfold VectorDB.getCachedEmbedding.
    pose proof (ec_get_invariant (dimensions cfg) (default "" (q_text query))
                  (embeddingCache db)) as Hget.
    destruct (ec_get _ (embeddingCache db)) as [[hit|] c]; simpl in Hget.
    { eexists _, _. split; [reflexivity|].
      split; [apply cachesOf_embeddingCache|]. intros _ Hinv. by apply Hget. }
    unfold bind at 1.
    pose proof (ensureModelsLoaded_frame W cfg (set_embeddingCache c db)) as Hframe.
    pose proof (ensureModelsLoaded_cache W cfg (set_embeddingCache c db)) as Hc.
    destruct (VectorDB.ensureModelsLoaded W cfg (set_embeddingCache c db))
      as [[[]|e] db1]; simpl in Hframe, Hc.
    2:{ eexists _, _. split; [reflexivity|]. split.
        - eapply cachesOf_trans; [apply cachesOf_embeddingCache|].
          by apply cachesOf_embeddingState.
        - intros _ Hinv. rewrite Hc. by apply Hget. }
    unfold bind at 1. unfold liftResult at 1.
    destruct (generatorEmbed W _) as [v|e] eqn:Hembed.
    2:{ eexists _, _. split; [reflexivity|]. split.
        - eapply cachesOf_trans; [apply cachesOf_embeddingCache|].
          by apply cachesOf_embeddingState.
        - intros _ Hinv. rewrite Hc. by apply Hget. }
    eexists _, _. split; [reflexivity|]. split.
    - eapply cachesOf_trans; [apply cachesOf_embeddingCache|].
      eapply cachesOf_trans; [by apply cachesOf_embeddingState|].
      apply cachesOf_embeddingCache.
    - intros Hcontract Hinv. simpl. apply ec_set_invariant.
      + by eapply Hcontract.
      + rewrite Hc. by apply Hget. }
  destruct Hvec as (r & db1 & -> & Hc & Hcache).
  destruct r as [v|e].
  2:{ unfold rethrowOrWrap. destruct (instanceofVectorDBError e);
        (eexists _, _; split; [reflexivity|]; split; [exact Hc|];
         split; [exact Hcache | discriminate]). }
  unfold bind at 1. unfold liftResult at 1. unfold validateVector.
  destruct (hasDimension (dimensions cfg) v).
  2:{ eexists _, _. split; [reflexivity|]. split; [exact Hc|].
      split; [exact Hcache | discriminate]. }
  unfold bind at 1. unfold gets at 1. unfold bind at 1. unfold liftResult at 1.
  pose proof (cachesOf_fields _ _ Hc) as (_ & _ & Hix & _).
  destruct (index_search (dimensions cfg) (metric cfg) (score W) v (q_k query)
              (q_filter query) (index db1)) as [found|e] eqn:Hfound.
  2:{ unfold rethrowOrWrap. destruct (instanceofVectorDBError e);
        (eexists _, _; split; [reflexivity|]; split; [exact Hc|];
         split; [exact Hcache | discriminate]). }
  pose proof (index_search_members _ _ _ _ _ _ _ _ Hfound) as Hmembers.
  rewrite Hix in Hmembers.
  destruct (q_includeVectors query).
  2:{ eexists _, _. split; [reflexivity|]. split; [exact Hc|].
      split; [exact Hcache|]. by intros results [= <-]. }
  destruct (hydrate_frame found db1) as (results' & c & Hrun & Hids).
  rewrite Hrun. eexists _, _. split; [reflexivity|]. split.
  - eapply cachesOf_trans; [exact Hc|apply cachesOf_vectorCache].
  - split; [exact Hcache|]. intros results [= <-]. by rewrite Hids.
Qed.

End Frames.


Section MissingInput.

Variable W : World.
Variable cfg : Config.

(** X3.  A call that gives neither a vector nor a text that is not empty
    is refused before anything is written: [insert] throws
    INVALID_INSERT_DATA and [search] throws INVALID_QUERY, and the database
    is left as it was (the empty string counts as no text). *)
Theorem missing_vector_and_text_is_refused (db : DB) :
  initialized db = true ->
  (forall data sanitized,
     sanitize W (d_metadata data) = Ok sanitized ->
     d_vector data = None -> truthy (d_text data) = false ->
     VectorDB.insert W cfg data db = (Throw (VectorDBError INVALID_INSERT_DATA), db))
  /\ (forall query,
        validateSearchQuery W (q_k query) = Ok tt ->
        q_vector query = None -> truthy (q_text query) = false ->
        VectorDB.search W cfg query db = (Throw (VectorDBError INVALID_QUERY), db)).
Proof.
  intros Hinit. split.
  - intros data sanitized Hsan Hv Ht.
    rewrite (insert_run W cfg data db Hinit), Hsan.
    unfold VectorDB.prepareVector. rewrite Hv, Ht. reflexivity.
  - intros query Hk Hv Ht.
    unfold VectorDB.search, VectorDB.ensureInitialized.
    unfold bind at 1. rewrite Hinit. unfold tryCatch at 1.
    unfold bind at 1. unfold liftResult at 1. rewrite Hk, Hv, Ht. reflexivity.
Qed.

End MissingInput.

(** An insert of metadata alone and a search for the empty text, on the
    database of three records. *)
Lemma missing_vector_and_text_is_refused_witness :
  initialized Demo.threeRecords = true
  /\ VectorDB.insert Demo.world Demo.config (mkInsert None (Some "") None) Demo.threeRecords
     = (Throw (VectorDBError INVALID_INSERT_DATA), Demo.threeRecords)
  /\ VectorDB.search Demo.world Demo.config (mkQuery None (Some "") 3 None false)
       Demo.threeRecords
     = (Throw (VectorDBError INVALID_QUERY), Demo.threeRecords).
Proof.
  split; [vm_compute; reflexivity|].
  split.
  - apply (proj1 (missing_vector_and_text_is_refused Demo.world Demo.config
                    Demo.threeRecords eq_refl)
             (mkInsert None (Some "") None) ∅); reflexivity.
  - apply (proj2 (missing_vector_and_text_is_refused Demo.world Demo.config
                    Demo.threeRecords eq_refl)
             (mkQuery None (Some "") 3 None false)); reflexivity.
Defined.

(* --------------------------------------------------------------------- *)
(** ** What every call maintains *)
(* --------------------------------------------------------------------- *)

(** [delete] on an initialized database. *)
Lemma delete_run (cfg : Config) (id : string) (db : DB) :
  initialized db = true ->
  VectorDB.delete cfg id db =
    match storage db !! id with
    | Some _ =>
        (Ok true,
         set_index (delete id (index db))
           (set_vectorCache (vc_delete id (vectorCache db))
              (set_storage (delete id (storage db)) db)))
    | None => (Ok false, db)
    end.
Proof.
  intros Hinit. unfold VectorDB.delete, VectorDB.ensureInitialized.
  unfold bind at 1. rewrite Hinit. unfold tryCatch, bind at 1.
  assert (Hdel : (if batching cfg then coalescer_delete id (storage db)
                  else storage_delete id (storage db)) = storage_delete id (storage db))
    by (destruct (batching cfg); reflexivity).
  rewrite Hdel. unfold storage_delete.
  destruct (storage db !! id) as [r|].
  - unfold VectorDB.indexRemove. unfold_M. reflexivity.
  - unfold_M. by rewrite set_storage_same.
Qed.

Lemma storageInvariant_delete D id (s : Storage) :
  storageInvariant D s -> storageInvariant D (delete id s).
Proof.
  intros Hinv k r Hk. apply lookup_delete_Some in Hk as [_ Hk]. by apply Hinv.
Qed.

Section Coherence.

Variable W : World.
Variable cfg : Config.

Lemma prepared_dimension data db records db' :
  VectorDB.prepared W cfg data db records db' ->
  embeddingCacheInvariant (dimensions cfg) (embeddingCache db) ->
  Forall (fun r => hasDimension (dimensions cfg) (rec_vector r) = true) records.
Proof.
  induction 1 as [db|item rest db sanitized vector db1 records db' Hsan Hvec Hprep IH];
    intros Hcache.
  - constructor.
  - destruct (prepareVector_invariant W cfg item db Hcache) as [Hcache1 Hdim].
    rewrite Hvec in Hcache1, Hdim. simpl in Hcache1, Hdim.
    constructor; auto.
Qed.

Lemma insert_coherent data db :
  coherent (dimensions cfg) db ->
  coherent (dimensions cfg) (VectorDB.insert W cfg data db).2.
Proof.
  intros Hcoh. pose proof Hcoh as ((Hinv & Hix) & Hcache).
  destruct (initialized db) eqn:Hinit.
  2:{ by rewrite (not_initialized_insert W cfg data db Hinit). }
  rewrite (insert_run W cfg data db Hinit).
  destruct (sanitize W (d_metadata data)) as [sanitized|e].
  2:{ unfold rethrowOrWrap, throw. by destruct (instanceofVectorDBError e). }
  pose proof (prepareVector_frame W cfg data db) as Hframe.
  destruct (prepareVector_invariant W cfg data db Hcache) as [Hcache1 Hdim].
  destruct (VectorDB.prepareVector W cfg data db) as [[vector|e] db1];
    simpl in Hframe, Hcache1, Hdim;
    apply embeddingStateOf_storage in Hframe as (Hs & Hi & _ & _ & _ & Hinit1 & _).
  2:{ unfold rethrowOrWrap, throw. destruct (instanceofVectorDBError e); simpl;
        (split; [|exact Hcache1]); split; simpl; rewrite Hs; [|rewrite Hi| |rewrite Hi];
        auto. }
  rewrite (Hdim vector eq_refl). simpl.
  split; [|exact Hcache1]. split; simpl; rewrite Hs.
  - apply storageInvariant_put; [by apply Hdim | exact Hinv].
  - rewrite Hi, Hix. reflexivity.
Qed.

Lemma insertBatch_coherent data db :
  coherent (dimensions cfg) db ->
  coherent (dimensions cfg) (VectorDB.insertBatch W cfg data db).2.
Proof.
  intros Hcoh. pose proof Hcoh as ((Hinv & Hix) & Hcache).
  destruct (initialized db) eqn:Hinit.
  2:{ by rewrite (not_initialized_insertBatch W cfg data db Hinit). }
  destruct data as [|item rest].
  { unfold VectorDB.insertBatch, VectorDB.ensureInitialized. unfold_M.
    by rewrite Hinit. }
  rewrite (insertBatch_run W cfg _ db Hinit) by done.
  destruct (VectorDB.prepareBatch W cfg (item :: rest) [] [] db)
    as [[[records ids]|e] db1] eqn:Hrun.
  - destruct (prepareBatch_frame W cfg _ _ _ _ _ _ Hrun) as (Hs & Hi & Hinit1 & _).
    pose proof (prepareBatch_cache W cfg _ _ _ _ _ _ Hrun Hcache) as Hcache1.
    apply prepareBatch_ok in Hrun as (new & Hrec & _ & Hprep).
    simpl in Hrec. subst new.
    pose proof (prepared_dimension _ _ _ _ Hprep Hcache) as Hdims.
    unfold index_addBatch.
    rewrite (proj2 (forallb_forall _ _))
      by (intros r Hr; rewrite Forall_forall in Hdims; by apply Hdims, list_elem_of_In).
    split; [|exact Hcache1]. split; simpl; rewrite Hs.
    + by apply storageInvariant_putBatch.
    + rewrite Hi, Hix. reflexivity.
  - destruct (prepareBatch_frame W cfg _ _ _ _ _ _ Hrun) as (Hs & Hi & Hinit1 & _).
    pose proof (prepareBatch_cache W cfg _ _ _ _ _ _ Hrun Hcache) as Hcache1.
    unfold rethrowOrWrap, throw. destruct (instanceofVectorDBError e); simpl;
      (split; [|exact Hcache1]); split; simpl; rewrite Hs; [|rewrite Hi| |rewrite Hi];
      auto.
Qed.

Lemma update_coherent id data db :
  coherent (dimensions cfg) db ->
  coherent (dimensions cfg) (VectorDB.update W cfg id data db).2.
Proof.
  intros Hcoh. pose proof Hcoh as ((Hinv & Hix) & Hcache).
  destruct (initialized db) eqn:Hinit.
  2:{ by rewrite (not_initialized_update W cfg id data db Hinit). }
  rewrite (update_run W cfg id data db Hinit).
  destruct (storage db !! id) as [existing|] eqn:Hlook; [|exact Hcoh].
  destruct (VectorDB.sanitizedUpdate W data) as [sanitized|e].
  2:{ unfold rethrowOrWrap, throw. by destruct (instanceofVectorDBError e). }
  assert (Hvec : exists r db1,
    (if VectorDB.regenerates data then VectorDB.prepareVector W cfg data db
     else (Ok (rec_vector existing), db)) = (r, db1)
    /\ storage db1 = storage db /\ index db1 = index db
    /\ embeddingCacheInvariant (dimensions cfg) (embeddingCache db1)
    /\ forall v, r = Ok v -> hasDimension (dimensions cfg) v = true).
  { destruct (VectorDB.regenerates data).
    - pose proof (prepareVector_frame W cfg data db) as Hframe.
      destruct (prepareVector_invariant W cfg data db Hcache) as [Hcache1 Hdim].
      destruct (VectorDB.prepareVector W cfg data db) as [r db1].
      simpl in Hframe, Hcache1, Hdim.
      apply embeddingStateOf_storage in Hframe as (Hs & Hi & _).
      eexists _, _. split; [reflexivity|]. auto.
    - eexists _, _. split; [reflexivity|]. repeat split; auto.
      intros v Hv. injection Hv as <-. by destruct (Hinv _ _ Hlook). }
  destruct Hvec as (r & db1 & -> & Hs & Hi & Hcache1 & Hdim).
  destruct r as [vector|e].
  2:{ unfold rethrowOrWrap, throw. destruct (instanceofVectorDBError e); simpl;
        (split; [|exact Hcache1]); split; simpl; rewrite Hs; [|rewrite Hi| |rewrite Hi];
        auto. }
  rewrite (Hdim vector eq_refl). simpl.
  split; [|exact Hcache1]. split; simpl; rewrite Hs.
  - apply storageInvariant_put; [by apply Hdim | exact Hinv].
  - rewrite Hi, Hix. unfold storage_put. simpl. apply insert_delete_eq.
Qed.

Lemma delete_coherent id db :
  coherent (dimensions cfg) db ->
  coherent (dimensions cfg) (VectorDB.delete cfg id db).2.
Proof.
  intros Hcoh. pose proof Hcoh as ((Hinv & Hix) & Hcache).
  destruct (initialized db) eqn:Hinit.
  2:{ unfold VectorDB.delete, VectorDB.ensureInitialized. unfold bind at 1.
      by rewrite Hinit. }
  rewrite (delete_run cfg id db Hinit).
  destruct (storage db !! id); [|exact Hcoh].
  split; [|exact Hcache]. split; simpl.
  - by apply storageInvariant_delete.
  - by rewrite Hix.
Qed.

Lemma clear_coherent db :
  coherent (dimensions cfg) db ->
  coherent (dimensions cfg) (VectorDB.clear cfg db).2.
Proof.
  intros Hcoh.
  destruct (initialized db) eqn:Hinit.
  2:{ unfold VectorDB.clear, VectorDB.ensureInitialized. unfold bind at 1.
      by rewrite Hinit. }
  rewrite (clear_run cfg db Hinit). simpl.
  split; [|constructor]. split; simpl; [apply storageInvariant_empty | reflexivity].
Qed.

Lemma after_coherent (c : Calls.Call) db :
  generatorContract W (dimensions cfg) ->
  coherent (dimensions cfg) db ->
  coherent (dimensions cfg) (Calls.after W cfg c db).
Proof.
  intros Hcontract Hcoh.
  destruct c as [data|data|query|id data|id| | |options|options]; simpl.
  - by apply insert_coherent.
  - by apply insertBatch_coherent.
  - destruct Hcoh as ((Hinv & Hix) & Hcache).
    destruct (search_effects W cfg query db) as (r & db' & -> & Hc & Hcache' & _).
    apply cachesOf_fields in Hc as (_ & Hs & Hi & _). simpl.
    split; [|by apply Hcache']. split; rewrite Hs; [exact Hinv | by rewrite Hi].
  - by apply update_coherent.
  - by apply delete_coherent.
  - by apply clear_coherent.
  - unfold VectorDB.size, VectorDB.ensureInitialized. unfold_M.
    by destruct (initialized db).
  - destruct (initialized db) eqn:Hinit.
    + by rewrite (export_run W cfg options db Hinit).
    + unfold VectorDB.export, VectorDB.ensureInitialized. unfold bind at 1.
      by rewrite Hinit.
  - destruct (initialized db) eqn:Hinit.
    + by rewrite (exportStream_items W cfg options db Hinit).
    + unfold VectorDB.exportStream, VectorDB.ensureInitialized. unfold bind at 1.
      by rewrite Hinit.
Qed.

End Coherence.

(** X4.  Index and Storage stay in step.  When the embedding generator
    keeps its contract (what it returns has the configured dimension), any
    sequence of [insert], [insertBatch], [search], [update], [delete],
    [clear], [size], [export] and [exportStream], each returning or
    throwing, leaves the index holding exactly the stored records, every
    one of them under its own id and with a vector of the configured
    dimension. *)
Theorem calls_keep_index_and_storage_in_step
    (W : World) (cfg : Config) (calls : list Calls.Call) (db : DB) :
  generatorContract W (dimensions cfg) ->
  coherent (dimensions cfg) db ->
  index (Calls.afterAll W cfg calls db) = storage (Calls.afterAll W cfg calls db)
  /\ forall id record,
       storage (Calls.afterAll W cfg calls db) !! id = Some record ->
       rec_id record = id /\ length (rec_vector record) = dimensions cfg.
Proof.
  intros Hcontract Hcoh.
  assert (Hend : coherent (dimensions cfg) (Calls.afterAll W cfg calls db)).
  { unfold Calls.afterAll. revert db Hcoh.
    induction calls as [|c calls IH]; intros db Hcoh; [exact Hcoh|].
    simpl. apply IH. by apply after_coherent. }
  destruct Hend as ((Hinv & Hix) & _). split; [exact Hix|].
  intros id record Hlook. destruct (Hinv id record Hlook) as [Hid Hdim].
  split; [exact Hid|]. unfold hasDimension in Hdim. by apply Nat.eqb_eq in Hdim.
Qed.

(** From the empty database: an insert by text, a failing insert, a search
    by text, an update, a delete of an absent id and an export. *)
Lemma calls_keep_index_and_storage_in_step_witness :
  generatorContract Demo.world (dimensions Demo.config)
  /\ coherent (dimensions Demo.config) Demo.emptyDB
  /\ index (Calls.afterAll Demo.world Demo.config
              [Calls.Insert (Demo.byText "hello");
               Calls.Insert (Demo.byVector [1; 0] ∅);
               Calls.Search (mkQuery None (Some "hi") 2 None true);
               Calls.Update "1700000000000-r0" (Demo.byVector [1; 0; 0] ∅);
               Calls.Delete "absent";
               Calls.Export defaultExportOptions] Demo.emptyDB)
     = storage (Calls.afterAll Demo.world Demo.config
              [Calls.Insert (Demo.byText "hello");
               Calls.Insert (Demo.byVector [1; 0] ∅);
               Calls.Search (mkQuery None (Some "hi") 2 None true);
               Calls.Update "1700000000000-r0" (Demo.byVector [1; 0; 0] ∅);
               Calls.Delete "absent";
               Calls.Export defaultExportOptions] Demo.emptyDB)
  /\ storage_count (storage (Calls.afterAll Demo.world Demo.config
              [Calls.Insert (Demo.byText "hello");
               Calls.Insert (Demo.byVector [1; 0] ∅);
               Calls.Search (mkQuery None (Some "hi") 2 None true);
               Calls.Update "1700000000000-r0" (Demo.byVector [1; 0; 0] ∅);
               Calls.Delete "absent";
               Calls.Export defaultExportOptions] Demo.emptyDB)) = 1%nat.
Proof.
  assert (Hcontract : generatorContract Demo.world (dimensions Demo.config)).
  { intros text v Hv. injection Hv as <-. reflexivity. }
  assert (Hcoh : coherent (dimensions Demo.config) Demo.emptyDB).
  { split; [split; [apply storageInvariant_empty | reflexivity] | constructor]. }
  split; [exact Hcontract|]. split; [exact Hcoh|].
  split; [|vm_compute; reflexivity].
  apply (calls_keep_index_and_storage_in_step Demo.world Demo.config _ Demo.emptyDB
           Hcontract Hcoh).
Defined.

(* --------------------------------------------------------------------- *)
(** ** A generator of another dimension, loaded lazily *)
(* --------------------------------------------------------------------- *)

Lemma ec_get_miss text (c : EmbeddingCache) :
  text ∉ c.*1 -> ec_get text c = (None, c).
Proof.
  intros Hnotin. unfold ec_get.
  destruct (list_find (fun e => e.1 = text) c) as [[i [t v]]|] eqn:Hfind; [|reflexivity].
  apply list_find_Some in Hfind as (Hi & Ht & _). simpl in Ht. subst t.
  exfalso. apply Hnotin. apply list_elem_of_fmap. exists (text, v).
  split; [reflexivity|]. by eapply list_elem_of_lookup_2.
Qed.

Lemma ec_get_set n text v (c : EmbeddingCache) :
  (0 < n)%nat -> (ec_get text (ec_set n text v c)).1 = Some v.
Proof.
  intros Hn. unfold ec_set. destruct n as [|n]; [lia|].
  unfold ec_get. cbn [take list_find]. simpl.
  by rewrite decide_True.
Qed.

Section LazyGenerator.

Variable W : World.
Variable cfg : Config.

(** [search] by text on an initialized database, as far as the check of
    the query vector. *)
Lemma search_by_text_run query text db :
  initialized db = true ->
  validateSearchQuery W (q_k query) = Ok tt ->
  q_vector query = None ->
  q_text query = Some text ->
  text <> "" ->
  (ec_get text (embeddingCache db)).1 = None ->
  VectorDB.search W cfg query db =
    match VectorDB.ensureModelsLoaded W cfg
            (set_embeddingCache (ec_get text (embeddingCache db)).2 db) with
    | (Throw e, db1) => rethrowOrWrap SEARCH_ERROR e db1
    | (Ok _, db1) =>
        match generatorEmbed W text with
        | Throw e => rethrowOrWrap SEARCH_ERROR e db1
        | Ok v =>
            let db2 :=
              set_embeddingCache
                (ec_set (embeddingCacheEntries cfg) text v (embeddingCache db1)) db1 in
            if hasDimension (dimensions cfg) v
            then match index_search (dimensions cfg) (metric cfg) (score W) v (q_k query)
                                    (q_filter query) (index db2) with
                 | Ok results =>
                     if q_includeVectors query then VectorDB.hydrate W cfg results db2
                     else (Ok results, db2)
                 | Throw e => (Throw e, db2)
                 end
            else (Throw DimensionMismatchError, db2)
        end
    end.
Proof.
  intros Hinit Hk Hv Ht Hne Hmiss.
  unfold VectorDB.search, VectorDB.ensureInitialized.
  unfold bind at 1. rewrite Hinit. unfold tryCatch at 1.
  unfold bind at 1. unfold liftResult at 1. rewrite Hk, Hv, Ht.
  assert (Htruthy : truthy (Some text) = true).
  { simpl. destruct (String.eqb_spec text ""); [contradiction | reflexivity]. }
  rewrite Htruthy. change (default "" (Some text)) with text.
  unfold bind at 1. unfold bind at 1. unfold VectorDB.getCachedEmbedding.
  destruct (ec_get text (embeddingCache db)) as [hit c]. simpl in Hmiss. subst hit.
  cbn [snd]. unfold bind at 1.
  destruct (VectorDB.ensureModelsLoaded W cfg (set_embeddingCache c db)) as [[[]|e] db1];
    [|reflexivity].
  unfold bind at 1. unfold liftResult at 1.
  destruct (generatorEmbed W text) as [v|e]; [|reflexivity].
  unfold bind at 1. unfold VectorDB.cacheEmbedding, modify. unfold ret at 1.
  unfold bind at 1. unfold liftResult at 1. unfold validateVector.
  destruct (hasDimension (dimensions cfg) v) eqn:Hdim; [|reflexivity].
  unfold bind at 1. unfold gets at 1. unfold bind at 1. unfold liftResult at 1.
  unfold index_search. rewrite Hdim.
  destruct (q_includeVectors query); [|reflexivity].
  cbv zeta.
  match goal with
  | |- context [VectorDB.hydrate W cfg ?rs ?d] =>
      destruct (hydrate_frame W cfg rs d) as (results' & c' & Hrun & _)
  end.
  by rewrite Hrun.
Qed.

(** X5.  With lazy loading, a generator whose dimension is not the
    configured one is detected once and then slips through.  The first
    search by text throws DimensionMismatch but has already marked the
    models as loaded; the second generates the embedding and caches it
    before checking it; an insert of the same text then takes the cached
    vector without checking it, writes the record to Storage and only then
    fails in the index: the call throws DimensionMismatch, yet Storage
    holds a record with a vector of the wrong dimension that the index
    does not have. *)
Theorem unchecked_cached_embedding_reaches_storage
    (db : DB) (text : string) (v : Vector) (metadata : option Metadata)
    (sanitized : Metadata) (k : nat) (flt : option (Metadata -> bool)) (incl : bool) :
  initialized db = true ->
  modelsLoaded db = false ->
  generatorLoads W = true ->
  generatorDimensions W <> dimensions cfg ->
  generatorEmbed W text = Ok v ->
  length v = generatorDimensions W ->
  text <> "" ->
  text ∉ (embeddingCache db).*1 ->
  (0 < embeddingCacheEntries cfg)%nat ->
  validateSearchQuery W k = Ok tt ->
  sanitize W metadata = Ok sanitized ->
  exists db1 db2 db3 record,
    VectorDB.search W cfg (mkQuery None (Some text) k flt incl) db
      = (Throw DimensionMismatchError, db1)
    /\ VectorDB.search W cfg (mkQuery None (Some text) k flt incl) db1
      = (Throw DimensionMismatchError, db2)
    /\ VectorDB.insert W cfg (mkInsert None (Some text) metadata) db2
      = (Throw DimensionMismatchError, db3)
    /\ storage db3 = <[rec_id record := record]> (storage db)
    /\ rec_vector record = v
    /\ length (rec_vector record) <> dimensions cfg
    /\ index db3 = index db.
Proof.
  intros Hinit Hloaded Hloads Hdims Hembed Hlen Hne Hmiss Hcap Hk Hsan.
  assert (Hwrong : hasDimension (dimensions cfg) v = false).
  { unfold hasDimension. apply Nat.eqb_neq. congruence. }
  pose proof (ec_get_miss text _ Hmiss) as Hget.
  destruct db as [i s ix vc ec ml t r w]. simpl in Hinit, Hloaded, Hget. subst i ml.
  exists (mkDB true s ix vc ec true t r w).
  exists (mkDB true s ix vc (ec_set (embeddingCacheEntries cfg) text v ec) true t r w).
  assert (Hfirst :
    VectorDB.search W cfg (mkQuery None (Some text) k flt incl)
      (mkDB true s ix vc ec false t r w)
    = (Throw DimensionMismatchError, mkDB true s ix vc ec true t r w)).
  { rewrite (search_by_text_run (mkQuery None (Some text) k flt incl) text
               (mkDB true s ix vc ec false t r w) eq_refl Hk eq_refl eq_refl Hne)
      by (cbn [embeddingCache]; by rewrite Hget).
    cbn [embeddingCache]. rewrite Hget. cbn [snd].
    unfold VectorDB.ensureModelsLoaded. unfold_M. simpl.
    rewrite Hloads. simpl.
    rewrite (proj2 (Nat.eqb_neq _ _) Hdims). reflexivity. }
  assert (Hsecond :
    VectorDB.search W cfg (mkQuery None (Some text) k flt incl)
      (mkDB true s ix vc ec true t r w)
    = (Throw DimensionMismatchError,
       mkDB true s ix vc (ec_set (embeddingCacheEntries cfg) text v ec) true t r w)).
  { rewrite (search_by_text_run (mkQuery None (Some text) k flt incl) text
               (mkDB true s ix vc ec true t r w) eq_refl Hk eq_refl eq_refl Hne)
      by (cbn [embeddingCache]; by rewrite Hget).
    cbn [embeddingCache]. rewrite Hget. cbn [snd].
    unfold VectorDB.ensureModelsLoaded. unfold_M. simpl.
    rewrite Hembed, Hwrong. reflexivity. }
  pose proof (ec_get_set (embeddingCacheEntries cfg) text v ec Hcap) as Hhit.
  destruct (ec_get text (ec_set (embeddingCacheEntries cfg) text v ec)) as [hit c] eqn:Hget2.
  simpl in Hhit. subst hit.
  eexists _, (VectorDB.newRecord W (mkInsert None (Some text) metadata) sanitized v
                (mkDB true s ix vc c true t r w)).
  split; [exact Hfirst|]. split; [exact Hsecond|].
  split.
  { rewrite (insert_run W cfg (mkInsert None (Some text) metadata)
               (mkDB true s ix vc (ec_set (embeddingCacheEntries cfg) text v ec) true t r w)
               eq_refl).
    cbn [d_metadata]. rewrite Hsan.
    rewrite (prepareVector_text W cfg (mkInsert None (Some text) metadata) text
               (mkDB true s ix vc (ec_set (embeddingCacheEntries cfg) text v ec) true t r w)
               eq_refl eq_refl Hne).
    cbn [embeddingCache]. rewrite Hget2.
    cbv zeta. rewrite Hwrong. reflexivity. }
  simpl. split; [reflexivity|]. split; [reflexivity|].
  split; [congruence|reflexivity].
Qed.

End LazyGenerator.

(** A database configured for four dimensions over the generator of
    three-dimensional embeddings: two searches for "hello", then an insert
    of it. *)
Lemma unchecked_cached_embedding_reaches_storage_witness :
  exists db1 db2 db3 record,
    VectorDB.search Demo.world (mkConfig 4 dot (Some 2%nat) true 4096 16)
        (mkQuery None (Some "hello") 3 None false) Demo.emptyDB
      = (Throw DimensionMismatchError, db1)
    /\ VectorDB.search Demo.world (mkConfig 4 dot (Some 2%nat) true 4096 16)
        (mkQuery None (Some "hello") 3 None false) db1
      = (Throw DimensionMismatchError, db2)
    /\ VectorDB.insert Demo.world (mkConfig 4 dot (Some 2%nat) true 4096 16)
        (mkInsert None (Some "hello") None) db2
      = (Throw DimensionMismatchError, db3)
    /\ storage db3 = <[rec_id record := record]> (storage Demo.emptyDB)
    /\ rec_vector record = [0; 1; 5]
    /\ length (rec_vector record) <> dimensions (mkConfig 4 dot (Some 2%nat) true 4096 16)
    /\ index db3 = index Demo.emptyDB.
Proof.
  apply (unchecked_cached_embedding_reaches_storage Demo.world
           (mkConfig 4 dot (Some 2%nat) true 4096 16) Demo.emptyDB "hello" [0; 1; 5]
           None ∅ 3 None false).
  - reflexivity.
  - reflexivity.
  - reflexivity.
  - simpl. lia.
  - reflexivity.
  - reflexivity.
  - discriminate.
  - simpl. apply not_elem_of_nil.
  - simpl. lia.
  - reflexivity.
  - reflexivity.
Defined.

(* --------------------------------------------------------------------- *)
(** ** Deleting, counting and clearing *)
(* --------------------------------------------------------------------- *)

Lemma size_run (db : DB) :
  initialized db = true -> VectorDB.size db = (Ok (storage_count (storage db)), db).
Proof.
  intros Hinit. unfold VectorDB.size, VectorDB.ensureInitialized. unfold_M.
  by rewrite Hinit.
Qed.

Section Deleting.

Variable W : World.
Variable cfg : Config.

(** X6.  A deleted record is gone for every later call.  Once [delete]
    has returned true for an id (on a database whose index keeps each
    record under its own id), the id is no longer stored, no search,
    whatever the query, returns it, and [update] and a second [delete]
    of it return false and change nothing. *)
Theorem deleted_record_is_not_found (id : string) (db db1 : DB) :
  initialized db = true ->
  (forall key record, index db !! key = Some record -> rec_id record = key) ->
  VectorDB.delete cfg id db = (Ok true, db1) ->
  storage db1 !! id = None
  /\ (forall query results db2,
        VectorDB.search W cfg query db1 = (Ok results, db2) ->
        id ∉ map res_id results)
  /\ (forall data, VectorDB.update W cfg id data db1 = (Ok false, db1))
  /\ VectorDB.delete cfg id db1 = (Ok false, db1).
Proof.
  intros Hinit Hkeyed Hdelete.
  rewrite (delete_run cfg id db Hinit) in Hdelete.
  destruct (storage db !! id) as [existing|] eqn:Hlook; [|discriminate].
  injection Hdelete as <-.
  set (db1 := set_index (delete id (index db))
                (set_vectorCache (vc_delete id (vectorCache db))
                   (set_storage (delete id (storage db)) db))).
  assert (Hinit1 : initialized db1 = true) by exact Hinit.
  assert (Hgone : storage db1 !! id = None) by apply lookup_delete_eq.
  split; [exact Hgone|].
  split; [|split].
  - intros query results db2 Hsearch Hin.
    destruct (search_effects W cfg query db1) as (r & db' & Hrun & _ & _ & Hmembers).
    rewrite Hsearch in Hrun. injection Hrun as <- <-.
    destruct (Hmembers results eq_refl id Hin) as (key & record & Hkey & Hid).
    simpl in Hkey. apply lookup_delete_Some in Hkey as [Hne Hkey].
    apply Hkeyed in Hkey. congruence.
  - intros data. rewrite (update_run W cfg id data db1 Hinit1). by rewrite Hgone.
  - rewrite (delete_run cfg id db1 Hinit1). by rewrite Hgone.
Qed.

(** X7.  [size] counts the stored records through every call.  On an
    initialized database holding [n] records: after [delete] it reports
    [n - 1] when the call returned true and [n] otherwise; after [update],
    whether it returned or threw, [n]; after [search], [n]; after [clear],
    0; and after an [insert] that returned an id not stored before,
    [n + 1], with the new record stored under that id. *)
Theorem size_counts_stored_records (db : DB) (n : nat) :
  initialized db = true ->
  (VectorDB.size db).1 = Ok n ->
  (forall id,
     (VectorDB.size (VectorDB.delete cfg id db).2).1
     = Ok (match (VectorDB.delete cfg id db).1 with
           | Ok true => (n - 1)%nat
           | _ => n
           end))
  /\ (forall id data, (VectorDB.size (VectorDB.update W cfg id data db).2).1 = Ok n)
  /\ (forall query, (VectorDB.size (VectorDB.search W cfg query db).2).1 = Ok n)
  /\ (VectorDB.size (VectorDB.clear cfg db).2).1 = Ok 0%nat
  /\ (forall data id db',
        VectorDB.insert W cfg data db = (Ok id, db') ->
        storage db !! id = None ->
        (VectorDB.size db').1 = Ok (S n) /\ is_Some (storage db' !! id)).
Proof.
  intros Hinit Hsize. rewrite (size_run db Hinit) in Hsize. simpl in Hsize.
  injection Hsize as <-.
  split; [|split; [|split; [|split]]].
  - intros id. rewrite (delete_run cfg id db Hinit).
    destruct (storage db !! id) as [existing|] eqn:Hlook; simpl.
    + rewrite size_run by exact Hinit. simpl. unfold storage_count.
      rewrite map_size_delete_Some by (by rewrite Hlook). f_equal. lia.
    + by rewrite size_run.
  - intros id data. rewrite (update_run W cfg id data db Hinit).
    destruct (storage db !! id) as [existing|] eqn:Hlook; [|by rewrite size_run].
    destruct (VectorDB.sanitizedUpdate W data) as [sanitized|e].
    2:{ unfold rethrowOrWrap, throw.
        destruct (instanceofVectorDBError e); by rewrite size_run. }
    assert (Hvec : exists r db1,
      (if VectorDB.regenerates data then VectorDB.prepareVector W cfg data db
       else (Ok (rec_vector existing), db)) = (r, db1)
      /\ storage db1 = storage db /\ initialized db1 = true).
    { destruct (VectorDB.regenerates data).
      - pose proof (prepareVector_frame W cfg data db) as Hframe.
        destruct (VectorDB.prepareVector W cfg data db) as [r db1].
        simpl in Hframe.
        apply embeddingStateOf_storage in Hframe as (Hs & _ & _ & _ & _ & Hinit1 & _).
        eexists _, _. split; [reflexivity|]. split; [exact Hs | congruence].
      - eexists _, _. split; [reflexivity|]. by split. }
    destruct Hvec as (r & db1 & -> & Hs & Hinit1).
    destruct r as [vector|e].
    2:{ unfold rethrowOrWrap, throw.
        destruct (instanceofVectorDBError e); simpl;
          rewrite size_run by exact Hinit1; by rewrite Hs. }
    cbv zeta.
    destruct (hasDimension (dimensions cfg) vector); simpl;
      (rewrite size_run by exact Hinit1); simpl; unfold storage_count, storage_put;
      simpl; rewrite Hs; (rewrite map_size_insert_Some by (by rewrite Hlook));
      reflexivity.
  - intros query.
    destruct (search_effects W cfg query db) as (r & db' & -> & Hc & _). simpl.
    apply cachesOf_fields in Hc as (Hinit' & Hs & _).
    rewrite size_run by congruence. simpl. by rewrite Hs.
  - rewrite (clear_run cfg db Hinit). simpl. rewrite size_run by exact Hinit.
    reflexivity.
  - intros data id db' Hinsert Hfresh.
    rewrite (insert_run W cfg data db Hinit) in Hinsert.
    destruct (sanitize W (d_metadata data)) as [sanitized|e].
    2:{ unfold rethrowOrWrap, throw in Hinsert.
        by destruct (instanceofVectorDBError e). }
    pose proof (prepareVector_frame W cfg data db) as Hframe.
    destruct (VectorDB.prepareVector W cfg data db) as [[vector|e] db1];
      simpl in Hframe;
      apply embeddingStateOf_storage in Hframe as (Hs & _ & _ & _ & _ & Hinit1 & _).
    2:{ unfold rethrowOrWrap, throw in Hinsert.
        by destruct (instanceofVectorDBError e). }
    cbv zeta in Hinsert.
    destruct (hasDimension (dimensions cfg) vector); [|discriminate].
    injection Hinsert as <- <-.
    rewrite size_run by (simpl; congruence). simpl.
    unfold storage_count, storage_put. simpl. rewrite Hs.
    split.
    + rewrite map_size_insert_None by exact Hfresh. reflexivity.
    + rewrite lookup_insert_eq. by eexists.
Qed.

(** X8.  [clear] leaves an empty database: no record is stored, [size]
    reports 0, both caches are empty, every search that returns returns
    nothing, and an export carries no record. *)
Theorem clear_leaves_an_empty_database (db : DB) :
  initialized db = true ->
  exists db',
    VectorDB.clear cfg db = (Ok tt, db')
    /\ storage db' = ∅
    /\ VectorDB.size db' = (Ok 0%nat, db')
    /\ vc_entries (vectorCache db') = [] /\ embeddingCache db' = []
    /\ (forall query results db2,
          VectorDB.search W cfg query db' = (Ok results, db2) -> results = [])
    /\ (forall options,
          exists data db2,
            VectorDB.export W cfg options db' = (Ok data, db2)
            /\ x_vectors data = Some []
            /\ (vectorCount <$> x_meta data) = Some (Some 0)).
Proof.
  intros Hinit. exists (clearedDB db).
  split; [by apply clear_run|].
  split; [reflexivity|].
  split; [by rewrite size_run|].
  split; [reflexivity|]. split; [reflexivity|].
  split.
  - intros query results db2 Hsearch.
    destruct (search_effects W cfg query (clearedDB db))
      as (r & db' & Hrun & _ & _ & Hmembers).
    rewrite Hsearch in Hrun. injection Hrun as <- <-.
    destruct results as [|x rest]; [reflexivity|].
    destruct (Hmembers _ eq_refl (res_id x)) as (key & record & Hkey & _).
    { simpl. apply list_elem_of_here. }
    simpl in Hkey. unfold index_clear in Hkey. by rewrite lookup_empty in Hkey.
  - intros options. eexists _, _.
    split; [by apply export_run|].
    split; reflexivity.
Qed.

End Deleting.

(** The first of the three records is deleted. *)
Lemma deleted_record_is_not_found_witness :
  initialized Demo.threeRecords = true
  /\ (VectorDB.delete Demo.config "1700000000000-r0" Demo.threeRecords).1 = Ok true
  /\ forall query results db2,
       VectorDB.search Demo.world Demo.config query
         (VectorDB.delete Demo.config "1700000000000-r0" Demo.threeRecords).2
       = (Ok results, db2) ->
       "1700000000000-r0" ∉ map res_id results.
Proof.
  split; [vm_compute; reflexivity|]. split; [vm_compute; reflexivity|].
  apply (deleted_record_is_not_found Demo.world Demo.config "1700000000000-r0"
           Demo.threeRecords).
  - vm_compute. reflexivity.
  - intros key record Hkey.
    destruct (reachable_consistent Demo.world Demo.config
                ltac:(intros n; simpl; lia) _ threeRecords_reachable)
      as (_ & Hinv & _ & Hix & _).
    rewrite Hix in Hkey. by destruct (Hinv key record Hkey).
  - assert (Htrue : (VectorDB.delete Demo.config "1700000000000-r0" Demo.threeRecords).1
                    = Ok true) by (vm_compute; reflexivity).
    destruct (VectorDB.delete Demo.config "1700000000000-r0" Demo.threeRecords) as [r d].
    cbn [fst snd] in Htrue |- *. by rewrite Htrue.
Defined.

(** The three records: one deleted, one updated, a search, a clear, one
    more inserted. *)
Lemma size_counts_stored_records_witness :
  initialized Demo.threeRecords = true
  /\ (VectorDB.size Demo.threeRecords).1 = Ok 3%nat
  /\ (VectorDB.size (VectorDB.delete Demo.config "1700000000000-r0" Demo.threeRecords).2).1
     = Ok 2%nat
  /\ (VectorDB.size (VectorDB.update Demo.world Demo.config "1700000000000-r0"
                       (Demo.byText "again") Demo.threeRecords).2).1 = Ok 3%nat
  /\ (VectorDB.size (VectorDB.clear Demo.config Demo.threeRecords).2).1 = Ok 0%nat.
Proof.
  split; [vm_compute; reflexivity|]. split; [vm_compute; reflexivity|].
  destruct (size_counts_stored_records Demo.world Demo.config Demo.threeRecords 3)
    as (Hdelete & Hupdate & _ & Hclear & _).
  - vm_compute. reflexivity.
  - vm_compute. reflexivity.
  - split; [|split; [apply Hupdate | exact Hclear]].
    rewrite Hdelete. vm_compute. reflexivity.
Defined.

(** The three records, cleared. *)
Lemma clear_leaves_an_empty_database_witness :
  initialized Demo.threeRecords = true
  /\ exists db',
       VectorDB.clear Demo.config Demo.threeRecords = (Ok tt, db')
       /\ VectorDB.size db' = (Ok 0%nat, db')
       /\ forall query results db2,
            VectorDB.search Demo.world Demo.config query db' = (Ok results, db2) ->
            results = [].
Proof.
  split; [vm_compute; reflexivity|].
  destruct (clear_leaves_an_empty_database Demo.world Demo.config Demo.threeRecords)
    as (db' & Hclear & _ & Hsize & _ & _ & Hsearch & _).
  - vm_compute. reflexivity.
  - exists db'. split; [exact Hclear|]. split; [exact Hsize | exact Hsearch].
Defined.

(* --------------------------------------------------------------------- *)
(** ** Writing all or nothing *)
(* --------------------------------------------------------------------- *)

Lemma putBatch_keeps id (rs : list VectorRecord) : forall s : Storage,
  is_Some (s !! id) -> is_Some (storage_putBatch rs s !! id).
Proof.
  unfold storage_putBatch.
  induction rs as [|r rs IH]; intros s Hs; [exact Hs|].
  simpl. apply IH. unfold storage_put.
  destruct (decide (rec_id r = id)) as [->|Hne].
  - rewrite lookup_insert_eq. by eexists.
  - by rewrite lookup_insert_ne.
Qed.

Lemma putBatch_member id (rs : list VectorRecord) : forall s : Storage,
  id ∈ map rec_id rs -> is_Some (storage_putBatch rs s !! id).
Proof.
  induction rs as [|r rs IH]; intros s Hin.
  - by apply elem_of_nil in Hin.
  - rewrite fmap_cons in Hin. apply elem_of_cons in Hin as [->|Hin].
    + change (storage_putBatch (r :: rs) s) with (storage_putBatch rs (storage_put r s)).
      apply putBatch_keeps. unfold storage_put. rewrite lookup_insert_eq. by eexists.
    + change (storage_putBatch (r :: rs) s) with (storage_putBatch rs (storage_put r s)).
      by apply IH.
Qed.

Section AllOrNothing.

Variable W : World.
Variable cfg : Config.

Lemma prepared_length data db records db' :
  VectorDB.prepared W cfg data db records db' -> length records = length data.
Proof. induction 1; simpl; congruence. Qed.

(** X9.  [insert] and [insertBatch] write all or nothing.  On a database
    where the index agrees with the store and the cached embeddings have
    the configured dimension: when [insertBatch] returns, it returns one
    id per item, in order, and every one of them is stored and in the
    index; when [insert] or [insertBatch] throws, for whatever reason and
    at whatever item, no record has been added to Storage or to the
    index. *)
Theorem inserts_write_all_or_nothing (db : DB) :
  initialized db = true ->
  coherent (dimensions cfg) db ->
  (forall data,
     match VectorDB.insertBatch W cfg data db with
     | (Ok ids, db') =>
         length ids = length data
         /\ forall id, id ∈ ids ->
              is_Some (storage db' !! id) /\ index db' !! id = storage db' !! id
     | (Throw _, db') => storage db' = storage db /\ index db' = index db
     end)
  /\ (forall data,
        match VectorDB.insert W cfg data db with
        | (Ok id, db') => is_Some (storage db' !! id) /\ index db' !! id = storage db' !! id
        | (Throw _, db') => storage db' = storage db /\ index db' = index db
        end).
Proof.
  intros Hinit ((Hinv & Hix) & Hcache). split.
  - intros data. destruct data as [|item rest].
    { unfold VectorDB.insertBatch, VectorDB.ensureInitialized. unfold_M.
      rewrite Hinit. split; [reflexivity|]. intros id Hin. by apply elem_of_nil in Hin. }
    rewrite (insertBatch_run W cfg _ db Hinit) by done.
    destruct (VectorDB.prepareBatch W cfg (item :: rest) [] [] db)
      as [[[records ids]|e] db1] eqn:Hrun.
    + destruct (prepareBatch_frame W cfg _ _ _ _ _ _ Hrun) as (Hs & Hi & _).
      apply prepareBatch_ok in Hrun as (new & Hrec & Hids & Hprep).
      simpl in Hrec, Hids. subst new ids.
      pose proof (prepared_dimension W cfg _ _ _ _ Hprep Hcache) as Hdims.
      unfold index_addBatch.
      rewrite (proj2 (forallb_forall _ _))
        by (intros r Hr; rewrite Forall_forall in Hdims; by apply Hdims, list_elem_of_In).
      cbv zeta. split.
      * rewrite length_fmap. by eapply prepared_length.
      * intros id Hin. cbn [storage index set_index set_storage].
        rewrite Hs, Hi, Hix. split; [by apply putBatch_member | reflexivity].
    + destruct (prepareBatch_frame W cfg _ _ _ _ _ _ Hrun) as (Hs & Hi & _).
      unfold rethrowOrWrap, throw. by destruct (instanceofVectorDBError e).
  - intros data. rewrite (insert_run W cfg data db Hinit).
    destruct (sanitize W (d_metadata data)) as [sanitized|e].
    2:{ unfold rethrowOrWrap, throw. by destruct (instanceofVectorDBError e). }
    pose proof (prepareVector_frame W cfg data db) as Hframe.
    destruct (prepareVector_invariant W cfg data db Hcache) as [_ Hdim].
    destruct (VectorDB.prepareVector W cfg data db) as [[vector|e] db1];
      simpl in Hframe, Hdim;
      apply embeddingStateOf_storage in Hframe as (Hs & Hi & _).
    2:{ unfold rethrowOrWrap, throw. by destruct (instanceofVectorDBError e). }
    rewrite (Hdim vector eq_refl). cbv zeta.
    cbn [storage index set_index set_storage set_vectorCache]. unfold storage_put.
    rewrite !lookup_insert_eq. split; [by eexists | reflexivity].
Qed.

End AllOrNothing.

(** A batch whose second item has a vector of two elements, on the empty
    database. *)
Lemma inserts_write_all_or_nothing_witness :
  initialized Demo.emptyDB = true
  /\ coherent (dimensions Demo.config) Demo.emptyDB
  /\ match VectorDB.insertBatch Demo.world Demo.config
            [Demo.byVector [1; 0; 0] ∅; Demo.byVector [1; 0] ∅] Demo.emptyDB with
     | (Ok ids, db') =>
         length ids = 2%nat
         /\ forall id, id ∈ ids ->
              is_Some (storage db' !! id) /\ index db' !! id = storage db' !! id
     | (Throw _, db') =>
         storage db' = storage Demo.emptyDB /\ index db' = index Demo.emptyDB
     end.
Proof.
  assert (Hcoh : coherent (dimensions Demo.config) Demo.emptyDB).
  { split; [split; [apply storageInvariant_empty | reflexivity] | constructor]. }
  split; [reflexivity|]. split; [exact Hcoh|].
  apply (proj1 (inserts_write_all_or_nothing Demo.world Demo.config Demo.emptyDB
                  eq_refl Hcoh)
           [Demo.byVector [1; 0; 0] ∅; Demo.byVector [1; 0] ∅]).
Defined.

(* --------------------------------------------------------------------- *)
(** ** Export *)
(* --------------------------------------------------------------------- *)

Section Exporting.

Variable W : World.
Variable cfg : Config.

(** X10.  An export is always an envelope that [import] takes as far as
    its records.  On an initialized database with a valid configuration,
    [export] returns; it changes nothing but the clock it reads once; the
    envelope has version 1.0.0, passes the schema check and the version
    check, states the configured dimension, and its [vectorCount] is the
    number of records it carries, which is what [size] reports. *)
Theorem export_passes_the_checks_of_import (options : ExportOptions) (db : DB) :
  initialized db = true ->
  validateConfig cfg = Ok tt ->
  exists data vectors meta,
    VectorDB.export W cfg options db = (Ok data, set_ticks (S (ticks db)) db)
    /\ VectorDB.passesChecks data
    /\ x_vectors data = Some vectors
    /\ x_meta data = Some meta
    /\ x_dimensions meta = Some (Z.of_nat (dimensions cfg))
    /\ vectorCount meta = Some (Z.of_nat (length vectors))
    /\ (VectorDB.size db).1 = Ok (length vectors).
Proof.
  intros Hinit Hcfg. unfold validateConfig in Hcfg.
  destruct (dimensions cfg <=? 0)%nat eqn:Hdims; [discriminate|].
  apply Nat.leb_gt in Hdims.
  eexists _, _, _. split; [by apply export_run|].
  split.
  { split.
    - unfold VectorDB.validateExportData, VectorDB.envelopeOf. simpl.
      rewrite (proj2 (Z.leb_gt _ _)) by lia.
      rewrite (proj2 (Z.ltb_ge _ _)) by lia.
      reflexivity.
    - exists "1.0.0". split; [reflexivity|]. vm_compute. reflexivity. }
  split; [reflexivity|]. split; [reflexivity|]. split; [reflexivity|].
  cbn [vectorCount]. rewrite length_fmap, storage_getAll_length.
  split; [reflexivity|]. by rewrite size_run.
Qed.

(** X11.  [exportStream] carries what [export] returns.  Run to its end
    on the same database, the stream leaves the same database as [export]
    and yields first the metadata item, with the version, the
    configuration and the metadata of the envelope; the records of its
    vectors items, in order, are the vectors of the envelope; and the index
    item, yielded last and only when the index is asked for, is the index
    of the envelope. *)
Theorem exportStream_carries_the_export (options : ExportOptions) (db : DB) :
  initialized db = true ->
  exists data items meta,
    VectorDB.export W cfg options db = (Ok data, set_ticks (S (ticks db)) db)
    /\ VectorDB.exportStream W cfg options db = (Ok items, set_ticks (S (ticks db)) db)
    /\ x_meta data = Some meta
    /\ head items = Some (ItemMetadata "1.0.0" cfg meta)
    /\ x_version data = Some "1.0.0"
    /\ x_config data = Some cfg
    /\ x_vectors data = Some (concat (vectorChunks items))
    /\ (if includeIndex options
        then last items = Some (ItemIndex (x_index data))
        else x_index data = IxText ""
             /\ forall ix, ItemIndex ix ∉ items).
Proof.
  intros Hinit. eexists _, _, _.
  split; [by apply export_run|]. split; [by apply exportStream_items|].
  split; [reflexivity|]. split; [reflexivity|]. split; [reflexivity|].
  split; [reflexivity|]. split.
  - unfold VectorDB.envelopeOf. cbn [x_vectors]. f_equal.
    destruct (storage_getAll (storage db)) as [|r rs];
      destruct (includeIndex options); simpl; by rewrite ?app_nil_r.
  - unfold VectorDB.envelopeOf. cbn [x_index].
    destruct (includeIndex options).
    + destruct (0 <? length (storage_getAll (storage db)))%nat; reflexivity.
    + split; [reflexivity|]. intros ix Hin.
      destruct (0 <? length (storage_getAll (storage db)))%nat; simpl in Hin;
        repeat (apply elem_of_cons in Hin as [Hin|Hin]; [discriminate|]);
        by apply elem_of_nil in Hin.
Qed.

End Exporting.

(** The three records, exported with and streamed without the index. *)
Lemma export_passes_the_checks_of_import_witness :
  initialized Demo.threeRecords = true
  /\ validateConfig Demo.config = Ok tt
  /\ exists data vectors meta,
       VectorDB.export Demo.world Demo.config defaultExportOptions Demo.threeRecords
         = (Ok data, set_ticks (S (ticks Demo.threeRecords)) Demo.threeRecords)
       /\ VectorDB.passesChecks data
       /\ x_vectors data = Some vectors
       /\ x_meta data = Some meta
       /\ x_dimensions meta = Some (Z.of_nat (dimensions Demo.config))
       /\ vectorCount meta = Some (Z.of_nat (length vectors))
       /\ (VectorDB.size Demo.threeRecords).1 = Ok (length vectors).
Proof.
  split; [vm_compute; reflexivity|]. split; [reflexivity|].
  apply (export_passes_the_checks_of_import Demo.world Demo.config defaultExportOptions
           Demo.threeRecords).
  - vm_compute. reflexivity.
  - reflexivity.
Defined.

Lemma exportStream_carries_the_export_witness :
  initialized Demo.threeRecords = true
  /\ exists data items meta,
       VectorDB.export Demo.world Demo.config (mkExportOptions false) Demo.threeRecords
         = (Ok data, set_ticks (S (ticks Demo.threeRecords)) Demo.threeRecords)
       /\ VectorDB.exportStream Demo.world Demo.config (mkExportOptions false)
            Demo.threeRecords
         = (Ok items, set_ticks (S (ticks Demo.threeRecords)) Demo.threeRecords)
       /\ x_meta data = Some meta
       /\ head items = Some (ItemMetadata "1.0.0" Demo.config meta)
       /\ x_version data = Some "1.0.0"
       /\ x_config data = Some Demo.config
       /\ x_vectors data = Some (concat (vectorChunks items))
       /\ x_index data = IxText ""
       /\ forall ix, ItemIndex ix ∉ items.
Proof.
  split; [vm_compute; reflexivity|].
  apply (exportStream_carries_the_export Demo.world Demo.config (mkExportOptions false)
           Demo.threeRecords).
  vm_compute. reflexivity.
Defined.

(* --------------------------------------------------------------------- *)
(** ** Import *)
(* --------------------------------------------------------------------- *)

Section Importing.

Variable W : World.
Variable cfg : Config.




(** X13.  [import] takes a well-formed index as it is.  When the envelope
    is importable and its index deserializes, the index afterwards is
    exactly the one that was serialized, no rebuild takes place and no
    warning is logged, while Storage receives the records of the envelope
    on top of what it held (or of nothing, with [clearExisting]).  The
    index of the envelope is not compared with its vectors, and with
    [clearExisting] off the records that were stored before are in the
    index only if the envelope's index has them. *)
Theorem import_installs_the_serialized_index
    (data : ExportData) (options : ImportOptions) (db : DB) (members : AnnIndex) :
  initialized db = true ->
  VectorDB.importable cfg data ->
  x_index data = IxSerialized (dimensions cfg) members ->
  exists db' records,
    VectorDB.import W cfg data options db = (Ok tt, db')
    /\ index db' = members
    /\ storage db'
       = storage_putBatch records (if clearExisting options then ∅ else storage db)
    /\ Forall2 (converted W) (default [] (x_vectors data)) records
    /\ (forall version, x_version data = Some version ->
          warnings db' = warnings (VectorDB.afterVersionCheck version db)).
Proof.
  intros Hinit Himp Hix.
  destruct (import_importable_run W cfg data options db Hinit Himp)
    as (version & vectors & records & n & Hversion & Hvectors & Hconv & _ & Hrun).
  cbv zeta in Hrun. rewrite Hrun.
  unfold VectorDB.restoreIndex. rewrite Hix. cbn [indexBytes_truthy].
  unfold tryCatch, bind, liftResult, modify. cbn [index_deserialize].
  rewrite Nat.eqb_refl.
  eexists _, records. split; [reflexivity|].
  split; [reflexivity|].
  split.
  { cbn [storage set_index set_storage set_ticks].
    unfold VectorDB.afterVersionCheck.
    destruct (clearExisting options); [reflexivity|].
    by destruct (VectorDB.greaterThan _ _). }
  split; [by rewrite Hvectors|].
  intros version' Hv'. rewrite Hversion in Hv'. injection Hv' as <-.
  cbn [warnings set_index set_storage set_ticks].
  destruct (clearExisting options); reflexivity.
Qed.

End Importing.


(** An envelope whose index holds another record than its vectors,
    imported into the empty database. *)
Lemma import_installs_the_serialized_index_witness :
  initialized Demo.emptyDB = true
  /\ exists db' records,
       VectorDB.import Demo.world Demo.config Samples.staleIndexEnvelope
         defaultImportOptions Demo.emptyDB = (Ok tt, db')
       /\ index db' = {["b" := mkRecord "b" [0; 1; 0] ∅ 1700000000000]}
       /\ storage db' = storage_putBatch records ∅
       /\ Forall2 (converted Demo.world)
            [mkExportRecord (Some "a") (Some [1; 0; 0]) (Some ∅) (Some 1700000000000)]
            records.
Proof.
  split; [reflexivity|].
  destruct (import_installs_the_serialized_index Demo.world Demo.config
              Samples.staleIndexEnvelope defaultImportOptions Demo.emptyDB
              {["b" := mkRecord "b" [0; 1; 0] ∅ 1700000000000]})
    as (db' & records & Hrun & Hindex & Hstorage & Hconv & _).
  - reflexivity.
  - split.
    + split; [vm_compute; reflexivity|]. exists "1.0.0". split; vm_compute; reflexivity.
    + eexists _, _. split; [reflexivity|]. split; [reflexivity|].
      split; [reflexivity|]. split; [reflexivity|]. repeat constructor.
  - reflexivity.
  - exists db', records. split; [exact Hrun|]. split; [exact Hindex|].
    split; [exact Hstorage | exact Hconv].
Defined.

(* ===================================================================== *)
(** * Further properties of the embedding generator *)
(* ===================================================================== *)

Section EmbeddingRuns.
Import TransformersEmbedding Embedding.

Variable outcome : nat -> Device -> Attempt.

(** The loop on wasm when the call number [j] from here is the first
    that works. *)
Lemma retryLoop_wasm_works j : forall fuel a g n,
  device (config g) = wasm ->
  (a + j < maxRetries (config g))%nat ->
  (j < fuel)%nat ->
  (forall i, (i < j)%nat -> forall k, outcome (calls g + i)%nat wasm <> Works k) ->
  outcome (calls g + j)%nat wasm = Works n ->
  exists g' s,
    retryLoop outcome fuel a g = (Resolved, g')
    /\ isInitialized g' = true /\ pipelineSet g' = true /\ dims g' = n
    /\ config g' = config g
    /\ calls g' = (calls g + S j)%nat
    /\ trace g' = trace g ++ s
    /\ pipelineCalls s = replicate (S j) wasm
    /\ forall slept,
         delaysBeforeCalls slept s = wasmDelays (retryDelay (config g)) slept a (S j).
Proof.
  induction j as [|j IH]; intros fuel a g n Hdev Hsum Hfuel Hfails Hworks.
  - destruct fuel as [|fuel]; [lia|]. cbn [retryLoop].
    replace (a <? maxRetries (config g))%nat with true
      by (symmetry; apply Nat.ltb_lt; lia).
    unfold tryLoad. rewrite Hdev. rewrite Nat.add_0_r in Hworks. rewrite Hworks.
    eexists _, [CallPipeline wasm].
    split; [reflexivity|]. cbn [isInitialized pipelineSet dims config calls trace].
    repeat split; try reflexivity. lia.
  - destruct fuel as [|fuel]; [lia|]. cbn [retryLoop].
    replace (a <? maxRetries (config g))%nat with true
      by (symmetry; apply Nat.ltb_lt; lia).
    assert (Hfailed : forall ps,
      let g1 := mkGenerator ps (config g) (dims g) (isInitialized g) (S (calls g))
                            (trace g ++ [CallPipeline wasm]) in
      exists g' s,
        (if device_eqb (device (config g1)) webgpu && (S a =? 1)%nat
         then retryLoop outcome fuel (S a) (set_device wasm (emit (Warn (S a)) g1))
         else if (S a <? maxRetries (config g1))%nat
              then retryLoop outcome fuel (S a)
                     (emit (Sleep (retryDelay (config g1) * 2 ^ Z.of_nat (S a - 1)))
                           (emit (Warn (S a)) g1))
              else retryLoop outcome fuel (S a) g1) = (Resolved, g')
        /\ isInitialized g' = true /\ pipelineSet g' = true /\ dims g' = n
        /\ config g' = config g
        /\ calls g' = (calls g + S (S j))%nat
        /\ trace g' = trace g ++ s
        /\ pipelineCalls s = replicate (S (S j)) wasm
        /\ forall slept,
             delaysBeforeCalls slept s
             = wasmDelays (retryDelay (config g)) slept a (S (S j))).
    { intros ps g1. assert (Hcfg1 : config g1 = config g) by reflexivity.
      rewrite Hcfg1, Hdev. cbn [device_eqb andb].
      replace (S a <? maxRetries (config g))%nat with true
        by (symmetry; apply Nat.ltb_lt; lia).
      destruct (IH fuel (S a)
                  (emit (Sleep (retryDelay (config g) * 2 ^ Z.of_nat (S a - 1)))
                        (emit (Warn (S a)) g1)) n)
        as (g' & s & Hrun & Hi & Hp & Hd & Hc & Hcalls & Htr & Hpc & Hdel).
      - exact Hdev.
      - simpl. lia.
      - lia.
      - intros i Hi k. simpl. replace (S (calls g + i)) with (calls g + S i)%nat by lia.
        apply Hfails. lia.
      - simpl. replace (S (calls g + j)) with (calls g + S j)%nat by lia. exact Hworks.
      - exists g', ([CallPipeline wasm; Warn (S a);
                     Sleep (retryDelay (config g) * 2 ^ Z.of_nat (S a - 1))] ++ s).
        split; [exact Hrun|]. split; [exact Hi|]. split; [exact Hp|].
        split; [exact Hd|]. split; [exact Hc|].
        split; [rewrite Hcalls; simpl; lia|].
        split; [rewrite Htr; simpl; by rewrite <- !app_assoc|].
        split.
        + change (pipelineCalls ([CallPipeline wasm; Warn (S a); Sleep _] ++ s))
            with (wasm :: pipelineCalls s). by rewrite Hpc.
        + intros slept. cbn [app delaysBeforeCalls]. rewrite Z.add_0_l, Hdel.
          reflexivity. }
    unfold tryLoad. rewrite Hdev.
    pose proof (Hfails 0%nat ltac:(lia)) as Hfirst. rewrite Nat.add_0_r in Hfirst.
    destruct (outcome (calls g) wasm) as [| |k].
    + apply Hfailed.
    + apply Hfailed.
    + by destruct (Hfirst k).
Qed.

(** X14.  [initialize] resolves at the first attempt that works.  On a
    new generator, when call number [j] of [pipeline] is the first whose
    pipeline loads and embeds the test text (with [j] below [maxRetries],
    the first call on the configured device and the later ones on wasm):
    [initialize] resolves after exactly [j + 1] calls, the generator is
    initialized with the dimension of that test embedding, the delays
    slept before the calls are those of the retry schedule, the configured
    device has become wasm if a retry was needed, and [initialize] called
    again returns at once without calling [pipeline]. *)
Theorem initialize_resolves_at_first_working_attempt (g : Generator) (j n : nat) :
  isInitialized g = false ->
  trace g = [] ->
  calls g = 0%nat ->
  (j < maxRetries (config g))%nat ->
  firstWorking outcome (device (config g)) j n ->
  exists g',
    initialize outcome g = (Resolved, g')
    /\ isInitialized g' = true /\ pipelineSet g' = true
    /\ dims g' = n
    /\ calls g' = S j
    /\ pipelineCalls (trace g') = device (config g) :: replicate j wasm
    /\ delaysBeforeCalls 0 (trace g')
       = 0 :: map (delayBeforeRetry (device (config g)) (retryDelay (config g))) (seq 1 j)
    /\ device (config g') = deviceOfCall (device (config g)) j
    /\ (forall outcome', initialize outcome' g' = (Resolved, g')).
Proof.
  intros Hinit Htrace Hcalls Hj [Hfails Hworks].
  assert (Hidem : forall g' : Generator,
            isInitialized g' = true -> forall outcome', initialize outcome' g' = (Resolved, g')).
  { intros g' Hi outcome'. unfold initialize. by rewrite Hi. }
  unfold initialize. rewrite Hinit.
  destruct (device (config g)) eqn:Hdev.
  - destruct (retryLoop_wasm_works j (S (maxRetries (config g))) 0 g n)
      as (g' & s & Hrun & Hi & Hp & Hd & Hc & Hcalls' & Htr & Hpc & Hdel).
    + exact Hdev.
    + lia.
    + lia.
    + intros i Hi k. rewrite Hcalls. simpl.
      specialize (Hfails i Hi k). by destruct i.
    + rewrite Hcalls. simpl. by destruct j.
    + exists g'. split; [exact Hrun|]. split; [exact Hi|]. split; [exact Hp|].
      split; [exact Hd|]. split; [rewrite Hcalls', Hcalls; reflexivity|].
      rewrite Htr, Htrace, app_nil_l.
      split; [rewrite Hpc; reflexivity|].
      split.
      { rewrite Hdel. unfold wasmDelays. f_equal. }
      split; [rewrite Hc, Hdev; by destruct j|]. by apply Hidem.
  - destruct (maxRetries (config g)) as [|m] eqn:Hmax; [lia|].
    cbn [retryLoop]. rewrite Hmax.
    replace (0 <? S m)%nat with true by reflexivity.
    unfold tryLoad. rewrite Hdev, Hcalls.
    destruct j as [|j].
    + simpl in Hworks. rewrite Hworks.
      eexists. split; [reflexivity|].
      cbn [isInitialized pipelineSet dims config calls trace]. rewrite Htrace, Hdev.
      repeat split; reflexivity.
    + pose proof (Hfails 0%nat ltac:(lia)) as Hfirst. simpl in Hfirst.
      assert (Hfailed : forall ps,
        let g1 := mkGenerator ps (config g) (dims g) (isInitialized g) 1
                              (trace g ++ [CallPipeline webgpu]) in
        exists g',
          (if device_eqb (device (config g1)) webgpu && (1 =? 1)%nat
           then retryLoop outcome (S m) 1 (set_device wasm (emit (Warn 1) g1))
           else if (1 <? maxRetries (config g1))%nat
                then retryLoop outcome (S m) 1
                       (emit (Sleep (retryDelay (config g1) * 2 ^ Z.of_nat (1 - 1)))
                             (emit (Warn 1) g1))
                else retryLoop outcome (S m) 1 g1) = (Resolved, g')
          /\ isInitialized g' = true /\ pipelineSet g' = true
          /\ dims g' = n
          /\ calls g' = S (S j)
          /\ pipelineCalls (trace g') = webgpu :: replicate (S j) wasm
          /\ delaysBeforeCalls 0 (trace g')
             = 0 :: map (delayBeforeRetry webgpu (retryDelay (config g))) (seq 1 (S j))
          /\ device (config g') = deviceOfCall webgpu (S j)
          /\ (forall outcome', initialize outcome' g' = (Resolved, g'))).
      { intros ps g1. assert (Hdev1 : device (config g1) = webgpu) by exact Hdev.
        rewrite Hdev1. cbn [device_eqb andb Nat.eqb].
        set (g2 := set_device wasm (emit (Warn 1) g1)).
        destruct (retryLoop_wasm_works j (S m) 1 g2 n)
          as (g' & s & Hrun & Hi & Hp & Hd & Hc & Hcalls' & Htr & Hpc & Hdel).
        - reflexivity.
        - simpl. rewrite Hmax. lia.
        - lia.
        - intros i Hi k. simpl. apply (Hfails (S i)). lia.
        - simpl. exact Hworks.
        - exists g'. split; [exact Hrun|]. split; [exact Hi|]. split; [exact Hp|].
          split; [exact Hd|]. split; [rewrite Hcalls'; reflexivity|].
          rewrite Htr. simpl trace. rewrite Htrace. cbn [app].
          split.
          { change (pipelineCalls (CallPipeline webgpu :: Warn 1 :: s))
              with (webgpu :: pipelineCalls s). by rewrite Hpc. }
          split.
          { cbn [delaysBeforeCalls]. rewrite Hdel.
            change (retryDelay (config g2)) with (retryDelay (config g)).
            unfold wasmDelays. cbn [seq map]. f_equal. f_equal.
            apply map_ext_in. intros k Hk. apply in_seq in Hk.
            unfold delayBeforeRetry. simpl. destruct k as [|[|k]]; try lia. reflexivity. }
          split; [rewrite Hc; reflexivity|]. by apply Hidem. }
      destruct (outcome 0%nat webgpu) as [| |k].
      * apply Hfailed.
      * apply Hfailed.
      * by destruct (Hfirst k).
Qed.

End EmbeddingRuns.

Section EmbeddingUse.
Import TransformersEmbedding Embedding.

Variable pipeline : string -> Attempted PipelineOutput.

Lemma embedEach_run g texts : forall embeddings,
  match embedEach pipeline g texts embeddings with
  | Returns all =>
      exists new,
        all = embeddings ++ new
        /\ Forall2 (fun text v => generateEmbedding pipeline g text = Returns v) texts new
  | ThrowsError m =>
      exists before text after new,
        texts = before ++ text :: after
        /\ Forall2 (fun text v => generateEmbedding pipeline g text = Returns v) before new
        /\ generateEmbedding pipeline g text = ThrowsError m
  end.
Proof.
  induction texts as [|text rest IH]; intros embeddings.
  - simpl. exists []. by rewrite app_nil_r.
  - simpl. destruct (generateEmbedding pipeline g text) as [v|m] eqn:Hgen.
    + specialize (IH (embeddings ++ [v])).
      destruct (embedEach pipeline g rest (embeddings ++ [v])) as [all|m].
      * destruct IH as (new & -> & Hall). exists (v :: new).
        split; [by rewrite <- app_assoc|]. by constructor.
      * destruct IH as (before & t & after & new & -> & Hall & Hfail).
        exists (text :: before), t, after, (v :: new).
        split; [reflexivity|]. split; [by constructor | exact Hfail].
    + exists [], text, rest, []. split; [reflexivity|]. split; [constructor | exact Hgen].
Qed.

(** X15.  [embedBatch] is [embed], text by text.  On an initialized
    generator, when [embedBatch] returns, it returns for every text, in
    order, what [embed] returns for it (and nothing for no text); when it
    throws, every text before some text has an embedding and [embed] of
    that text throws the same error.  On a generator that is not
    initialized it throws the not-initialized error even for no text. *)
Theorem embedBatch_embeds_each_text (g : Generator) (texts : list string) :
  (isInitialized g = true ->
   match embedBatch pipeline g texts with
   | Returns embeddings =>
       Forall2 (fun text v => embed pipeline g text = Returns v) texts embeddings
   | ThrowsError m =>
       exists before text after embeddings,
         texts = before ++ text :: after
         /\ Forall2 (fun text v => embed pipeline g text = Returns v) before embeddings
         /\ embed pipeline g text = ThrowsError m
   end)
  /\ (isInitialized g = false -> embedBatch pipeline g texts = ThrowsError notInitialized).
Proof.
  split; intros Hinit; unfold embedBatch; rewrite Hinit; [|reflexivity]. cbn [negb].
  assert (Hembed : forall text, embed pipeline g text = generateEmbedding pipeline g text).
  { intros text. unfold embed. by rewrite Hinit. }
  destruct texts as [|text rest]; [constructor|].
  pose proof (embedEach_run g (text :: rest) []) as Hrun.
  destruct (embedEach pipeline g (text :: rest) []) as [all|m].
  - destruct Hrun as (new & -> & Hall). simpl.
    eapply Forall2_impl; [exact Hall|]. intros t v Hgen. by rewrite Hembed.
  - destruct Hrun as (before & t & after & new & Htexts & Hall & Hfail).
    exists before, t, after, new. split; [exact Htexts|].
    split; [|by rewrite Hembed].
    eapply Forall2_impl; [exact Hall|]. intros t' v Hgen. by rewrite Hembed.
Qed.

End EmbeddingUse.

Section EmbeddingLives.
Import TransformersEmbedding Embedding.

(** What holds of a generator at every point of its life. *)
Lemma retryLoop_state outcome fuel : forall attempt g,
  (isInitialized g = true -> pipelineSet g = true) ->
  (isInitialized g = false -> dims g = 0%nat) ->
  (isInitialized (retryLoop outcome fuel attempt g).2 = true ->
   pipelineSet (retryLoop outcome fuel attempt g).2 = true)
  /\ (isInitialized (retryLoop outcome fuel attempt g).2 = false ->
      dims (retryLoop outcome fuel attempt g).2 = 0%nat).
Proof.
  induction fuel as [|fuel IH]; intros attempt g Hp Hd; [by split|].
  cbn [retryLoop].
  destruct (attempt <? maxRetries (config g))%nat; [|by split].
  unfold tryLoad.
  destruct (outcome (calls g) (device (config g))) as [| |n].
  - cbn [config pipelineSet dims isInitialized calls trace].
    destruct (device_eqb (device (config g)) webgpu && (S attempt =? 1)%nat);
      [|destruct (S attempt <? maxRetries (config g))%nat]; apply IH; assumption.
  - cbn [config pipelineSet dims isInitialized calls trace].
    destruct (device_eqb (device (config g)) webgpu && (S attempt =? 1)%nat);
      [|destruct (S attempt <? maxRetries (config g))%nat]; apply IH; auto.
  - simpl. by split.
Qed.

(** X16.  A generator never reports a stale state.  However it was
    constructed and whatever sequence of [initialize] (succeeding or
    failing, on any device) and [dispose] it went through: when it is
    initialized a pipeline is loaded, so that [embed] calls it and never
    fails for want of one; when it is not initialized its dimension is 0
    and [getDimensions], [embed] and [embedBatch] (even of no text) throw
    the not-initialized error; and right after [dispose] it is not
    initialized. *)
Theorem generator_state_is_never_stale (g : Generator) :
  lives g ->
  (isInitialized g = true ->
   pipelineSet g = true
   /\ getDimensions g = Returns (dims g)
   /\ forall pipeline text,
        embed pipeline g text <> ThrowsError "Pipeline not initialized")
  /\ (isInitialized g = false ->
      dims g = 0%nat
      /\ getDimensions g = ThrowsError notInitialized
      /\ forall pipeline text texts,
           embed pipeline g text = ThrowsError notInitialized
           /\ embedBatch pipeline g texts = ThrowsError notInitialized)
  /\ isInitialized (dispose g) = false.
Proof.
  intros Hlives.
  assert (Hstate : (isInitialized g = true -> pipelineSet g = true)
                   /\ (isInitialized g = false -> dims g = 0%nat)).
  { induction Hlives as [c|outcome g Hlives [Hp Hd]|g Hlives _].
    - by split.
    - unfold initialize. destruct (isInitialized g) eqn:Hinit.
      + simpl. split; [intros _; by apply Hp | congruence].
      + apply retryLoop_state; [congruence | intros _; by apply Hd].
    - split; [discriminate | reflexivity]. }
  destruct Hstate as [Hp Hd]. split; [|split; [|reflexivity]].
  - intros Hinit. split; [by apply Hp|].
    split; [unfold getDimensions; by rewrite Hinit|].
    intros pipeline text. unfold embed, generateEmbedding. rewrite Hinit, (Hp Hinit).
    cbn [negb]. destruct (pipeline text) as [output|m]; [|discriminate].
    destruct (extractEmbedding output); discriminate.
  - intros Hinit. split; [by apply Hd|].
    split; [unfold getDimensions; by rewrite Hinit|].
    intros pipeline text texts. unfold embed, embedBatch. by rewrite Hinit.
Qed.

End EmbeddingLives.

Section EmbeddingBudget.
Import TransformersEmbedding Embedding.

Variable outcome : nat -> Device -> Attempt.

Lemma retryLoop_outcome fuel : forall attempt g,
  isInitialized g = false ->
  match retryLoop outcome fuel attempt g with
  | (Resolved, g') => isInitialized g' = true
  | (Rejected n, g') => n = maxRetries (config g) /\ isInitialized g' = false
  | (OutOfFuel, _) => True
  end.
Proof.
  induction fuel as [|fuel IH]; intros attempt g Hinit; [exact I|].
  cbn [retryLoop].
  destruct (attempt <? maxRetries (config g))%nat; [|by split].
  unfold tryLoad.
  destruct (outcome (calls g) (device (config g))) as [| |n];
    cbn [config pipelineSet dims isInitialized calls trace]; [| |reflexivity].
  - destruct (device_eqb (device (config g)) webgpu && (S attempt =? 1)%nat);
      [|destruct (S attempt <? maxRetries (config g))%nat];
      match goal with
      | |- context [retryLoop outcome fuel (S attempt) ?g1] =>
          apply (IH (S attempt) g1); exact Hinit
      end.
  - destruct (device_eqb (device (config g)) webgpu && (S attempt =? 1)%nat);
      [|destruct (S attempt <? maxRetries (config g))%nat];
      match goal with
      | |- context [retryLoop outcome fuel (S attempt) ?g1] =>
          apply (IH (S attempt) g1); exact Hinit
      end.
Qed.

(** X17.  [initialize] always ends within its budget.  On a new
    generator, whatever the attempts give: [initialize] either resolves,
    and then the generator is initialized, or rejects with the error that
    names [maxRetries] attempts, and then it is not; it never calls
    [pipeline] more than [maxRetries] times; the calls it makes are the
    first ones of the schedule (the configured device, then wasm), and
    before each of them it has slept what the schedule says (nothing
    before the first call and before the fall-back from webgpu, otherwise
    [retryDelay * 2 ^ (k - 1)] before retry [k]). *)
Theorem initialize_ends_within_its_budget (g : Generator) :
  isInitialized g = false ->
  trace g = [] ->
  exists o g',
    initialize outcome g = (o, g')
    /\ ((o = Resolved /\ isInitialized g' = true)
        \/ (o = Rejected (maxRetries (config g)) /\ isInitialized g' = false))
    /\ (length (pipelineCalls (trace g')) <= maxRetries (config g))%nat
    /\ pipelineCalls (trace g') `prefix_of`
         failingCalls (device (config g)) (maxRetries (config g))
    /\ delaysBeforeCalls 0 (trace g') `prefix_of`
         failingDelays (device (config g)) (retryDelay (config g)) (maxRetries (config g))
    /\ length (delaysBeforeCalls 0 (trace g')) = length (pipelineCalls (trace g')).
Proof.
  intros Hinit Htrace.
  destruct (initialize_trace outcome g Hinit Htrace)
    as (o & g' & Hrun & Hfuel & Hcalls & Hdelays & Hlen & _).
  exists o, g'. split; [exact Hrun|].
  split.
  { unfold initialize in Hrun. rewrite Hinit in Hrun.
    pose proof (retryLoop_outcome (S (maxRetries (config g))) 0 g Hinit) as Hout.
    rewrite Hrun in Hout. destruct o as [|n|]; [by left| |by destruct Hfuel].
    destruct Hout as [-> Hi]. by right. }
  split.
  { apply prefix_length in Hcalls. by rewrite failingCalls_length in Hcalls. }
  auto.
Qed.

End EmbeddingBudget.

Section EmbeddingSamples.
Import TransformersEmbedding Embedding.

(** A generator for webgpu with the default three attempts whose first
    two loads fail and whose third gives 384 dimensions. *)
Lemma initialize_resolves_at_first_working_attempt_witness :
  exists g',
    initialize (fun n _ => if (n <? 2)%nat then LoadFails else Works 384)
      (new (mkUserConfig "Xenova/all-MiniLM-L6-v2" (Some webgpu) None None None None))
    = (Resolved, g')
    /\ isInitialized g' = true /\ pipelineSet g' = true
    /\ dims g' = 384%nat
    /\ calls g' = 3%nat
    /\ pipelineCalls (trace g') = [webgpu; wasm; wasm]
    /\ delaysBeforeCalls 0 (trace g') = [0; 0; 2000]
    /\ device (config g') = wasm.
Proof.
  destruct (initialize_resolves_at_first_working_attempt
              (fun n _ => if (n <? 2)%nat then LoadFails else Works 384)
              (new (mkUserConfig "Xenova/all-MiniLM-L6-v2" (Some webgpu) None None None None))
              2 384)
    as (g' & Hrun & Hi & Hp & Hd & Hc & Hcalls & Hdelays & Hdev & _).
  - reflexivity.
  - reflexivity.
  - reflexivity.
  - simpl. lia.
  - split; [|reflexivity]. intros i Hi k. destruct i as [|[|i]]; [discriminate..|lia].
  - exists g'. repeat split; assumption.
Defined.

(** Two texts, and two texts around the empty one, on a generator that
    resolved at its first attempt. *)
Lemma embedBatch_embeds_each_text_witness :
  isInitialized (initialize (fun _ _ => Works 3) (new (mkUserConfig "m" None None None None None))).2
  = true
  /\ embedBatch samplePipeline
       (initialize (fun _ _ => Works 3) (new (mkUserConfig "m" None None None None None))).2
       ["ab"; "abc"] = Returns [[0; 1; 2]; [0; 1; 3]]
  /\ match embedBatch samplePipeline
            (initialize (fun _ _ => Works 3)
               (new (mkUserConfig "m" None None None None None))).2 ["ab"; ""; "abc"] with
     | Returns embeddings =>
         Forall2 (fun text v =>
                    embed samplePipeline
                      (initialize (fun _ _ => Works 3)
                         (new (mkUserConfig "m" None None None None None))).2 text
                    = Returns v) ["ab"; ""; "abc"] embeddings
     | ThrowsError m =>
         exists before text after embeddings,
           ["ab"; ""; "abc"] = before ++ text :: after
           /\ Forall2 (fun text v =>
                         embed samplePipeline
                           (initialize (fun _ _ => Works 3)
                              (new (mkUserConfig "m" None None None None None))).2 text
                         = Returns v) before embeddings
           /\ embed samplePipeline
                (initialize (fun _ _ => Works 3)
                   (new (mkUserConfig "m" None None None None None))).2 text
              = ThrowsError m
     end.
Proof.
  split; [reflexivity|]. split; [reflexivity|].
  apply (proj1 (embedBatch_embeds_each_text samplePipeline
                  (initialize (fun _ _ => Works 3)
                     (new (mkUserConfig "m" None None None None None))).2
                  ["ab"; ""; "abc"])).
  reflexivity.
Defined.

(** A generator that was initialized, disposed, and failed to initialize
    again. *)
Lemma generator_state_is_never_stale_witness :
  lives (initialize (fun _ _ => TestEmbeddingFails)
           (dispose (initialize (fun _ _ => Works 3)
                       (new (mkUserConfig "m" None None None None None))).2)).2
  /\ getDimensions
       (initialize (fun _ _ => TestEmbeddingFails)
          (dispose (initialize (fun _ _ => Works 3)
                      (new (mkUserConfig "m" None None None None None))).2)).2
     = ThrowsError notInitialized.
Proof.
  assert (Hlives :
    lives (initialize (fun _ _ => TestEmbeddingFails)
             (dispose (initialize (fun _ _ => Works 3)
                         (new (mkUserConfig "m" None None None None None))).2)).2).
  { apply lives_initialize, lives_dispose, lives_initialize, lives_new. }
  split; [exact Hlives|].
  apply (proj1 (proj2 (generator_state_is_never_stale _ Hlives))).
  reflexivity.
Defined.

End EmbeddingSamples.

(** A generator for webgpu allowed two attempts, the second of which
    works. *)
Lemma initialize_ends_within_its_budget_witness :
  exists o g',
    TransformersEmbedding.initialize
      (fun n _ => if (n <? 1)%nat then TransformersEmbedding.LoadFails
                  else TransformersEmbedding.Works 384)
      (TransformersEmbedding.new
         (TransformersEmbedding.mkUserConfig "m" (Some TransformersEmbedding.webgpu)
            None None (Some 2%nat) None))
    = (o, g')
    /\ ((o = TransformersEmbedding.Resolved
         /\ TransformersEmbedding.isInitialized g' = true)
        \/ (o = TransformersEmbedding.Rejected 2
            /\ TransformersEmbedding.isInitialized g' = false))
    /\ (length (TransformersEmbedding.pipelineCalls (TransformersEmbedding.trace g')) <= 2)%nat.
Proof.
  destruct (initialize_ends_within_its_budget
              (fun n _ => if (n <? 1)%nat then TransformersEmbedding.LoadFails
                          else TransformersEmbedding.Works 384)
              (TransformersEmbedding.new
                 (TransformersEmbedding.mkUserConfig "m" (Some TransformersEmbedding.webgpu)
                    None None (Some 2%nat) None)))
    as (o & g' & Hrun & Hend & Hcalls & _).
  - reflexivity.
  - reflexivity.
  - exists o, g'. split; [exact Hrun|]. split; [exact Hend | exact Hcalls].
Defined.

(* --------------------------------------------------------------------- *)
(** ** Update and the vector cache; insert and delete *)
(* --------------------------------------------------------------------- *)

Section UpdateAndCache.

Variable W : World.
Variable cfg : Config.

Lemma prepareVector_vectorCache data db :
  vectorCache (VectorDB.prepareVector W cfg data db).2 = vectorCache db.
Proof.
  pose proof (prepareVector_frame W cfg data db) as Hframe.
  unfold embeddingStateOf in Hframe. rewrite Hframe. by destruct db.
Qed.

(** X18.  [update] does not refresh the vector cache.  Whatever it is
    called with and however it ends, the vector cache is what it was.  So
    when the cache holds the record of an id and [update] replaces its
    vector, Storage has the new vector while the read path that [search]
    uses to attach vectors to results still delivers the old record. *)
Theorem update_leaves_the_vector_cache_stale
    (id : string) (data : InsertData) (db : DB) :
  vectorCache (VectorDB.update W cfg id data db).2 = vectorCache db
  /\ (forall old v,
        initialized db = true ->
        (vc_get id (vectorCache db)).1 = Some old ->
        d_vector data = Some v ->
        (VectorDB.update W cfg id data db).1 = Ok true ->
        (exists updated,
           storage (VectorDB.update W cfg id data db).2 !! id = Some updated
           /\ rec_vector updated = v)
        /\ (VectorDB.getVector W cfg id (VectorDB.update W cfg id data db).2).1
           = Ok (Some old)).
Proof.
  assert (Hcache : vectorCache (VectorDB.update W cfg id data db).2 = vectorCache db).
  { destruct (initialized db) eqn:Hinit.
    2:{ by rewrite (not_initialized_update W cfg id data db Hinit). }
    rewrite (update_run W cfg id data db Hinit).
    destruct (storage db !! id) as [existing|]; [|reflexivity].
    destruct (VectorDB.sanitizedUpdate W data) as [sanitized|e].
    2:{ unfold rethrowOrWrap, throw. by destruct (instanceofVectorDBError e). }
    assert (Hvec : exists r db1,
      (if VectorDB.regenerates data then VectorDB.prepareVector W cfg data db
       else (Ok (rec_vector existing), db)) = (r, db1)
      /\ vectorCache db1 = vectorCache db).
    { destruct (VectorDB.regenerates data).
      - pose proof (prepareVector_vectorCache data db) as Hvc.
        destruct (VectorDB.prepareVector W cfg data db) as [r db1].
        eexists _, _. split; [reflexivity | exact Hvc].
      - eexists _, _. split; reflexivity. }
    destruct Hvec as (r & db1 & -> & Hvc).
    destruct r as [vector|e].
    2:{ unfold rethrowOrWrap, throw. by destruct (instanceofVectorDBError e). }
    cbv zeta. by destruct (hasDimension (dimensions cfg) vector). }
  split; [exact Hcache|].
  intros old v Hinit Hold Hv Htrue. split.
  - rewrite (update_run W cfg id data db Hinit) in Htrue |- *.
    destruct (storage db !! id) as [existing|]; [|discriminate].
    destruct (VectorDB.sanitizedUpdate W data) as [sanitized|e].
    2:{ unfold rethrowOrWrap, throw in Htrue.
        by destruct (instanceofVectorDBError e). }
    assert (Hreg : VectorDB.regenerates data = true).
    { unfold VectorDB.regenerates. by rewrite Hv. }
    rewrite Hreg in Htrue |- *.
    rewrite (prepareVector_provided W cfg data v db Hv) in Htrue |- *.
    destruct (hasDimension (dimensions cfg) v) eqn:Hdim.
    2:{ unfold rethrowOrWrap, throw in Htrue. simpl in Htrue. discriminate. }
    cbv zeta. rewrite Hdim. cbn [snd storage set_index set_storage].
    unfold storage_put. cbn [rec_id VectorDB.updatedRecord].
    rewrite lookup_insert_eq. eexists. split; reflexivity.
  - unfold VectorDB.getVector. rewrite Hcache.
    destruct (vc_get id (vectorCache db)) as [[hit|] c]; simpl in Hold; [|discriminate].
    by injection Hold as ->.
Qed.

(** X19.  An insert undone by a delete.  When [insert] has returned an id
    that was not stored before, [delete] of that id returns true and
    Storage and the index are again what they were before the insert; the
    vector cache no longer has the id. *)
Theorem delete_undoes_insert (data : InsertData) (db db1 : DB) (id : string) :
  initialized db = true ->
  VectorDB.insert W cfg data db = (Ok id, db1) ->
  storage db !! id = None ->
  index db !! id = None ->
  exists db2,
    VectorDB.delete cfg id db1 = (Ok true, db2)
    /\ storage db2 = storage db
    /\ index db2 = index db
    /\ vc_has id (vectorCache db2) = false.
Proof.
  intros Hinit Hinsert Hs Hi.
  rewrite (insert_run W cfg data db Hinit) in Hinsert.
  destruct (sanitize W (d_metadata data)) as [sanitized|e].
  2:{ unfold rethrowOrWrap, throw in Hinsert. by destruct (instanceofVectorDBError e). }
  pose proof (prepareVector_frame W cfg data db) as Hframe.
  destruct (VectorDB.prepareVector W cfg data db) as [[vector|e] db0];
    simpl in Hframe;
    apply embeddingStateOf_storage in Hframe as (Hs0 & Hi0 & _ & _ & _ & Hinit0 & _).
  2:{ unfold rethrowOrWrap, throw in Hinsert. by destruct (instanceofVectorDBError e). }
  cbv zeta in Hinsert.
  destruct (hasDimension (dimensions cfg) vector); [|discriminate].
  injection Hinsert as <- <-.
  match goal with
  | |- context [VectorDB.delete cfg ?i ?d] =>
      assert (Hinit1 : initialized d = true) by (simpl; congruence);
      rewrite (delete_run cfg i d Hinit1)
  end.
  cbn [storage set_index set_vectorCache set_storage]. unfold storage_put.
  cbn [rec_id VectorDB.newRecord]. rewrite lookup_insert_eq.
  eexists. split; [reflexivity|].
  cbn [storage index vectorCache set_index set_vectorCache set_storage].
  rewrite Hs0, Hi0.
  split; [by apply delete_insert_id|].
  split; [by apply delete_insert_id|].
  apply vc_delete_gone.
Qed.

End UpdateAndCache.

(** The record of the one insert gets the vector [0; 1; 0]: Storage has
    it, the read path of [search] still gives [1; 0; 0]. *)
Lemma update_leaves_the_vector_cache_stale_witness :
  vectorCache (VectorDB.update Demo.world Demo.config "1700000000000-r0"
                 (Demo.byVector [0; 1; 0] ∅) Samples.oneRecord).2
  = vectorCache Samples.oneRecord
  /\ (exists updated,
        storage (VectorDB.update Demo.world Demo.config "1700000000000-r0"
                   (Demo.byVector [0; 1; 0] ∅) Samples.oneRecord).2
          !! "1700000000000-r0" = Some updated
        /\ rec_vector updated = [0; 1; 0])
  /\ exists old,
       (VectorDB.getVector Demo.world Demo.config "1700000000000-r0"
          (VectorDB.update Demo.world Demo.config "1700000000000-r0"
             (Demo.byVector [0; 1; 0] ∅) Samples.oneRecord).2).1 = Ok (Some old)
       /\ rec_vector old = [1; 0; 0].
Proof.
  destruct (update_leaves_the_vector_cache_stale Demo.world Demo.config
              "1700000000000-r0" (Demo.byVector [0; 1; 0] ∅) Samples.oneRecord)
    as [Hcache Hstale].
  split; [exact Hcache|].
  destruct (Hstale
              (mkRecord "1700000000000-r0" [1; 0; 0]
                 (VectorDB.withSystemFields ∅ JUndefined 1700000000001) 1700000000002)
              [0; 1; 0])
    as [Hupdated Hread].
  - vm_compute. reflexivity.
  - vm_compute. reflexivity.
  - reflexivity.
  - vm_compute. reflexivity.
  - split; [exact Hupdated|]. eexists. split; [exact Hread | reflexivity].
Defined.

(** An insert into the database of three records, undone. *)
Lemma delete_undoes_insert_witness :
  initialized Demo.threeRecords = true
  /\ exists id db1 db2,
       VectorDB.insert Demo.world Demo.config (Demo.byVector [0; 0; 1] ∅) Demo.threeRecords
         = (Ok id, db1)
       /\ VectorDB.delete Demo.config id db1 = (Ok true, db2)
       /\ storage db2 = storage Demo.threeRecords
       /\ index db2 = index Demo.threeRecords.
Proof.
  split; [vm_compute; reflexivity|].
  assert (Hid : (VectorDB.insert Demo.world Demo.config (Demo.byVector [0; 0; 1] ∅)
                   Demo.threeRecords).1 = Ok "1700000000009-r3")
    by (vm_compute; reflexivity).
  destruct (VectorDB.insert Demo.world Demo.config (Demo.byVector [0; 0; 1] ∅)
              Demo.threeRecords) as [r db1] eqn:Hinsert.
  cbn [fst] in Hid. rewrite Hid in Hinsert.
  destruct (delete_undoes_insert Demo.world Demo.config (Demo.byVector [0; 0; 1] ∅)
              Demo.threeRecords db1 "1700000000009-r3")
    as (db2 & Hdelete & Hs & Hi & _).
  - vm_compute. reflexivity.
  - exact Hinsert.
  - vm_compute. reflexivity.
  - vm_compute. reflexivity.
  - exists "1700000000009-r3", db1, db2. rewrite Hid.
    split; [reflexivity|]. split; [exact Hdelete|]. split; [exact Hs | exact Hi].
Defined.

(* --------------------------------------------------------------------- *)
(** ** A batch and its items one by one *)
(* --------------------------------------------------------------------- *)

Section BatchAndEach.

Variable W : World.
Variable cfg : Config.

(** Preparing a vector neither reads nor writes Storage or the index. *)
Lemma prepareVector_independent data (s : Storage) (ix : AnnIndex) db :
  VectorDB.prepareVector W cfg data (set_index ix (set_storage s db))
  = ((VectorDB.prepareVector W cfg data db).1,
     set_index ix (set_storage s (VectorDB.prepareVector W cfg data db).2)).
Proof.
  unfold VectorDB.prepareVector.
  destruct (d_vector data) as [v|].
  { unfold_M. by destruct (validateVector v (dimensions cfg)) as [[]|e]. }
  destruct (truthy (d_text data)); [|reflexivity].
  unfold VectorDB.getCachedEmbedding, VectorDB.ensureModelsLoaded,
         VectorDB.cacheEmbedding. unfold_M.
  destruct db as [i s0 ix0 vc ec ml t r w]. simpl.
  destruct (ec_get _ ec) as [[hit|] c]; simpl; [reflexivity|].
  destruct ml; simpl.
  - destruct (generatorEmbed W _) as [vector|e]; simpl; [|reflexivity].
    by destruct (validateVector vector (dimensions cfg)) as [[]|e].
  - destruct (generatorLoads W); simpl; [|reflexivity].
    destruct (generatorDimensions W =? dimensions cfg)%nat; simpl; [|reflexivity].
    destruct (generatorEmbed W _) as [vector|e]; simpl; [|reflexivity].
    by destruct (validateVector vector (dimensions cfg)) as [[]|e].
Qed.

Lemma insertEach_prepared data db records db1 :
  VectorDB.prepared W cfg data db records db1 ->
  initialized db = true ->
  Forall (fun r => hasDimension (dimensions cfg) (rec_vector r) = true) records ->
  forall (s : Storage) (ix : AnnIndex),
    Calls.insertEach W cfg data (set_index ix (set_storage s db))
    = (Ok (map rec_id records),
       set_index (foldl (fun acc r => <[rec_id r := r]> acc) ix records)
         (set_storage (storage_putBatch records s) db1)).
Proof.
  induction 1 as [db|item rest db sanitized vector db1 records db' Hsan Hvec Hprep IH];
    intros Hinit Hdims s ix.
  - reflexivity.
  - apply Forall_cons in Hdims as [Hdim Hdims].
    cbn [Calls.insertEach]. unfold bind at 1.
    rewrite (insert_run W cfg item (set_index ix (set_storage s db)) Hinit), Hsan.
    rewrite prepareVector_independent, Hvec. cbn [fst snd]. cbv zeta.
    cbn [rec_vector VectorDB.newRecord] in Hdim. rewrite Hdim.
    pose proof (prepareVector_frame W cfg item db) as Hframe.
    rewrite Hvec in Hframe. simpl in Hframe.
    apply embeddingStateOf_storage in Hframe as (_ & _ & _ & _ & _ & Hinit1 & _).
    unfold bind at 1.
    match goal with
    | |- context [Calls.insertEach W cfg rest ?d] =>
        replace d with
          (set_index (<[rec_id (VectorDB.newRecord W item sanitized vector db1)
                        := VectorDB.newRecord W item sanitized vector db1]> ix)
             (set_storage (storage_put (VectorDB.newRecord W item sanitized vector db1) s)
                (set_vectorCache
                   (vc_set (cacheBytes cfg) (VectorDB.newId W db1)
                      (VectorDB.newRecord W item sanitized vector db1)
                      (VectorDB.recordSize W (VectorDB.newRecord W item sanitized vector db1))
                      (vectorCache db1))
                   (VectorDB.afterNewRecord db1))))
          by (by destruct db1)
    end.
    rewrite IH; [|simpl; congruence|exact Hdims].
    reflexivity.
Qed.

(** X20.  A batch is its items one by one.  When [insertBatch] returns,
    inserting the same items one after the other with [insert], from the
    same database, returns the same ids and leaves the same database:
    Storage, index, both caches, clock and random source. *)
Theorem insertBatch_is_insert_of_each (data : list InsertData) (db db' : DB)
    (ids : list string) :
  initialized db = true ->
  VectorDB.insertBatch W cfg data db = (Ok ids, db') ->
  Calls.insertEach W cfg data db = (Ok ids, db').
Proof.
  intros Hinit Hbatch. destruct data as [|item rest].
  { unfold VectorDB.insertBatch, VectorDB.ensureInitialized in Hbatch.
    unfold_M. rewrite Hinit in Hbatch. by injection Hbatch as <- <-. }
  rewrite (insertBatch_run W cfg _ db Hinit) in Hbatch by done.
  destruct (VectorDB.prepareBatch W cfg (item :: rest) [] [] db)
    as [[[records ids0]|e] db1] eqn:Hrun.
  2:{ unfold rethrowOrWrap, throw in Hbatch. by destruct (instanceofVectorDBError e). }
  destruct (prepareBatch_frame W cfg _ _ _ _ _ _ Hrun) as (Hs & Hi & _).
  apply prepareBatch_ok in Hrun as (new & Hrec & Hids & Hprep).
  simpl in Hrec, Hids. subst new ids0.
  cbv zeta in Hbatch. unfold index_addBatch in Hbatch.
  destruct (forallb (fun r => hasDimension (dimensions cfg) (rec_vector r)) records)
    eqn:Hall.
  2:{ unfold rethrowOrWrap, throw in Hbatch. simpl in Hbatch. discriminate. }
  injection Hbatch as <- <-.
  assert (Hdims : Forall (fun r => hasDimension (dimensions cfg) (rec_vector r) = true)
                         records).
  { apply Forall_forall. intros r Hr. apply list_elem_of_In in Hr.
    by apply (proj1 (forallb_forall _ _) Hall). }
  pose proof (insertEach_prepared _ _ _ _ Hprep Hinit Hdims (storage db) (index db))
    as Heach.
  replace (set_index (index db) (set_storage (storage db) db)) with db in Heach
    by (by destruct db).
  rewrite Heach, Hs, Hi. reflexivity.
Qed.

End BatchAndEach.

(** The three records, inserted as a batch and one by one. *)
Lemma insertBatch_is_insert_of_each_witness :
  initialized Demo.emptyDB = true
  /\ Calls.insertEach Demo.world Demo.config
       [Demo.byVector [1; 0; 0] {["cat" := JStr "A"]};
        Demo.byVector [0; 1; 0] {["cat" := JStr "B"]};
        Demo.byText "hello"] Demo.emptyDB
     = (Ok ["1700000000000-r0"; "1700000000003-r1"; "1700000000006-r2"], Demo.threeRecords).
Proof.
  split; [reflexivity|].
  apply (insertBatch_is_insert_of_each Demo.world Demo.config
           [Demo.byVector [1; 0; 0] {["cat" := JStr "A"]};
            Demo.byVector [0; 1; 0] {["cat" := JStr "B"]};
            Demo.byText "hello"] Demo.emptyDB Demo.threeRecords).
  - reflexivity.
  - assert (Hids : (VectorDB.insertBatch Demo.world Demo.config
                      [Demo.byVector [1; 0; 0] {["cat" := JStr "A"]};
                       Demo.byVector [0; 1; 0] {["cat" := JStr "B"]};
                       Demo.byText "hello"] Demo.emptyDB).1
                   = Ok ["1700000000000-r0"; "1700000000003-r1"; "1700000000006-r2"])
      by (vm_compute; reflexivity).
    unfold Demo.threeRecords.
    destruct (VectorDB.insertBatch Demo.world Demo.config _ Demo.emptyDB) as [r d].
    cbn [fst snd] in Hids |- *. by rewrite Hids.
Defined.

(* ===================================================================== *)
(** * The life of an instance *)
(* ===================================================================== *)

Section InstanceLife.
Import Lifecycle.

Variable W : World.
Variable cfg : Config.
Variable startup : Startup.

Lemma start_run (i : Instance) :
  match start W cfg startup i with
  | (Ok _, i') =>
      initialized (db i') = true
      /\ storageHandle i' = true /\ indexManager i' = true /\ embeddingGenerator i' = true
      /\ storage (db i') = storage (db i)
  | (Throw _, i') =>
      initialized (db i') = initialized (db i) /\ storage (db i') = storage (db i)
  end.
Proof.
  unfold start.
  destruct (storageOpens startup) as [[]|e]; [|by split].
  destruct (optimizerStarts startup) as [[]|e]; [|by split].
  destruct (indexLoads startup) as [ix|e]; [|by split].
  cbv zeta. destruct (lazyLoadModels startup).
  - destruct (modelsLoaded _); simpl; by repeat split.
  - destruct (generatorLoads W); [|by split].
    destruct (negb (generatorDimensions W =? dimensions cfg)%nat); simpl; by repeat split.
Qed.

(** X21.  [initialize] succeeds or cleans up.  Called on an instance that
    is initialized it returns at once and changes nothing.  Otherwise it
    either returns, and then the instance is initialized and holds its
    store, index manager and embedding generator; or it throws INIT_ERROR
    and nothing else (a generator of another dimension is not reported as
    DimensionMismatch), and then the instance is not initialized and holds
    none of the three.  The stored records are untouched either way.  With
    [lazyLoadModels] the generator is neither loaded nor checked, so
    [initialize] succeeds whatever its dimension; without it, a generator
    of another dimension makes [initialize] fail. *)
Theorem initialize_succeeds_or_cleans_up (i : Instance) :
  (initialized (db i) = true -> initialize W cfg startup i = (Ok tt, i))
  /\ (initialized (db i) = false ->
      match initialize W cfg startup i with
      | (Ok _, i') =>
          initialized (db i') = true
          /\ storageHandle i' = true /\ indexManager i' = true
          /\ embeddingGenerator i' = true
          /\ storage (db i') = storage (db i)
      | (Throw e, i') =>
          e = VectorDBError INIT_ERROR
          /\ initialized (db i') = false
          /\ storageHandle i' = false /\ indexManager i' = false
          /\ embeddingGenerator i' = false
          /\ storage (db i') = storage (db i)
      end)
  /\ (initialized (db i) = false ->
      storageOpens startup = Ok tt -> optimizerStarts startup = Ok tt ->
      (exists ix, indexLoads startup = Ok ix) ->
      (lazyLoadModels startup = true -> modelsLoaded (db i) = false ->
       (initialize W cfg startup i).1 = Ok tt
       /\ modelsLoaded (db (initialize W cfg startup i).2) = false)
      /\ (lazyLoadModels startup = false ->
          generatorDimensions W <> dimensions cfg ->
          (initialize W cfg startup i).1 = Throw (VectorDBError INIT_ERROR))).
Proof.
  split; [|split].
  - intros Hinit. unfold initialize. by rewrite Hinit.
  - intros Hinit. unfold initialize. rewrite Hinit.
    pose proof (start_run i) as Hstart.
    destruct (start W cfg startup i) as [[[]|e] i']; [exact Hstart|].
    destruct Hstart as [Hi Hs]. simpl. repeat split; try reflexivity; congruence.
  - intros Hinit Hstorage Hoptimizer [ix Hindex]. unfold initialize, start.
    rewrite Hinit, Hstorage, Hoptimizer, Hindex. cbv zeta. split.
    + intros Hlazy Hloaded. rewrite Hlazy. simpl. rewrite Hloaded. by split.
    + intros Hlazy Hdims. rewrite Hlazy.
      destruct (generatorLoads W); [|reflexivity].
      by rewrite (proj2 (Nat.eqb_neq _ _) Hdims).
Qed.

End InstanceLife.

(** A database configured for four dimensions over a generator of three:
    without lazy loading [initialize] fails with INIT_ERROR, with it
    [initialize] succeeds. *)
Lemma initialize_succeeds_or_cleans_up_witness :
  initialized (Lifecycle.db (Lifecycle.constructed ∅)) = false
  /\ (Lifecycle.initialize Demo.world (mkConfig 4 dot (Some 2%nat) true 4096 16)
        (Lifecycle.mkStartup (Ok tt) (Ok tt) (Ok ∅) false) (Lifecycle.constructed ∅)).1
     = Throw (VectorDBError INIT_ERROR)
  /\ (Lifecycle.initialize Demo.world (mkConfig 4 dot (Some 2%nat) true 4096 16)
        (Lifecycle.mkStartup (Ok tt) (Ok tt) (Ok ∅) true) (Lifecycle.constructed ∅)).1
     = Ok tt.
Proof.
  split; [reflexivity|]. split.
  - apply (proj2 (proj2 (initialize_succeeds_or_cleans_up Demo.world
                           (mkConfig 4 dot (Some 2%nat) true 4096 16)
                           (Lifecycle.mkStartup (Ok tt) (Ok tt) (Ok ∅) false)
                           (Lifecycle.constructed ∅)))).
    + reflexivity.
    + reflexivity.
    + reflexivity.
    + by exists ∅.
    + reflexivity.
    + simpl. lia.
  - apply (proj2 (proj2 (initialize_succeeds_or_cleans_up Demo.world
                           (mkConfig 4 dot (Some 2%nat) true 4096 16)
                           (Lifecycle.mkStartup (Ok tt) (Ok tt) (Ok ∅) true)
                           (Lifecycle.constructed ∅)))).
    + reflexivity.
    + reflexivity.
    + reflexivity.
    + by exists ∅.
    + reflexivity.
    + reflexivity.
Defined.

(* ===================================================================== *)
(** * Properties of the retrieval pipeline *)
(* ===================================================================== *)

Section Truncation.
Import RAGPipelineManager.



(** The estimate for what [truncateContext] returns exceeds the limit by
    at most 11 tokens. *)
Lemma truncateContext_estimate (context : Text) (maxTokens : Z) :
  0 <= maxTokens ->
  estimateTokenCount (truncateContext context maxTokens) <= maxTokens + 11.
Proof.
  intros Hpos. unfold truncateContext, estimateTokenCount. cbv zeta.
  assert (Hnotice : length truncationNotice = 38%nat) by reflexivity.
  destruct (Z.of_nat (length context) <=? maxTokens * 4) eqn:Hshort.
  - apply Z.leb_le in Hshort. apply Z.div_le_upper_bound; lia.
  - apply Z.leb_gt in Hshort.
    destruct (4 * (maxTokens * 4) <? 5 * _).
    + rewrite length_app, !length_take, Hnotice. apply Z.div_le_upper_bound; lia.
    + rewrite !length_app, length_take, Hnotice.
      change (length (text "...")) with 3%nat.
      apply Z.div_le_upper_bound; lia.
Qed.


End Truncation.


Section Querying.
Import RAGPipelineManager.

Variable W : World.
Variable cfg : Config.
Variable embed : Text -> Result Vector.
Variable generate : Text -> Result Text.
Variable applyTemplate : Text -> SearchResult -> nat -> Text.
Variable manager : Manager.

(** [retrieve] searches by vector and without vectors in the results: it
    changes nothing, and what it returns does not depend on the clock. *)
Lemma retrieve_run (q : Text) (options : RAGOptions) (db : DB) (n : nat) :
  retrieve W cfg embed q options (set_ticks n db)
  = (match embed q with
     | Ok v =>
         (VectorDB.search W cfg
            (mkQuery (Some v) None (topKOr5 options) (filter options) false) db).1
     | Throw e => Throw e
     end,
     set_ticks n db).
Proof.
  unfold retrieve. unfold bind at 1. unfold liftResult at 1.
  destruct (embed q) as [v|e]; [|reflexivity].
  destruct (initialized db) eqn:Hinit.
  - rewrite (search_by_vector_run W cfg
               (mkQuery (Some v) None (topKOr5 options) (filter options) false)
               v (set_ticks n db) Hinit eq_refl).
    rewrite (search_by_vector_run W cfg
               (mkQuery (Some v) None (topKOr5 options) (filter options) false)
               v db Hinit eq_refl).
    cbn [q_k q_filter q_includeVectors index set_ticks].
    destruct (validateSearchQuery W (topKOr5 options)) as [[]|e].
    2:{ unfold rethrowOrWrap, throw. by destruct (instanceofVectorDBError e). }
    by destruct (index_search _ _ _ _ _ _ _).
  - assert (Hguard : forall d, initialized d = false ->
              VectorDB.search W cfg
                (mkQuery (Some v) None (topKOr5 options) (filter options) false) d
              = (Throw (VectorDBError NOT_INITIALIZED), d)).
    { intros d Hd. unfold VectorDB.search, VectorDB.ensureInitialized.
      unfold bind at 1. by rewrite Hd. }
    rewrite (Hguard db Hinit), (Hguard (set_ticks n db) Hinit). reflexivity.
Qed.

(** X23.  A RAG query reads and never writes.  However [query] ends, the
    database is what it was but for the clock: neither Storage nor the
    index nor a cache changes.  When it answers: the query was embedded and
    searched by vector for [topK] results, or for 5 when [topK] is missing
    or 0; the sources are what the search returned, or none when
    [includeSourcesInResponse] is false; the answer is what the model
    generates for the prompt built from the formatted and truncated
    context, which is the no-information text when nothing was found;
    [tokensGenerated] is the estimate for the answer; and the reported
    [contextLength] can exceed the limit, by at most 11. *)
Theorem query_reads_and_never_writes (q : Text) (options : RAGOptions) (db : DB) :
  exists outcome n,
    query W cfg embed generate applyTemplate manager q options db
    = (outcome, set_ticks n db)
    /\ match outcome with
     | Answered result =>
         exists v found,
           embed q = Ok v
           /\ topKOr5 options <> 0%nat
           /\ (topKOr5 options = 5%nat \/ topK options = Some (topKOr5 options))
           /\ (VectorDB.search W cfg
                 (mkQuery (Some v) None (topKOr5 options) (filter options) false) db).1
              = Ok found
           /\ sources result
              = match includeSourcesInResponse options with
                | Some false => []
                | _ => found
                end
           /\ generate
                (buildPrompt q
                   (truncateContext (formatContext applyTemplate manager found options)
                                    (maxTokensOf manager options)))
              = Ok (answer result)
           /\ (found = [] ->
               formatContext applyTemplate manager found options
               = text "No relevant information found.")
           /\ tokensGenerated result = estimateTokenCount (answer result)
           /\ (0 <= maxTokensOf manager options ->
               contextLength result <= maxTokensOf manager options + 11)
     | RAG_QUERY_ERROR error => True
     end.
Proof.
  unfold query, answerQuery. unfold bind at 1. unfold VectorDB.now at 1.
  unfold bind at 1. rewrite retrieve_run.
  destruct (embed q) as [v|e] eqn:Hembed.
  2:{ eexists _, _. split; [reflexivity | exact I]. }
  destruct (VectorDB.search W cfg
              (mkQuery (Some v) None (topKOr5 options) (filter options) false) db).1
    as [found|e] eqn:Hsearch.
  2:{ eexists _, _. split; [reflexivity | exact I]. }
  unfold bind at 1. unfold VectorDB.now at 1. cbv zeta.
  unfold bind at 1. unfold VectorDB.now at 1.
  unfold bind at 1. unfold liftResult at 1.
  destruct (generate _) as [ans|e] eqn:Hgen.
  2:{ eexists _, (S (S (S (ticks db)))). split; [by destruct db | exact I]. }
  unfold bind at 1. unfold VectorDB.now at 1. unfold ret.
  eexists _, (S (S (S (S (ticks db))))). split; [by destruct db|].
  exists v, found.
  split; [reflexivity|].
  split; [unfold topKOr5; by destruct (topK options) as [[|k]|]|].
  split; [unfold topKOr5; destruct (topK options) as [[|k]|]; auto|].
  split; [exact Hsearch|]. split; [reflexivity|].
  split; [exact Hgen|].
  split; [by intros ->|].
  split; [reflexivity|].
  intros Hpos. cbn [contextLength].
  by apply truncateContext_estimate.
Qed.

End Querying.

(* --------------------------------------------------------------------- *)
(** ** Searching by text *)
(* --------------------------------------------------------------------- *)

Section SearchByText.

Variable W : World.
Variable cfg : Config.

Lemma ensureModelsLoaded_ok c db :
  (modelsLoaded db = true
   \/ (generatorLoads W = true /\ generatorDimensions W = dimensions cfg)) ->
  VectorDB.ensureModelsLoaded W cfg (set_embeddingCache c db)
  = (Ok tt, set_modelsLoaded true (set_embeddingCache c db)).
Proof.
  intros Hmodels. unfold VectorDB.ensureModelsLoaded. unfold_M.
  cbn [modelsLoaded set_embeddingCache].
  destruct (modelsLoaded db) eqn:Hloaded; cbn [negb].
  - by destruct db; simpl in *; subst.
  - destruct Hmodels as [?|[Hloads Hdims]]; [discriminate|].
    rewrite Hloads, Hdims, Nat.eqb_refl. reflexivity.
Qed.

(** X24.  A search by text is the search by the embedding of the text.
    When the query is valid, the text is not in the embedding cache, the
    models are loaded (or load, with the configured dimension) and the
    generator returns [v] for the text, [search] with the text returns the
    ids, scores and metadata that [search] with the vector [v] returns, or
    throws what that throws; and afterwards the embedding is in the cache
    (when it holds anything), whether the search returned or threw. *)
Theorem search_by_text_is_search_by_its_embedding
    (text : string) (v : Vector) (k : nat) (flt : option (Metadata -> bool))
    (incl : bool) (db : DB) :
  initialized db = true ->
  validateSearchQuery W k = Ok tt ->
  text <> "" ->
  (ec_get text (embeddingCache db)).1 = None ->
  (modelsLoaded db = true
   \/ (generatorLoads W = true /\ generatorDimensions W = dimensions cfg)) ->
  generatorEmbed W text = Ok v ->
  exists r db',
    VectorDB.search W cfg (mkQuery None (Some text) k flt incl) db = (r, db')
    /\ VectorDB.resultKeys r
       = VectorDB.resultKeys
           (VectorDB.search W cfg (mkQuery (Some v) None k flt incl) db).1
    /\ ((0 < embeddingCacheEntries cfg)%nat ->
        (ec_get text (embeddingCache db')).1 = Some v).
Proof.
  intros Hinit Hk Hne Hmiss Hmodels Hembed.
  rewrite (search_by_text_run W cfg (mkQuery None (Some text) k flt incl) text db
             Hinit Hk eq_refl eq_refl Hne Hmiss).
  rewrite (search_by_vector_run W cfg (mkQuery (Some v) None k flt incl) v db
             Hinit eq_refl).
  cbn [q_k q_filter q_includeVectors]. rewrite Hk.
  rewrite (ensureModelsLoaded_ok _ db Hmodels), Hembed. cbv zeta.
  set (db2 := set_embeddingCache _ (set_modelsLoaded true _)).
  assert (Hix : index db2 = index db) by reflexivity.
  assert (Hcached : (0 < embeddingCacheEntries cfg)%nat ->
                    (ec_get text (embeddingCache db2)).1 = Some v).
  { intros Hcap. unfold db2. cbn [embeddingCache set_embeddingCache].
    by apply ec_get_set. }
  unfold index_search. rewrite Hix.
  destruct (hasDimension (dimensions cfg) v).
  2:{ eexists _, _. split; [reflexivity|]. by split. }
  destruct incl.
  2:{ eexists _, _. split; [reflexivity|]. by split. }
  match goal with
  | |- context [VectorDB.hydrate W cfg ?rs db2] =>
      destruct (hydrate_frame W cfg rs db2) as (results2 & c2 & Hrun2 & Hids2);
      destruct (hydrate_ok W cfg rs db2) as (results2' & db2' & Hrun2' & Hkeys2 & _);
      destruct (hydrate_ok W cfg rs db) as (results1 & db1 & Hrun1 & Hkeys1 & _)
  end.
  rewrite Hrun2' in Hrun2. injection Hrun2 as -> ->.
  rewrite Hrun2', Hrun1. eexists _, _. split; [reflexivity|].
  split; [simpl; by rewrite Hkeys2, Hkeys1 | exact Hcached].
Qed.

End SearchByText.

(** The three records, searched for a text that is not cached. *)
Lemma search_by_text_is_search_by_its_embedding_witness :
  initialized Demo.threeRecords = true
  /\ generatorEmbed Demo.world "hi" = Ok [0; 1; 2]
  /\ exists r db',
       VectorDB.search Demo.world Demo.config (mkQuery None (Some "hi") 2 None true)
         Demo.threeRecords = (r, db')
       /\ VectorDB.resultKeys r
          = VectorDB.resultKeys
              (VectorDB.search Demo.world Demo.config
                 (mkQuery (Some [0; 1; 2]) None 2 None true) Demo.threeRecords).1
       /\ ((0 < embeddingCacheEntries Demo.config)%nat ->
           (ec_get "hi" (embeddingCache db')).1 = Some [0; 1; 2]).
Proof.
  split; [vm_compute; reflexivity|]. split; [reflexivity|].
  apply (search_by_text_is_search_by_its_embedding Demo.world Demo.config "hi" [0; 1; 2]
           2 None true Demo.threeRecords).
  - vm_compute. reflexivity.
  - reflexivity.
  - discriminate.
  - vm_compute. reflexivity.
  - right. split; reflexivity.
  - reflexivity.
Defined.

(* --------------------------------------------------------------------- *)
(** ** What an import has checked *)
(* --------------------------------------------------------------------- *)

Section ImportAccepts.

Variable W : World.
Variable cfg : Config.


End ImportAccepts.

